(** * Spreadsheet ingestion pipeline of the back-office server

    A shallow embedding of the two upload handlers of [server.js]
    ([/api/booksonix/upload] and [/api/gazelle/upload]), of the helper
    [parseExcelDate], of the tables the handlers write to, and of the
    routes for the totals, the users, the report and the export, followed
    by their properties.

    Conventions.
    - A JavaScript string is a [string] holding its UTF-8 bytes.
    - A JavaScript number is [NaN], an infinity, or a double, held as a
      decimal [Dec m e] (m * 10^e) that rounds to it; reading a numeral
      and the arithmetic round to the nearest double.
    - A row produced by [sheet_to_json] is a [gmap string cell]; a label
      that is not in the map reads as [undefined].
    - A table is a finite map (unique key) or a list (no key). *)

From Stdlib Require Import ZArith Ascii String DecimalString.
From stdpp Require Import base option gmap strings list.

(* ===================================================================== *)
(** ** JavaScript strings                                                  *)
(* ===================================================================== *)

Module JsString.

Definition code (c : ascii) : N := N_of_ascii c.

Definition chr (n : N) : ascii := ascii_of_N n.

(** [\d] of a regular expression without the [u] flag: ASCII digits only. *)
Definition is_digit (c : ascii) : bool :=
  (48 <=? code c)%N && (code c <=? 57)%N.

Definition digit_value (c : ascii) : Z := Z.of_N (code c) - 48.

(** The one-byte members of WhiteSpace and LineTerminator:
    TAB, LF, VT, FF, CR and SPACE. *)
Definition is_ascii_space (c : ascii) : bool :=
  ((9 <=? code c)%N && (code c <=? 13)%N) || (code c =? 32)%N.

(** U+00A0 NO-BREAK SPACE, encoded C2 A0. *)
Definition is_space2 (c1 c2 : ascii) : bool :=
  (code c1 =? 194)%N && (code c2 =? 160)%N.

(** The three-byte members: U+1680, U+2000..U+200A, U+2028, U+2029,
    U+202F, U+205F, U+3000 and U+FEFF. *)
Definition is_space3 (c1 c2 c3 : ascii) : bool :=
  let a := code c1 in let b := code c2 in let c := code c3 in
  ((a =? 225) && (b =? 154) && (c =? 128))%N
  || ((a =? 226)%N && (b =? 128)%N
      && (((128 <=? c)%N && (c <=? 138)%N)
          || (c =? 168)%N || (c =? 169)%N || (c =? 175)%N))
  || ((a =? 226) && (b =? 129) && (c =? 159))%N
  || ((a =? 227) && (b =? 128) && (c =? 128))%N
  || ((a =? 239) && (b =? 187) && (c =? 191))%N.

(** [String.prototype.trimStart]. *)
Fixpoint trimStart (s : string) : string :=
  match s with
  | EmptyString => EmptyString
  | String c1 s1 =>
    if is_ascii_space c1 then trimStart s1
    else match s1 with
         | EmptyString => s
         | String c2 s2 =>
           if is_space2 c1 c2 then trimStart s2
           else match s2 with
                | EmptyString => s
                | String c3 s3 =>
                  if is_space3 c1 c2 c3 then trimStart s3 else s
                end
         end
  end.

(** A string made of white space only. *)
Definition is_blank (s : string) : bool :=
  match trimStart s with EmptyString => true | _ => false end.

(** [String.prototype.trimEnd]: the longest blank suffix is dropped. *)
Fixpoint trimEnd (s : string) : string :=
  match s with
  | EmptyString => EmptyString
  | String c s' => if is_blank s then EmptyString else String c (trimEnd s')
  end.

(** [String.prototype.trim]. *)
Definition trim (s : string) : string := trimEnd (trimStart s).

(** [s.replace(/[...]/g, '')] for a class of one-byte characters, and for
    a negated class (every byte of a multi-byte character is outside the
    ASCII range, hence inside any negated ASCII class). *)
Fixpoint remove_if (p : ascii -> bool) (s : string) : string :=
  match s with
  | EmptyString => EmptyString
  | String c s' => if p c then remove_if p s' else String c (remove_if p s')
  end.

Definition remove_char (x : ascii) (s : string) : string :=
  remove_if (Ascii.eqb x) s.

(** [s.replace(re, '')] with the [g] flag, for an expression given by
    [strip]: [strip t] is the rest of [t] after a match at its start. The
    scan resumes after each match and otherwise moves one byte on. *)
Fixpoint remove_matches_fuel (strip : string -> option string)
    (fuel : nat) (s : string) : string :=
  match fuel with
  | O => s
  | S fuel' =>
    match s with
    | EmptyString => EmptyString
    | String c s' =>
      match strip s with
      | Some rest => remove_matches_fuel strip fuel' rest
      | None => String c (remove_matches_fuel strip fuel' s')
      end
    end
  end.

Definition remove_matches (strip : string -> option string) (s : string)
  : string :=
  remove_matches_fuel strip (String.length s) s.

(** A literal at the start of a string. *)
Fixpoint strip_prefix (p s : string) : option string :=
  match p with
  | EmptyString => Some s
  | String a p' =>
    match s with
    | EmptyString => None
    | String b s' => if Ascii.eqb a b then strip_prefix p' s' else None
    end
  end.

Definition lower (c : ascii) : ascii :=
  if ((65 <=? code c)%N && (code c <=? 90)%N)%bool
  then chr (code c + 32) else c.

(** The same, ignoring the case of ASCII letters (flag [i]). *)
Fixpoint strip_prefix_ci (p s : string) : option string :=
  match p with
  | EmptyString => Some s
  | String a p' =>
    match s with
    | EmptyString => None
    | String b s' =>
      if Ascii.eqb (lower a) (lower b) then strip_prefix_ci p' s' else None
    end
  end.

(** [/GBP/gi] *)
Definition re_GBP : string -> option string := strip_prefix_ci "GBP".

(** [/£/g]: the pound sign is the two bytes C2 A3. *)
Definition pound : string := String (chr 194) (String (chr 163) EmptyString).
Definition re_pound : string -> option string := strip_prefix pound.

(** [/[£$€]/g]: the euro sign is the three bytes E2 82 AC. *)
Definition euro : string :=
  String (chr 226) (String (chr 130) (String (chr 172) EmptyString)).
Definition re_currency (s : string) : option string :=
  match strip_prefix pound s with
  | Some r => Some r
  | None =>
    match strip_prefix "$" s with
    | Some r => Some r
    | None => strip_prefix euro s
    end
  end.

(** [String.prototype.includes]. *)
Fixpoint includes (needle hay : string) : bool :=
  match strip_prefix needle hay with
  | Some _ => true
  | None =>
    match hay with
    | EmptyString => false
    | String _ hay' => includes needle hay'
    end
  end.

(** [s.split(sep)] for a one-character separator. *)
Fixpoint split (sep : ascii) (s : string) : list string :=
  match s with
  | EmptyString => [EmptyString]
  | String c s' =>
    if Ascii.eqb c sep then EmptyString :: split sep s'
    else match split sep s' with
         | [] => [String c EmptyString]
         | p :: ps => String c p :: ps
         end
  end.

(** Every byte of the string satisfies [p]. *)
Fixpoint str_forall (p : ascii -> bool) (s : string) : bool :=
  match s with
  | EmptyString => true
  | String c s' => p c && str_forall p s'
  end.

(** A digit or a slash. *)
Definition digit_or_slash (c : ascii) : bool := is_digit c || Ascii.eqb c "/".

(** A byte other than the letter d. *)
Definition no_d (c : ascii) : bool := negb (Ascii.eqb c "d").

Fixpoint all_digits (s : string) : bool :=
  match s with
  | EmptyString => true
  | String c s' => is_digit c && all_digits s'
  end.

(** The number of characters (code points) of a UTF-8 string: the bytes
    that are not continuation bytes. *)
Fixpoint char_length (s : string) : nat :=
  match s with
  | EmptyString => O
  | String c s' =>
    if ((128 <=? code c)%N && (code c <=? 191)%N)%bool
    then char_length s' else S (char_length s')
  end.

End JsString.

(* ===================================================================== *)
(** ** JavaScript numbers                                                  *)
(* ===================================================================== *)

Module JsNumber.
Import JsString.
Local Open Scope Z_scope.

(** A number is [NaN], an infinity, or a double, which is held as a
    decimal [m * 10^e] that rounds to it: the digits of a numeral when
    they are few enough to be the ones Number::toString prints for its
    double, the digits Number::toString prints otherwise. Both zeros are
    [Dec 0 _]. *)
Inductive number : Type :=
  | NaN
  | Inf (negative : bool)
  | Dec (m e : Z).

Definition of_Z (z : Z) : number := Dec z 0.

(** ToBoolean on a number: [NaN] and the zeros are falsy. *)
Definition num_truthy (n : number) : bool :=
  match n with
  | NaN => false
  | Inf _ => true
  | Dec m _ => negb (m =? 0)
  end.

(** [n || 0] *)
Definition or_zero (n : number) : number :=
  if num_truthy n then n else of_Z 0.

Definition is_negative (n : number) : bool :=
  match n with
  | NaN => false
  | Inf neg => neg
  | Dec m _ => m <? 0
  end.

(** A number that is not negative and not [NaN]: a decimal of
    significand at least 0, or the positive infinity. *)
Definition not_negative (x : number) : Prop :=
  match x with
  | Dec m _ => 0 <= m
  | Inf neg => neg = false
  | NaN => False
  end.

(** *** Doubles *)

(** [a / b] rounded to the nearest integer, ties to the even one, for
    [0 <= a] and [0 < b]. *)
Definition div_nearest_even (a b : Z) : Z :=
  let q := a / b in
  match 2 * (a mod b) ?= b with
  | Lt => q
  | Gt => q + 1
  | Eq => if Z.even q then q else q + 1
  end.

(** [p / q] divided by [2^E], as a fraction. *)
Definition scale2 (p q E : Z) : Z * Z :=
  if 0 <=? E then (p, q * 2 ^ E) else (p * 2 ^ (- E), q).

(** The double nearest to [p / q], for [0 < p] and [0 < q], ties to the
    even significand: [Some (M, E)] is the double [M * 2^E], with
    [M < 2^53] and [-1074 <= E <= 971]; [None] when the fraction rounds
    to an infinity. *)
Definition nearest_double (p q : Z) : option (Z * Z) :=
  let l := Z.log2 p - Z.log2 q in
  let Ea := Z.max (l - 52) (-1074) in
  let '(a, b) := scale2 p q Ea in
  let E := if a / b <? 2 ^ 52 then Z.max (Ea - 1) (-1074) else Ea in
  let '(a', b') := scale2 p q E in
  let M := div_nearest_even a' b' in
  let '(M', E') := if M =? 2 ^ 53 then (2 ^ 52, E + 1) else (M, E) in
  if 971 <? E' then None else Some (M', E').

(** The decimal [s * 10^t] and the double [M * 2^E] as fractions. *)
Definition decimal_fraction (s t : Z) : Z * Z :=
  if 0 <=? t then (s * 10 ^ t, 1) else (s, 10 ^ (- t)).

Definition binary_fraction (M E : Z) : Z * Z :=
  if 0 <=? E then (M * 2 ^ E, 1) else (M, 2 ^ (- E)).

(** The decimal [s * 10^t] rounds to the double [M * 2^E]. *)
Definition reads_as (s t M E : Z) : bool :=
  let '(p, q) := decimal_fraction s t in
  match nearest_double p q with
  | Some (M', E') => (M' =? M) && (E' =? E)
  | None => false
  end.

(** [p / q < 10^n] *)
Definition below_pow10 (p q n : Z) : bool :=
  if 0 <=? n then p <? q * 10 ^ n else p * 10 ^ (- n) <? q.

(** The [n] with [10^(n-1) <= p / q < 10^n]. *)
Definition decimal_exponent (p q : Z) : Z :=
  let est := (Z.log2 p - Z.log2 q) * 30103 / 100000 in
  if below_pow10 p q (est - 1) then est - 1
  else if below_pow10 p q est then est
  else if below_pow10 p q (est + 1) then est + 1
  else est + 2.

(** The integer part of [p / q] divided by [10^t]. *)
Definition floor_scaled (p q t : Z) : Z :=
  if 0 <=? t then p / (q * 10 ^ t) else (p * 10 ^ (- t)) / q.

(** Of [s * 10^t] and [(s + 1) * 10^t], the first is the closer to
    [p / q], or as close and even. *)
Definition closer_low (p q s t : Z) : bool :=
  let '(a, b) :=
    if 0 <=? t then (2 * p, q * 10 ^ t) else (2 * p * 10 ^ (- t), q) in
  match a ?= (2 * s + 1) * b with
  | Lt => true
  | Gt => false
  | Eq => Z.even s
  end.

(** The digits of Number::toString: the decimal of fewest digits [k]
    that rounds to the double [M * 2^E = p / q], the closest to it when
    there are two; 17 digits always suffice. *)
Fixpoint shortest_from (fuel : nat) (k p q n M E : Z) : Z * Z :=
  let t := n - k in
  let s := floor_scaled p q t in
  match fuel with
  | O => (s, t)
  | S fuel' =>
    if reads_as s t M E then
      if reads_as (s + 1) t M E then
        if closer_low p q s t then (s, t) else (s + 1, t)
      else (s, t)
    else if reads_as (s + 1) t M E then (s + 1, t)
    else shortest_from fuel' (k + 1) p q n M E
  end.

Definition shortest (M E : Z) : Z * Z :=
  let '(p, q) := binary_fraction M E in
  shortest_from 17 1 p q (decimal_exponent p q) M E.

(** The number that the fraction [p / q], [0 < p] and [0 < q], rounds
    to, negated when [neg]. *)
Definition round_fraction (neg : bool) (p q : Z) : number :=
  match nearest_double p q with
  | None => Inf neg
  | Some (M, E) =>
    if M =? 0 then Dec 0 0
    else let '(s, t) := shortest M E in
         Dec (if neg then - s else s) t
  end.

(** A decimal of at most 15 digits, well within the range of the normal
    doubles: the only decimal of so few digits that rounds to its
    double, so the one Number::toString prints. *)
Definition short (m e : Z) : bool :=
  if Z.abs m <? 10 ^ 15
  then if -290 <=? e then e <=? 290 else false
  else false.

(** An integer of absolute value at most [2^53]: a double itself, and
    printed by Number::toString with its own digits. *)
Definition safe_integer (m e : Z) : bool :=
  if 0 <=? e
  then if e <=? 16 then Z.abs (m * 10 ^ e) <=? 2 ^ 53 else false
  else false.

(** Bounds on the decimal exponent of [m * 10^e], [m <> 0], from the
    number of bits of [m] (the logarithm of 2 lies between 0.30102 and
    0.30103): [10^above <= |m * 10^e| < 10^below]. They spare the
    rounding a power of 10 of enormous exponent: from [10^309] on a
    decimal is above every double and rounds to an infinity, under
    [10^(-324)] it is less than half the least double and rounds to
    zero. *)
Definition above (m e : Z) : Z :=
  e + Z.log2 (Z.abs m) * 30102 / 100000.

Definition below (m e : Z) : Z :=
  e + (Z.log2 (Z.abs m) + 1) * 30103 / 100000 + 1.

(** The Number value of the decimal [m * 10^e]. *)
Definition to_double (m e : Z) : number :=
  if m =? 0 then Dec 0 e
  else if short m e then Dec m e
  else if safe_integer m e then Dec m e
  else if 309 <=? above m e then Inf (m <? 0)
  else if below m e <=? -324 then Dec 0 0
  else let '(p, q) := decimal_fraction (Z.abs m) e in
       round_fraction (m <? 0) p q.

(** The double that [m * 10^e] stands for, as a fraction of integers;
    [None] for an infinity. *)
Definition fraction (m e : Z) : option (Z * Z) :=
  if m =? 0 then Some (0, 1)
  else if safe_integer m e then Some (m * 10 ^ e, 1)
  else if 309 <=? above m e then None
  else if below m e <=? -324 then Some (0, 1)
  else let '(p, q) := decimal_fraction (Z.abs m) e in
       match nearest_double p q with
       | None => None
       | Some (M, E) =>
         let '(a, b) := binary_fraction M E in
         Some (if m <? 0 then - a else a, b)
       end.

(** The number that the fraction [a / b], [0 < b], rounds to. *)
Definition of_fraction (a b : Z) : number :=
  if a =? 0 then Dec 0 0
  else if (b =? 1) && (Z.abs a <=? 2 ^ 53) then Dec a 0
  else round_fraction (a <? 0) (Z.abs a) b.

(** *** Reading numerals *)

Fixpoint span_digits (s : string) : string * string :=
  match s with
  | EmptyString => (EmptyString, EmptyString)
  | String c s' =>
    if is_digit c
    then let '(d, r) := span_digits s' in (String c d, r)
    else (EmptyString, s)
  end.

Fixpoint digits_value_from (acc : Z) (s : string) : Z :=
  match s with
  | EmptyString => acc
  | String c s' => digits_value_from (10 * acc + digit_value c) s'
  end.

Definition digits_value (s : string) : Z := digits_value_from 0 s.

Definition take_sign (s : string) : bool * string :=
  match s with
  | EmptyString => (false, EmptyString)
  | String c s' =>
    if Ascii.eqb c "-" then (true, s')
    else if Ascii.eqb c "+" then (false, s')
    else (false, s)
  end.

Definition signed (neg : bool) (z : Z) : Z := if neg then - z else z.

(** [parseInt(s, 10)]: leading white space, a sign, then the longest run
    of decimal digits, and the Number value of that integer; [NaN] when
    there is no digit. [parseInt(s)] agrees with it on every string that
    has no [x] or [X] in it. *)
Definition parseInt (s : string) : number :=
  let '(neg, r) := take_sign (trimStart s) in
  let '(d, _) := span_digits r in
  match d with
  | EmptyString => NaN
  | _ => to_double (signed neg (digits_value d)) 0
  end.

(** The exponent part of a decimal literal: [e] or [E], a sign, digits.
    Without a digit there is no exponent part. *)
Definition exponent_part (s : string) : Z :=
  match s with
  | String c r =>
    if (Ascii.eqb c "e" || Ascii.eqb c "E")%bool then
      let '(neg, r') := take_sign r in
      let '(d, _) := span_digits r' in
      match d with
      | EmptyString => 0
      | _ => signed neg (digits_value d)
      end
    else 0
  | EmptyString => 0
  end.

(** [parseFloat(s)]: leading white space, then the longest prefix that is
    a StrDecimalLiteral, and the Number value of that decimal; [NaN] when
    there is none. *)
Definition parseFloat (s : string) : number :=
  let '(neg, r) := take_sign (trimStart s) in
  match strip_prefix "Infinity" r with
  | Some _ => Inf neg
  | None =>
    let '(ip, r1) := span_digits r in
    let '(fp, r2) :=
      match r1 with
      | String c r' =>
        if Ascii.eqb c "." then span_digits r' else (EmptyString, r1)
      | EmptyString => (EmptyString, r1)
      end in
    match String.append ip fp with
    | EmptyString => NaN
    | ds => to_double (signed neg (digits_value ds))
                (exponent_part r2 - Z.of_nat (String.length fp))
    end
  end.

(** *** Arithmetic used by the handlers *)

(** [n - k] and [n * k] for an integer constant [k]: the exact
    difference and product of the two doubles, rounded to a double. *)
Definition sub_const (n : number) (k : Z) : number :=
  match n with
  | Dec m e =>
    match fraction m e with
    | Some (a, b) => of_fraction (a - k * b) b
    | None => Inf (m <? 0)
    end
  | _ => n
  end.

Definition mul_const (n : number) (k : Z) : number :=
  match n with
  | Dec m e =>
    match fraction m e with
    | Some (a, b) => of_fraction (a * k) b
    | None => if k =? 0 then NaN else Inf (xorb (m <? 0) (k <? 0))
    end
  | Inf neg => if k =? 0 then NaN else Inf (xorb neg (k <? 0))
  | NaN => NaN
  end.

(** ToIntegerOrInfinity on a finite number: truncation towards zero. *)
Definition truncate (m e : Z) : Z :=
  if 0 <=? e then m * 10 ^ e else Z.quot m (10 ^ (- e)).

(** The value scaled by [10^2] and rounded to an integer, halves away
    from zero: the rounding of a [DECIMAL(p,2)] column. *)
Definition hundredths (m e : Z) : Z :=
  if 0 <=? e + 2 then m * 10 ^ (e + 2)
  else let d := 10 ^ (- (e + 2)) in
       Z.sgn m * ((2 * Z.abs m + d) / (2 * d)).

(** *** Number to string *)

Fixpoint zeros (n : nat) : string :=
  match n with
  | O => EmptyString
  | S n' => String "0" (zeros n')
  end.

Fixpoint str_take (n : nat) (s : string) : string :=
  match n, s with
  | S n', String c s' => String c (str_take n' s')
  | _, _ => EmptyString
  end.

Fixpoint str_drop (n : nat) (s : string) : string :=
  match n, s with
  | S n', String _ s' => str_drop n' s'
  | _, _ => s
  end.

(** The digits without their trailing zeros, and how many were dropped. *)
Fixpoint strip_trailing_zeros (s : string) : string * nat :=
  match s with
  | EmptyString => (EmptyString, O)
  | String c s' =>
    let '(t, z) := strip_trailing_zeros s' in
    match t with
    | EmptyString => if Ascii.eqb c "0" then (EmptyString, S z)
                     else (String c EmptyString, z)
    | _ => (String c t, z)
    end
  end.

Definition digits_of (z : Z) : string :=
  match z with
  | Z0 => "0"
  | Zpos p | Zneg p => NilEmpty.string_of_uint (Pos.to_uint p)
  end.

(** Number::toString in radix 10: with [k] significant digits and the
    decimal point after the [n]-th of them, positional notation for
    [-6 < n <= 21] and exponent notation otherwise. *)
Definition number_to_string (x : number) : string :=
  match x with
  | NaN => "NaN"
  | Inf false => "Infinity"
  | Inf true => "-Infinity"
  | Dec m e =>
    if m =? 0 then "0" else
    let '(t, z) := strip_trailing_zeros (digits_of m) in
    let k := Z.of_nat (String.length t) in
    let n := k + e + Z.of_nat z in
    let body :=
      if (k <=? n) && (n <=? 21) then
        String.append t (zeros (Z.to_nat (n - k)))
      else if (0 <? n) && (n <=? 21) then
        String.append (str_take (Z.to_nat n) t)
          (String "." (str_drop (Z.to_nat n) t))
      else if (-6 <? n) && (n <=? 0) then
        String.append "0." (String.append (zeros (Z.to_nat (- n))) t)
      else
        let mant :=
          if k =? 1 then t
          else String.append (str_take 1 t) (String "." (str_drop 1 t)) in
        String.append mant
          (String "e" (String (if n - 1 <? 0 then "-"%char else "+"%char)
             (digits_of (n - 1))))
    in if m <? 0 then String "-" body else body
  end.

End JsNumber.

(* ===================================================================== *)
(** ** Cell values and rows                                                *)
(* ===================================================================== *)

Module JsValue.
Import JsString JsNumber.

(** What [sheet_to_json] puts in a row: the raw value of a cell (string,
    number or boolean; [null] for an error cell) in raw mode, its
    formatted text with [raw: false]. *)
Inductive cell : Type :=
  | CNull
  | CBool (b : bool)
  | CNum (n : number)
  | CStr (s : string).

(** A row object: column label to cell. A label that is not bound reads
    as [undefined], here [None]. *)
Abbreviation row := (gmap string cell).

(** ToBoolean *)
Definition truthy (v : cell) : bool :=
  match v with
  | CNull => false
  | CBool b => b
  | CNum n => num_truthy n
  | CStr EmptyString => false
  | CStr _ => true
  end.

Definition truthy_opt (o : option cell) : bool :=
  match o with
  | Some v => truthy v
  | None => false
  end.

(** [a || b] where either side may be [undefined]. *)
Definition js_or (a b : option cell) : option cell :=
  if truthy_opt a then a else b.

(** [String(v)] and [v.toString()] on a cell. *)
Definition to_string (v : cell) : string :=
  match v with
  | CNull => "null"
  | CBool true => "true"
  | CBool false => "false"
  | CNum n => number_to_string n
  | CStr s => s
  end.

(** A cell that is known to be defined: [undefined] cannot be the value
    of a chain that ends in a literal. *)
Definition defined (o : option cell) : cell :=
  match o with
  | Some v => v
  | None => CStr EmptyString
  end.

End JsValue.

Infix "|||" := JsValue.js_or (at level 50, left associativity).

(* ===================================================================== *)
(** ** Column resolution                                                   *)
(* ===================================================================== *)

Module Resolver.
Import JsValue.

(** The handlers resolve a field with a chain
    [row[a1] || row[a2] || ... || dflt] written out at each use.
    [or_chain] is that expression for a list of labels, with [first] the
    leftmost operand. *)
Definition or_chain (row : row) (first : option cell) (labels : list string)
    (dflt : cell) : option cell :=
  foldl (fun acc a => acc ||| row !! a) first labels ||| Some dflt.

(** The value of such a chain, label by label. *)
Fixpoint resolve (row : row) (aliases : list string) (dflt : cell) : cell :=
  match aliases with
  | [] => dflt
  | a :: rest =>
    match row !! a with
    | Some v => if truthy v then v else resolve row rest dflt
    | None => resolve row rest dflt
    end
  end.

(** The resolver as the specification words it: the value of the first
    alias that is present in the row, whatever that value is. *)
Fixpoint first_present (row : row) (aliases : list string) (dflt : cell)
  : cell :=
  match aliases with
  | [] => dflt
  | a :: rest =>
    match row !! a with
    | Some v => v
    | None => first_present row rest dflt
    end
  end.

End Resolver.

(* ===================================================================== *)
(** ** JavaScript dates                                                    *)
(* ===================================================================== *)

Module JsDate.
Import JsString JsNumber JsValue.
Local Open Scope Z_scope.

(** A Date object: its time value in milliseconds since 1970-01-01 UTC,
    or Invalid Date (time value [NaN]). *)
Inductive jsdate : Type :=
  | InvalidDate
  | DateAt (t : Z).

(** [!isNaN(d.getTime())] *)
Definition is_valid (d : jsdate) : bool :=
  match d with
  | InvalidDate => false
  | DateAt _ => true
  end.

Definition msPerDay : Z := 86400000.

Definition max_time : Z := 8640000000000000.

(** The day number (days since 1970-01-01) of a day of the proleptic
    Gregorian calendar, month in 1..12. *)
Definition days_from_civil (y m d : Z) : Z :=
  let y' := if m <=? 2 then y - 1 else y in
  let era := y' / 400 in
  let yoe := y' - era * 400 in
  let mp := if 2 <? m then m - 3 else m + 9 in
  let doy := (153 * mp + 2) / 5 + d - 1 in
  let doe := yoe * 365 + yoe / 4 - yoe / 100 + doy in
  era * 146097 + doe - 719468.

(** MakeDay(year, month, date), with the month counted from 0 and
    carried into the year when it is outside 0..11. *)
Definition MakeDay (year month date : Z) : Z :=
  let ym := year + month / 12 in
  let mn := month mod 12 in
  days_from_civil ym (mn + 1) 1 + date - 1.

(** TimeClip on an integral time value. *)
Definition TimeClip (t : Z) : jsdate :=
  if Z.abs t <=? max_time then DateAt t else InvalidDate.

(** [new Date(x)] for a number [x]: TimeClip rejects what is beyond
    8.64e15 ms in absolute value and truncates the rest. *)
Definition Date_of_number (x : number) : jsdate :=
  match x with
  | Dec m e =>
    let beyond :=
      if 0 <=? e then max_time <? Z.abs m * 10 ^ e
      else max_time * 10 ^ (- e) <? Z.abs m in
    if beyond then InvalidDate else DateAt (truncate m e)
  | _ => InvalidDate
  end.

(** What the embedding takes from the JavaScript engine and the machine:
    [Date_parse s] is [new Date(s)] for a string, whose accepted formats
    beyond the ISO ones are left to the engine, and [UTC t] is the UTC
    time value of the local time value [t]. *)
Record host : Type := Host {
  Date_parse : string -> jsdate;
  UTC : Z -> Z
}.

(** An engine that follows Node.js (V8) on the shapes of string below,
    on a machine whose local time is UTC; every other string is left to
    [other], the rest of the engine's parser, of which nothing is
    assumed.
    - [YYYY-MM-DD] is an ISO date, read as UTC midnight; the month must be
      in 1..12 and the day in 1..31.
    - One, two or three numbers separated by slashes go to the legacy
      parser, which takes 1 for a number that is missing, reads month,
      day, year when the first number can be a day (1..31) and year,
      month, day otherwise, adds 2000 to a year in 0..49 and 1900 to a
      year in 50..99, requires the month in 1..12 and the day in 1..31,
      and takes the date in local time. A number of four digits alone is
      an ISO year, to which nothing is added. *)
Module Node.

Definition is_month (x : Z) : bool := (1 <=? x) && (x <=? 12).
Definition is_day (x : Z) : bool := (1 <=? x) && (x <=? 31).

Definition legacy_year (y : Z) : Z :=
  if (0 <=? y) && (y <=? 49) then y + 2000
  else if (50 <=? y) && (y <=? 99) then y + 1900
  else y.

Definition iso_date (s : string) : option jsdate :=
  match split "-" s with
  | [y; m; d] =>
    if all_digits y && all_digits m && all_digits d
       && (String.length y =? 4)%nat && (String.length m =? 2)%nat
       && (String.length d =? 2)%nat
    then
      let yv := digits_value y in
      let mv := digits_value m in
      let dv := digits_value d in
      Some (if is_month mv && is_day dv
            then TimeClip (MakeDay yv (mv - 1) dv * msPerDay)
            else InvalidDate)
    else None
  | _ => None
  end.

Definition nonempty_digits (s : string) : bool :=
  all_digits s && negb (String.length s =? 0)%nat.

(** The date of three numbers in the order they were read. *)
Definition legacy_numbers (av bv cv : Z) : jsdate :=
  let '(y, m, d) := if is_day av then (cv, av, bv) else (av, bv, cv) in
  if is_month m && is_day d
  then TimeClip (MakeDay (legacy_year y) (m - 1) d * msPerDay)
  else InvalidDate.

Definition legacy_slashes (s : string) : option jsdate :=
  match split "/" s with
  | [a; b; c] =>
    if nonempty_digits a && nonempty_digits b && nonempty_digits c then
      let av := digits_value a in
      let bv := digits_value b in
      let cv := digits_value c in
      let '(y, m, d) := if is_day av then (cv, av, bv) else (av, bv, cv) in
      Some (if is_month m && is_day d
            then TimeClip (MakeDay (legacy_year y) (m - 1) d * msPerDay)
            else InvalidDate)
    else None
  | [a; b] =>
    if nonempty_digits a && nonempty_digits b
    then Some (legacy_numbers (digits_value a) (digits_value b) 1)
    else None
  | [a] =>
    if nonempty_digits a then
      Some (if (String.length a =? 4)%nat
            then TimeClip (MakeDay (digits_value a) 0 1 * msPerDay)
            else legacy_numbers (digits_value a) 1 1)
    else None
  | _ => None
  end.

Section Engine.

Variable other : string -> jsdate.

Definition Date_parse (s : string) : jsdate :=
  match iso_date s with
  | Some d => d
  | None =>
    match legacy_slashes s with
    | Some d => d
    | None => other s
    end
  end.

Definition utc_host : host := Host Date_parse (fun t => t).

End Engine.

End Node.

(** [/^\d{1,2}\/\d{1,2}\/\d{4}$/] *)
Definition re_dmy (s : string) : bool :=
  match split "/" s with
  | [a; b; c] =>
    all_digits a && all_digits b && all_digits c
    && ((String.length a =? 1) || (String.length a =? 2))%nat
    && ((String.length b =? 1) || (String.length b =? 2))%nat
    && (String.length c =? 4)%nat
  | _ => false
  end.

(** [/^\d{4}-\d{2}-\d{2}$/] *)
Definition re_ymd (s : string) : bool :=
  match split "-" s with
  | [a; b; c] =>
    all_digits a && all_digits b && all_digits c
    && (String.length a =? 4)%nat && (String.length b =? 2)%nat
    && (String.length c =? 2)%nat
  | _ => false
  end.

(** What [parseExcelDate] can be given: a cell, or a Date object. *)
Inductive jsval : Type :=
  | VCell (c : cell)
  | VDate (d : jsdate).

Section ParseExcelDate.

Variable h : host.

(** [new Date(year, month, day)]: the fields are local time; a year in
    0..99 stands for 1900 + year; a [NaN] field gives Invalid Date. *)
Definition Date_of_fields (year month day : number) : jsdate :=
  match year, month, day with
  | Dec ym ye, Dec mm me, Dec dm de =>
    let y := truncate ym ye in
    let yr := if (0 <=? y) && (y <=? 99) then 1900 + y else y in
    TimeClip (UTC h (MakeDay yr (truncate mm me) (truncate dm de) * msPerDay))
  | _, _, _ => InvalidDate
  end.

(** The branch [typeof value === 'number'] of [parseExcelDate]. *)
Definition excelDate (value : number) : jsdate :=
  Date_of_number (mul_const (mul_const (sub_const value 25569) 86400) 1000).

(** The branch [typeof value === 'string'] of [parseExcelDate]. *)
Definition parse_date_string (value : string) : option jsdate :=
  let trimmedValue := trim value in
  let date := Date_parse h trimmedValue in
  if is_valid date then Some date
  else
    let dmy :=
      if re_dmy trimmedValue then
        match split "/" trimmedValue with
        | [p0; p1; p2] =>
          let day := parseInt p0 in
          let month := parseInt p1 in
          let year := parseInt p2 in
          Date_of_fields year (sub_const month 1) day
        | _ => InvalidDate
        end
      else InvalidDate in
    if is_valid dmy then Some dmy
    else if re_ymd trimmedValue then
      let date := Date_parse h trimmedValue in
      if is_valid date then Some date else None
    else None.

(** [parseExcelDate(value)]; [None] is [null]. *)
Definition parseExcelDate (value : jsval) : option jsdate :=
  match value with
  | VDate d => Some d
  | VCell c =>
    if negb (truthy c) then None
    else match c with
         | CNum n =>
           let d := excelDate n in
           if is_valid d then Some d else None
         | CStr s => parse_date_string s
         | _ => None
         end
  end.

End ParseExcelDate.

End JsDate.

(* ===================================================================== *)
(** ** The relational store                                                *)
(* ===================================================================== *)

Module Pg.
Import JsString JsNumber JsValue JsDate.
Local Open Scope Z_scope.

(** The errors a statement of the upload handlers can be answered with,
    by SQLSTATE. *)
Inductive pg_error : Type :=
  | string_data_right_truncation (n : nat)        (* 22001 *)
  | numeric_value_out_of_range (what : string)    (* 22003 *)
  | invalid_text_representation (what : string)   (* 22P02 *)
  | character_not_in_repertoire                   (* 22021 *)
  | unique_violation (constraint : string).       (* 23505 *)

(** A value between double quotes, as the messages show it. *)
Definition quoted (s : string) : string :=
  String (ascii_of_nat 34) (String.append s (String (ascii_of_nat 34) "")).

Definition code (e : pg_error) : string :=
  match e with
  | string_data_right_truncation _ => "22001"
  | numeric_value_out_of_range _ => "22003"
  | invalid_text_representation _ => "22P02"
  | character_not_in_repertoire => "22021"
  | unique_violation _ => "23505"
  end.

Definition message (e : pg_error) : string :=
  match e with
  | string_data_right_truncation n =>
    String.append "value too long for type character varying("
      (String.append (digits_of (Z.of_nat n)) ")")
  | numeric_value_out_of_range what => what
  | invalid_text_representation what =>
    String.append "invalid input syntax for type " what
  | character_not_in_repertoire =>
    String.append "invalid byte sequence for encoding "
      (String.append (quoted "UTF8") ": 0x00")
  | unique_violation c =>
    String.append "duplicate key value violates unique constraint " c
  end.

Inductive result (A : Type) : Type :=
  | Ok (a : A)
  | Error (e : pg_error).
Arguments Ok {A} a.
Arguments Error {A} e.

#[global] Instance result_bind : MBind result := fun A B k r =>
  match r with
  | Ok a => k a
  | Error e => Error e
  end.

(** The first [n] characters of a string and what follows them. *)
Fixpoint split_chars (n : nat) (s : string) : string * string :=
  match s with
  | EmptyString => (EmptyString, EmptyString)
  | String c s' =>
    if ((128 <=? JsString.code c)%N && (JsString.code c <=? 191)%N)%bool
    then let '(p, r) := split_chars n s' in (String c p, r)
    else match n with
         | O => (EmptyString, s)
         | S n' => let '(p, r) := split_chars n' s' in (String c p, r)
         end
  end.

Fixpoint all_spaces (s : string) : bool :=
  match s with
  | EmptyString => true
  | String c s' => Ascii.eqb c " " && all_spaces s'
  end.

(** The text parameters of a statement, as the database receives them:
    it refuses a text that holds the character NUL. *)
Definition no_nul (s : string) : bool :=
  str_forall (fun c => negb (Ascii.eqb c Ascii.zero)) s.

Definition text_parameters (ps : list string) : result unit :=
  if forallb no_nul ps then Ok tt else Error character_not_in_repertoire.

(** Storing a text the database has received into a [VARCHAR(n)]
    column: a value of more than [n] characters is an error unless the
    excess is spaces only, which are cut off. *)
Definition varchar (n : nat) (s : string) : result string :=
  let '(p, r) := split_chars n s in
  if all_spaces r then Ok p else Error (string_data_right_truncation n).

(** A [DECIMAL(p,2)] value: NaN, or a number of hundredths. *)
Inductive numeric : Type :=
  | NumericNaN
  | Numeric (hundredths : Z).

(** Storing a number into a [DECIMAL(p,2)] column: rounded to two
    decimals, and an error when the rounded value has more than [p - 2]
    digits before the point. *)
Definition decimal2 (p : Z) (x : number) : result numeric :=
  match x with
  | NaN => Ok NumericNaN
  | Inf _ => Error (numeric_value_out_of_range "numeric field overflow")
  | Dec m e =>
    let c := hundredths m e in
    if Z.abs c <? 10 ^ p then Ok (Numeric c)
    else Error (numeric_value_out_of_range "numeric field overflow")
  end.

(** Storing a number into an [INTEGER] column. The driver sends the text
    of the number: a fraction or an exponent is not integer syntax. *)
Definition integer (x : number) : result Z :=
  match x with
  | Dec m e =>
    let v := truncate m e in
    let integral := (0 <=? e) || (m mod 10 ^ (- e) =? 0) in
    if integral && (Z.abs v <? 10 ^ 21) then
      if (- 2 ^ 31 <=? v) && (v <? 2 ^ 31) then Ok v
      else Error (numeric_value_out_of_range
                    (String.append "value "
                       (String.append (quoted (number_to_string x))
                          " is out of range for type integer")))
    else Error (invalid_text_representation
                  (String.append "integer: " (quoted (number_to_string x))))
  | _ => Error (invalid_text_representation
                  (String.append "integer: " (quoted (number_to_string x))))
  end.

(** A nullable column. *)
Definition nullable {A : Type} (f : string -> result A) (o : option string)
  : result (option A) :=
  match o with
  | None => Ok None
  | Some s => a ← f s; Ok (Some a)
  end.

(** *** booksonix_records

    [sku VARCHAR(100) UNIQUE NOT NULL, isbn VARCHAR(50),
     title VARCHAR(500), author VARCHAR(500), publisher VARCHAR(500),
     price DECIMAL(10,2), quantity INTEGER DEFAULT 0].
    The columns the upload never writes ([format], [publication_date],
    [description], [category]), the serial [id] and the two time stamps
    are left out. *)
Record booksonix_record : Type := BooksonixRecord {
  sku : string;
  isbn : option string;
  title : string;
  author : string;
  publisher : string;
  price : numeric;
  quantity : Z
}.

(** The table, by its unique key [sku]. *)
Abbreviation booksonix_records := (gmap string booksonix_record).

(** [NULLIF(x, '')] *)
Definition nullif_empty (x : option string) : option string :=
  match x with
  | Some EmptyString => None
  | _ => x
  end.

(** [COALESCE(x, y)] *)
Definition coalesce (x y : option string) : option string :=
  match x with
  | Some _ => x
  | None => y
  end.

(** The [DO UPDATE SET] clause of the upload's statement: [old] is the
    row in the table, [excluded] the row proposed for insertion. *)
Definition do_update (old excluded : booksonix_record) : booksonix_record :=
  {| sku := sku old;
     isbn := coalesce (nullif_empty (isbn excluded)) (isbn old);
     title := title excluded;
     author := author old;
     publisher := publisher excluded;
     price := price excluded;
     quantity := quantity old |}.

(** The row under a key after the rows [x] then [y] proposed for that
    key, [None] standing for no row: the first is inserted, each later
    one updates. *)
Definition merge_opt (x y : option booksonix_record)
  : option booksonix_record :=
  match x, y with
  | None, _ => y
  | _, None => x
  | Some a, Some b => Some (do_update a b)
  end.

(** The row proposed by [VALUES ($1, ..., $7)], each parameter stored
    into its column. *)
Definition booksonix_values (p_sku : string) (p_isbn : option string)
    (p_title p_author p_publisher : string) (p_price p_quantity : number)
  : result booksonix_record :=
  _ ← text_parameters (p_sku :: option_list p_isbn
                         ++ [p_title; p_author; p_publisher]);
  c_sku ← varchar 100 p_sku;
  c_isbn ← nullable (varchar 50) p_isbn;
  c_title ← varchar 500 p_title;
  c_author ← varchar 500 p_author;
  c_publisher ← varchar 500 p_publisher;
  c_price ← decimal2 10 p_price;
  c_quantity ← integer p_quantity;
  Ok {| sku := c_sku; isbn := c_isbn; title := c_title; author := c_author;
        publisher := c_publisher; price := c_price;
        quantity := c_quantity |}.

(** [INSERT INTO booksonix_records ... ON CONFLICT (sku) DO UPDATE SET ...
    RETURNING id, (xmax = 0) AS inserted]: the answer is the flag
    [inserted] and the table after the statement. *)
Definition booksonix_upsert (excluded : booksonix_record)
    (tbl : booksonix_records) : bool * booksonix_records :=
  match tbl !! sku excluded with
  | None => (true, <[sku excluded := excluded]> tbl)
  | Some old => (false, <[sku excluded := do_update old excluded]> tbl)
  end.

(** *** gazelle_sales

    [order_ref VARCHAR(100), order_date DATE, customer_name VARCHAR(500),
     city VARCHAR(200), country VARCHAR(100), title VARCHAR(500),
     isbn13 VARCHAR(50), quantity INTEGER, unit_price DECIMAL(10,2),
     discount DECIMAL(5,2), publisher VARCHAR(500), format VARCHAR(100)]
    and no constraint besides the serial primary key [id], which is left
    out with the time stamp. The date is kept as the Date the handler
    passes; the range of the [DATE] type is not modelled. *)
Record gazelle_sale : Type := GazelleSale {
  order_ref : string;
  order_date : option jsdate;
  customer_name : string;
  city : string;
  country : string;
  sale_title : string;
  isbn13 : string;
  sale_quantity : Z;
  unit_price : numeric;
  discount : numeric;
  sale_publisher : string;
  format : string
}.

(** The table: rows in insertion order, duplicates allowed. *)
Abbreviation gazelle_sales := (list gazelle_sale).

Definition gazelle_values (p_order_ref : string) (p_date : option jsdate)
    (p_customer p_city p_country p_title p_isbn13 : string)
    (p_quantity p_unit_price p_discount : number)
    (p_publisher p_format : string) : result gazelle_sale :=
  _ ← text_parameters [p_order_ref; p_customer; p_city; p_country; p_title;
                       p_isbn13; p_publisher; p_format];
  c_order_ref ← varchar 100 p_order_ref;
  c_customer ← varchar 500 p_customer;
  c_city ← varchar 200 p_city;
  c_country ← varchar 100 p_country;
  c_title ← varchar 500 p_title;
  c_isbn13 ← varchar 50 p_isbn13;
  c_quantity ← integer p_quantity;
  c_unit_price ← decimal2 10 p_unit_price;
  c_discount ← decimal2 5 p_discount;
  c_publisher ← varchar 500 p_publisher;
  c_format ← varchar 100 p_format;
  Ok {| order_ref := c_order_ref; order_date := p_date;
        customer_name := c_customer; city := c_city; country := c_country;
        sale_title := c_title; isbn13 := c_isbn13;
        sale_quantity := c_quantity; unit_price := c_unit_price;
        discount := c_discount; sale_publisher := c_publisher;
        format := c_format |}.

(** [INSERT INTO gazelle_sales ... RETURNING id]: the table has no
    uniqueness constraint to check, the row is appended. *)
Definition gazelle_insert (r : gazelle_sale) (tbl : gazelle_sales)
  : gazelle_sales :=
  tbl ++ [r].

End Pg.

(* ===================================================================== *)
(** ** The Booksonix upload: the loop over the rows                        *)
(* ===================================================================== *)

Module Booksonix.
Import JsString JsNumber JsValue.

(** The counters of the handler. *)
Record counters : Type := Counters {
  newRecords : nat;
  duplicates : nat;
  errors : nat;
  skippedNoSku : nat
}.

Definition zero : counters := Counters 0 0 0 0.

(** The labels tried for the SKU, in the order of the source. *)
Definition sku_aliases : list string :=
  ["SKU"; "sku"; "Sku"; "Product SKU"; "Product Code"; "Item Code";
   "Code"]%string.

(** [row['SKU'] || row['sku'] || ... || ''], then hyphens removed and
    the ends trimmed when the value is truthy. *)
Definition sku_of (row : row) : cell :=
  let sku := defined (row !! "SKU" ||| row !! "sku" ||| row !! "Sku"
                      ||| row !! "Product SKU" ||| row !! "Product Code"
                      ||| row !! "Item Code" ||| row !! "Code"
                      ||| Some (CStr "")) in
  if truthy sku then CStr (trim (remove_char "-" (to_string sku))) else sku.

Definition isbn_of (row : row) : cell :=
  let isbn := defined (row !! "ISBN-13" ||| row !! "ISBN13"
                       ||| row !! "isbn-13" ||| row !! "ISBN"
                       ||| row !! "EAN" ||| Some (CStr "")) in
  if truthy isbn then CStr (trim (remove_char "-" (to_string isbn)))
  else isbn.

Definition title_of (row : row) : cell :=
  defined (row !! "Title" ||| row !! "TITLE" ||| row !! "Product Title"
           ||| Some (CStr "")).

Definition publisher_of (row : row) : cell :=
  defined (row !! "Publishers" ||| row !! "Publisher" ||| row !! "PUBLISHER"
           ||| Some (CStr "")).

(** [/[^\d.]/]: what is neither a digit nor a point. *)
Definition not_digit_or_point (c : ascii) : bool :=
  negb (is_digit c || Ascii.eqb c ".").

(** The class that the expression keeps. *)
Definition digit_or_point (c : ascii) : bool := negb (not_digit_or_point c).

Definition cleanPrice (priceValue : cell) : string :=
  trim (remove_if not_digit_or_point
          (remove_char ","
             (remove_matches re_pound
                (remove_matches re_GBP (to_string priceValue))))).

Definition price_of (row : row) : number :=
  let priceValue := defined (row !! "Prices" ||| row !! "Price"
                             ||| row !! "PRICE" ||| row !! "RRP"
                             ||| Some (CStr "")) in
  if truthy priceValue then or_zero (parseFloat (cleanPrice priceValue))
  else of_Z 0.

(** [isbn || null] *)
Definition or_null (v : cell) : option string :=
  if truthy v then Some (to_string v) else None.

(** The statement with its seven parameters
    [[sku, isbn || null, title, '', publisher, price, 0]]. *)
Definition query (row : row) (tbl : Pg.booksonix_records)
  : Pg.result (bool * Pg.booksonix_records) :=
  excluded ← Pg.booksonix_values
               (to_string (sku_of row)) (or_null (isbn_of row))
               (to_string (title_of row)) "" (to_string (publisher_of row))
               (price_of row) (of_Z 0);
  Pg.Ok (Pg.booksonix_upsert excluded tbl).

(** The row a sheet row proposes to the table: none when it has no SKU or
    when a column refuses one of its values. *)
Definition candidate (row : row) : option Pg.booksonix_record :=
  if negb (truthy (sku_of row)) then None
  else match Pg.booksonix_values
               (to_string (sku_of row)) (or_null (isbn_of row))
               (to_string (title_of row)) ""
               (to_string (publisher_of row)) (price_of row) (of_Z 0) with
       | Pg.Ok e => Some e
       | Pg.Error _ => None
       end.

(** What a sheet row proposes for the key [k]. *)
Definition contribution (k : string) (row : row)
  : option Pg.booksonix_record :=
  match candidate row with
  | Some e => if decide (Pg.sku e = k) then Some e else None
  | None => None
  end.

(** What the rows of a sheet, in order, propose for the key [k]. *)
Definition proposed (k : string) (data : list row)
  : option Pg.booksonix_record :=
  foldr (fun row acc => Pg.merge_opt (contribution k row) acc) None data.

(** The rows of a sheet by what becomes of them. *)
Definition has_key (row : row) : bool := truthy (sku_of row).
Definition accepted (row : row) : bool :=
  match candidate row with Some _ => true | None => false end.
Definition write_fails (row : row) : bool :=
  has_key row && negb (accepted row).

Definition no_key (row : row) : bool := negb (has_key row).

Fixpoint count (p : row -> bool) (data : list row) : nat :=
  match data with
  | [] => 0
  | row :: rest => (if p row then 1 else 0) + count p rest
  end.

(** The body of [for (const row of data)]. *)
Definition step (st : counters * Pg.booksonix_records) (row : row)
  : counters * Pg.booksonix_records :=
  let '(c, tbl) := st in
  if negb (truthy (sku_of row)) then
    (Counters (newRecords c) (duplicates c) (S (errors c))
       (S (skippedNoSku c)), tbl)
  else
    match query row tbl with
    | Pg.Ok (inserted, tbl') =>
      if inserted
      then (Counters (S (newRecords c)) (duplicates c) (errors c)
              (skippedNoSku c), tbl')
      else (Counters (newRecords c) (S (duplicates c)) (errors c)
              (skippedNoSku c), tbl')
    | Pg.Error _ =>
      (Counters (newRecords c) (duplicates c) (S (errors c))
         (skippedNoSku c), tbl)
    end.

(** The whole loop, from counters at zero. *)
Definition ingest (data : list row) (tbl : Pg.booksonix_records)
  : counters * Pg.booksonix_records :=
  foldl step (zero, tbl) data.

(** The body of the answer: [data.length] is in the message, the three
    counters are fields; [skippedNoSku] is not sent. *)
Record summary : Type := Summary {
  processed : nat;
  sent_newRecords : nat;
  sent_duplicates : nat;
  sent_errors : nat
}.

Definition summarize (data : list row) (c : counters) : summary :=
  Summary (length data) (newRecords c) (duplicates c) (errors c).

End Booksonix.

(* ===================================================================== *)
(** ** The Gazelle upload: the loop over the rows                          *)
(* ===================================================================== *)

Module Gazelle.
Import JsString JsNumber JsValue JsDate.

(** An entry of [errorDetails]. *)
Record error_detail : Type := ErrorDetail {
  detail_row : nat;
  detail_error : string;
  detail_orderRef : option cell;
  detail_customer : option cell
}.

Record counters : Type := Counters {
  newRecords : nat;
  updatedRecords : nat;
  errors : nat;
  skippedRows : nat;
  errorDetails : list error_detail
}.

Definition zero : counters := Counters 0 0 0 0 [].

(** [(a || b || ... || '').toString().trim()] *)
Definition text (o : option cell) : string := trim (to_string (defined o)).

(** The labels tried for the order reference, in the order of the
    source. *)
Definition orderRef_aliases : list string :=
  ["Order Ref"; "OrderRef"; "order_ref"; "Order Reference"; "Order No";
   "Order Number"]%string.

Definition orderRef_of (row : row) : string :=
  text (row !! "Order Ref" ||| row !! "OrderRef" ||| row !! "order_ref"
        ||| row !! "Order Reference" ||| row !! "Order No"
        ||| row !! "Order Number" ||| Some (CStr "")).

Definition customerName_of (row : row) : string :=
  text (row !! "Customer Name" ||| row !! "CustomerName"
        ||| row !! "customer_name" ||| row !! "Customer"
        ||| row !! "Retailer Name" ||| Some (CStr "")).

Definition city_of (row : row) : string :=
  text (row !! "City" ||| row !! "city" ||| row !! "Town"
        ||| Some (CStr "")).

Definition country_of (row : row) : string :=
  text (row !! "Country" ||| row !! "country" ||| row !! "Country Code"
        ||| Some (CStr "")).

Definition title_of (row : row) : string :=
  text (row !! "Title" ||| row !! "title" ||| row !! "Book Title"
        ||| row !! "Product Title" ||| Some (CStr "")).

Definition isbn13_of (row : row) : string :=
  trim (remove_char "-"
          (to_string (defined (row !! "ISBN-13" ||| row !! "ISBN13"
                               ||| row !! "isbn13" ||| row !! "ISBN"
                               ||| row !! "EAN" ||| Some (CStr ""))))).

Definition publisher_of (row : row) : string :=
  text (row !! "Publishers" ||| row !! "Publisher" ||| row !! "publisher"
        ||| Some (CStr "")).

Definition format_of (row : row) : string :=
  text (row !! "Format" ||| row !! "format" ||| row !! "Book Format"
        ||| Some (CStr "")).

(** [/[^\d-]/]: what is neither a digit nor a hyphen. *)
Definition not_digit_or_minus (c : ascii) : bool :=
  negb (is_digit c || Ascii.eqb c "-").

Definition quantity_of (row : row) : number :=
  let quantityValue := defined (row !! "Quantity" ||| row !! "quantity"
                                ||| row !! "Qty" ||| Some (CNum (of_Z 0))) in
  if truthy quantityValue
  then or_zero (parseInt (remove_if not_digit_or_minus
                            (to_string quantityValue)))
  else of_Z 0.

Definition unitPrice_of (row : row) : number :=
  let priceValue := defined (row !! "Unit Price" ||| row !! "unit price"
                             ||| row !! "Price" ||| Some (CNum (of_Z 0))) in
  if truthy priceValue
  then or_zero (parseFloat
                  (trim (remove_char ","
                           (remove_matches re_currency
                              (to_string priceValue)))))
  else of_Z 0.

Definition discount_of (row : row) : number :=
  let discountValue := defined (row !! "Discount %" ||| row !! "Discount"
                                ||| row !! "discount"
                                ||| Some (CNum (of_Z 0))) in
  if truthy discountValue
  then or_zero (parseFloat (remove_char "%" (to_string discountValue)))
  else of_Z 0.

Fixpoint count (p : row -> bool) (rawData : list row) : nat :=
  match rawData with
  | [] => 0
  | row :: rest => (if p row then 1 else 0) + count p rest
  end.

Section Loop.

Variable h : host.

Definition parsedDate_of (row : row) : option jsdate :=
  let dateValue := row !! "Order Date" ||| row !! "OrderDate"
                   ||| row !! "order_date" ||| row !! "Date" in
  match dateValue with
  | Some v => if truthy v then parseExcelDate h (VCell v) else None
  | None => None
  end.

(** A row without an order reference or without a customer name. *)
Definition no_key (row : row) : bool :=
  (String.eqb (orderRef_of row) "" || String.eqb (customerName_of row) "")%bool.

(** The parameters of the [INSERT], each stored into its column. *)
Definition values (row : row) : Pg.result Pg.gazelle_sale :=
  Pg.gazelle_values (orderRef_of row) (parsedDate_of row)
    (customerName_of row) (city_of row) (country_of row) (title_of row)
    (isbn13_of row) (quantity_of row) (unitPrice_of row) (discount_of row)
    (publisher_of row) (format_of row).

(** [err.message.includes('duplicate') || err.code === '23505'] *)
Definition is_duplicate (err : Pg.pg_error) : bool :=
  includes "duplicate" (Pg.message err) || String.eqb (Pg.code err) "23505".

(** The row a sheet row adds to the table: none when it has no key or
    when a column refuses one of its values. *)
Definition candidate (row : row) : option Pg.gazelle_sale :=
  if no_key row then None
  else match values row with
       | Pg.Ok r => Some r
       | Pg.Error _ => None
       end.

Definition accepted (row : row) : bool :=
  match candidate row with Some _ => true | None => false end.

Definition write_fails (row : row) : bool :=
  negb (no_key row) && negb (accepted row).

(** The rows a sheet adds to the table, in order. *)
Definition inserted (rawData : list row) : list Pg.gazelle_sale :=
  omap candidate rawData.

(** The body of the loop for the row of index [i]. *)
Definition step (i : nat) (st : counters * Pg.gazelle_sales) (row : row)
  : counters * Pg.gazelle_sales :=
  let '(c, tbl) := st in
  let orderRef := orderRef_of row in
  let customerName := customerName_of row in
  if (String.eqb orderRef "" || String.eqb customerName "")%bool then
    (Counters (newRecords c) (updatedRecords c) (errors c)
       (S (skippedRows c)) (errorDetails c), tbl)
  else
    match values row with
    | Pg.Ok r =>
      (Counters (S (newRecords c)) (updatedRecords c) (errors c)
         (skippedRows c) (errorDetails c), Pg.gazelle_insert r tbl)
    | Pg.Error err =>
      if is_duplicate err then
        (Counters (newRecords c) (S (updatedRecords c)) (errors c)
           (skippedRows c) (errorDetails c), tbl)
      else
        (Counters (newRecords c) (updatedRecords c) (S (errors c))
           (skippedRows c)
           (errorDetails c ++
              [ErrorDetail (i + 1) (Pg.message err)
                 (row !! "Order Ref") (row !! "Customer Name")]), tbl)
    end.

(** [for (let i = 0; i < rawData.length; i++)], from index [i]. *)
Fixpoint loop (i : nat) (rawData : list row)
    (st : counters * Pg.gazelle_sales) : counters * Pg.gazelle_sales :=
  match rawData with
  | [] => st
  | row :: rest => loop (S i) rest (step i st row)
  end.

Definition ingest (rawData : list row) (tbl : Pg.gazelle_sales)
  : counters * Pg.gazelle_sales :=
  loop 0 rawData (zero, tbl).

End Loop.

(** The body of the answer. *)
Record summary : Type := Summary {
  totalRows : nat;
  sent_newRecords : nat;
  sent_duplicates : nat;
  sent_skippedRows : nat;
  sent_errors : nat;
  errorSample : list error_detail
}.

Definition summarize (rawData : list row) (c : counters) : summary :=
  Summary (length rawData) (newRecords c) (updatedRecords c) (skippedRows c)
    (errors c) (take 5 (errorDetails c)).

End Gazelle.

(* ===================================================================== *)
(** ** The two request handlers                                            *)
(* ===================================================================== *)

Module Server.
Import JsValue JsDate.

(** A file of the upload directory, as [xlsx.readFile] and
    [sheet_to_json] see it: either reading it throws, or its first sheet
    gives these rows. *)
Inductive file : Type :=
  | Unreadable
  | Workbook (first_sheet : list row).

(** What the handlers act on: the files on disk by path, and the two
    tables. *)
Record world : Type := World {
  files : gmap string file;
  booksonix_records : gmap string Pg.booksonix_record;
  gazelle_sales : list Pg.gazelle_sale
}.

Inductive exn : Type :=
  | Exception (message : string).

Definition exn_message (e : exn) : string :=
  match e with Exception m => m end.

Inductive outcome (A : Type) : Type :=
  | Returned (a : A)
  | Thrown (e : exn).
Arguments Returned {A} a.
Arguments Thrown {A} e.

(** A computation that acts on the world and returns or throws. *)
Definition M (A : Type) : Type := world -> outcome A * world.

#[global] Instance M_ret : MRet M := fun A a w => (Returned a, w).

#[global] Instance M_bind : MBind M := fun A B k m w =>
  match m w with
  | (Returned a, w') => k a w'
  | (Thrown e, w') => (Thrown e, w')
  end.

(** [try { body } catch (error) { handler }] *)
Definition try_catch {A : Type} (body : M A) (handler : exn -> M A) : M A :=
  fun w =>
    match body w with
    | (Returned a, w') => (Returned a, w')
    | (Thrown e, w') => handler e w'
    end.

(** [xlsx.readFile(path)] followed by [sheet_to_json] of the first
    sheet. *)
Definition read_rows (path : string) : M (list row) := fun w =>
  match files w !! path with
  | Some (Workbook rows) => (Returned rows, w)
  | Some Unreadable => (Thrown (Exception "Unsupported file"), w)
  | None => (Thrown (Exception "ENOENT: no such file or directory"), w)
  end.

(** [fs.existsSync(path)] *)
Definition existsSync (path : string) : M bool := fun w =>
  (Returned (bool_decide (is_Some (files w !! path))), w).

(** [fs.unlinkSync(path)] *)
Definition unlinkSync (path : string) : M unit := fun w =>
  match files w !! path with
  | Some _ =>
    (Returned tt,
     World (delete path (files w)) (booksonix_records w) (gazelle_sales w))
  | None => (Thrown (Exception "ENOENT: no such file or directory"), w)
  end.

(** The answer of a handler. *)
Inductive response : Type :=
  | NoFileUploaded                                 (* status 400 *)
  | BooksonixDone (s : Booksonix.summary)          (* success: true *)
  | GazelleDone (s : Gazelle.summary)              (* success: true *)
  | Failed (message : string).                     (* status 500 *)

(** The loop of the Booksonix handler, on the table of the world. *)
Definition booksonix_rows (data : list row) : M Booksonix.counters :=
  fun w =>
    let '(c, tbl) := Booksonix.ingest data (booksonix_records w) in
    (Returned c, World (files w) tbl (gazelle_sales w)).

(** [app.post('/api/booksonix/upload', ...)]; [req_file] is the path of
    [req.file], when there is one. *)
Definition booksonix_upload (req_file : option string) : M response :=
  match req_file with
  | None => mret NoFileUploaded
  | Some path =>
    try_catch
      (data ← read_rows path;
       c ← booksonix_rows data;
       _ ← unlinkSync path;
       mret (BooksonixDone (Booksonix.summarize data c)))
      (fun error =>
         present ← existsSync path;
         _ ← (if (present : bool) then unlinkSync path else mret tt);
         mret (Failed (exn_message error)))
  end.

Section GazelleHandler.

Variable h : host.

Definition gazelle_rows (rawData : list row) : M Gazelle.counters :=
  fun w =>
    let '(c, tbl) := Gazelle.ingest h rawData (gazelle_sales w) in
    (Returned c, World (files w) (booksonix_records w) tbl).

(** [app.post('/api/gazelle/upload', ...)] *)
Definition gazelle_upload (req_file : option string) : M response :=
  match req_file with
  | None => mret NoFileUploaded
  | Some path =>
    try_catch
      (rawData ← read_rows path;
       c ← gazelle_rows rawData;
       _ ← unlinkSync path;
       mret (GazelleDone (Gazelle.summarize rawData c)))
      (fun error =>
         present ← existsSync path;
         _ ← (if (present : bool) then unlinkSync path else mret tt);
         mret (Failed (String.append "Upload failed: " (exn_message error))))
  end.

End GazelleHandler.

End Server.

(* ===================================================================== *)
(** ** What the uploads leave in the tables                                *)
(* ===================================================================== *)

Module Stored.
Import JsString.

Definition not_hyphen (c : ascii) : bool := negb (Ascii.eqb c "-").

(** An identifier as the uploads store it: not empty, without a hyphen,
    of at most [n] characters. *)
Definition identifier (n : nat) (s : string) : Prop :=
  s <> EmptyString /\ str_forall not_hyphen s = true
  /\ (char_length s <= n)%nat.

(** A row of [booksonix_records] under the key [k]: its SKU is the key,
    an identifier; its ISBN is NULL or an identifier. *)
Definition booksonix_row_ok (k : string) (r : Pg.booksonix_record) : Prop :=
  Pg.sku r = k /\ identifier 100 k
  /\ match Pg.isbn r with
     | None => True
     | Some i => identifier 50 i
     end.

Definition booksonix_table_ok (tbl : gmap string Pg.booksonix_record)
  : Prop :=
  forall (k : string) (r : Pg.booksonix_record),
    tbl !! k = Some r -> booksonix_row_ok k r.

(** A row of [gazelle_sales]: both key fields are filled and within
    their columns, the ISBN has no hyphen. *)
Definition gazelle_row_ok (r : Pg.gazelle_sale) : Prop :=
  Pg.order_ref r <> EmptyString
  /\ (char_length (Pg.order_ref r) <= 100)%nat
  /\ Pg.customer_name r <> EmptyString
  /\ (char_length (Pg.customer_name r) <= 500)%nat
  /\ str_forall not_hyphen (Pg.isbn13 r) = true.

End Stored.

(* ===================================================================== *)
(** ** User management: deleting a user                                    *)
(* ===================================================================== *)

Module Users.
Import JsValue.

(** A row of [users]: [id SERIAL PRIMARY KEY, username VARCHAR(100) UNIQUE
    NOT NULL, email VARCHAR(255) UNIQUE NOT NULL, password VARCHAR(255)
    NOT NULL, role VARCHAR(50) DEFAULT 'editor']; the two time stamps are
    left out. *)
Record user : Type := User {
  username : string;
  email : string;
  password : string;
  role : option string
}.

(** The table, by its primary key [id]. *)
Abbreviation users := (gmap Z user).

(** [role = 'admin'] *)
Definition is_admin (u : user) : bool :=
  match role u with
  | Some r => String.eqb r "admin"
  | None => false
  end.

(** The number of administrators other than [id]: the count the handler
    selects [FROM users WHERE role = 'admin' AND id != $1]. *)
Definition other_admins (id : Z) (tbl : users) : nat :=
  length (filter (fun p => is_admin (snd p) = true /\ fst p <> id)
            (map_to_list tbl)).

(** The answer of a handler. *)
Inductive answer : Type :=
  | Deleted                 (* success: true *)
  | Updated                 (* success: true *)
  | UserNotFound            (* status 404 *)
  | LastAdmin               (* status 400 *)
  | AlreadyExists           (* status 400 *)
  | DatabaseError.          (* status 500 *)

Section Delete.

(** How the database reads the text of [:id] as the integer that
    [WHERE id = $1] compares with; [None] when it refuses the text, an
    error that the handler answers with status 500. *)
Variable int4in : string -> option Z.

(** The handler [app.delete('/api/users/:id', ...)] sends three
    statements one after the other, outside any transaction: the table
    can be changed by another request between two of them. What is left
    of a request is the statement it sends next, or its answer. *)
Inductive request : Type :=
  | SelectRole (id : Z)    (* SELECT role FROM users WHERE id = $1 *)
  | CountAdmins (id : Z)   (* the count of the other administrators *)
  | DeleteUser (id : Z)    (* DELETE FROM users WHERE id = $1 *)
  | Answered (a : answer).

(** The request as it arrives; an [:id] the database cannot read makes
    the first statement fail. *)
Definition arrives (id_text : string) : request :=
  match int4in id_text with
  | None => Answered DatabaseError
  | Some id => SelectRole id
  end.

(** The next statement of a request, on the table as it is then. *)
Definition statement (r : request) (tbl : users) : request * users :=
  match r with
  | SelectRole id =>
    match tbl !! id with
    | None => (Answered UserNotFound, tbl)
    | Some u => if is_admin u then (CountAdmins id, tbl)
                else (DeleteUser id, tbl)
    end
  | CountAdmins id =>
    if Nat.eqb (other_admins id tbl) 0 then (Answered LastAdmin, tbl)
    else (DeleteUser id, tbl)
  | DeleteUser id => (Answered Deleted, delete id tbl)
  | Answered a => (Answered a, tbl)
  end.

(** A request that sends its statements with no other request in
    between. *)
Definition uninterrupted (r : request) (tbl : users) : request * users :=
  let '(r1, t1) := statement r tbl in
  let '(r2, t2) := statement r1 t1 in
  statement r2 t2.

(** Two requests whose statements reach the database in the order of
    [schedule]: [true] for a statement of the first request, [false] for
    one of the second. *)
Definition interleaved (schedule : list bool) (ra rb : request)
    (tbl : users) : request * request * users :=
  foldl (fun '(ra, rb, t) (first : bool) =>
           if first
           then let '(ra', t') := statement ra t in (ra', rb, t')
           else let '(rb', t') := statement rb t in (ra, rb', t'))
        (ra, rb, tbl) schedule.

(** The handler when no other request changes [users] between its
    statements: its answer and the table after it. *)
Definition delete_user (id_text : string) (tbl : users) : answer * users :=
  match int4in id_text with
  | None => (DatabaseError, tbl)
  | Some id =>
    match tbl !! id with
    | None => (UserNotFound, tbl)
    | Some u =>
      if is_admin u && Nat.eqb (other_admins id tbl) 0
      then (LastAdmin, tbl)
      else (Deleted, delete id tbl)
    end
  end.

End Delete.

(** A value of the body as the driver passes it to the database:
    [undefined] and [null] as NULL, anything else as its text. *)
Definition parameter (o : option cell) : option string :=
  match o with
  | None => None
  | Some CNull => None
  | Some c => Some (to_string c)
  end.

(** The values of [SET username = $1, email = $2, role = $3] and, when
    there is one, [password = $4], each stored into its column. *)
Definition new_values (username email role : option cell)
    (hashed : option string)
  : Pg.result (option string * option string * option string
               * option string) :=
  _ ← Pg.text_parameters
        (option_list (parameter username) ++ option_list (parameter email)
         ++ option_list (parameter role) ++ option_list hashed);
  n ← Pg.nullable (Pg.varchar 100) (parameter username);
  e ← Pg.nullable (Pg.varchar 255) (parameter email);
  r ← Pg.nullable (Pg.varchar 50) (parameter role);
  p ← Pg.nullable (Pg.varchar 255) hashed;
  Pg.Ok (n, e, r, p).

(** A row other than [id] holds this value in a [UNIQUE] column. *)
Definition taken (column : user -> string) (value : string) (id : Z)
    (tbl : users) : bool :=
  existsb (fun p => negb (fst p =? id)%Z
                    && String.eqb (column (snd p)) value)
    (map_to_list tbl).

Section Update.

Variable int4in : string -> option Z.

(** [bcrypt.hash(password, 10)] on a string. *)
Variable hash : string -> string.

(** Whether the database checks the lengths of the values when it plans
    the statement, before it looks for the row, or when it writes the
    row. *)
Variable checks_values_first : bool.

(** [if (password) { hashedPassword = await bcrypt.hash(password, 10) }]:
    no new password for a falsy one, and [None] when [bcrypt.hash]
    rejects a password that is not a string. *)
Definition hashed_password (password : option cell)
  : option (option string) :=
  match password with
  | Some c =>
    if truthy c then
      match c with
      | CStr s => Some (Some (hash s))
      | _ => None
      end
    else Some None
  | None => Some None
  end.

(** [app.put('/api/users/:id', ...)]: a value that holds the character
    NUL, a value too long for its column and a missing user name or
    e-mail (both columns are [NOT NULL]) are errors answered with status
    500, a user name or e-mail that another row holds is answered with
    status 400. *)
Definition update_user (id_text : string)
    (username email password role : option cell) (tbl : users)
  : answer * users :=
  match hashed_password password with
  | None => (DatabaseError, tbl)
  | Some hashed =>
    match int4in id_text with
    | None => (DatabaseError, tbl)
    | Some id =>
      match new_values username email role hashed, tbl !! id with
      | Pg.Error Pg.character_not_in_repertoire, None =>
        (DatabaseError, tbl)
      | Pg.Error _, None =>
        if checks_values_first then (DatabaseError, tbl)
        else (UserNotFound, tbl)
      | Pg.Ok _, None => (UserNotFound, tbl)
      | Pg.Error _, Some _ => (DatabaseError, tbl)
      | Pg.Ok (Some n, Some e, r, p), Some u =>
        if taken Users.username n id tbl || taken Users.email e id tbl
        then (AlreadyExists, tbl)
        else (Updated,
              <[id := User n e (default (Users.password u) p) r]> tbl)
      | Pg.Ok _, Some _ => (DatabaseError, tbl)
      end
    end
  end.

End Update.

End Users.

(* ===================================================================== *)
(** ** The report: the statement built from the filters                    *)
(* ===================================================================== *)

Module Report.
Import JsString JsNumber JsValue.

(** The text of the statement is kept in pieces: the fragments the
    handler writes out, and the placeholders [$n] whose number it
    computes. The string it sends is [render] of the pieces. *)
Inductive piece : Type :=
  | Sql (text : string)
  | Placeholder (n : nat).

Definition render_piece (p : piece) : string :=
  match p with
  | Sql s => s
  | Placeholder n => String "$" (number_to_string (of_Z (Z.of_nat n)))
  end.

Definition render (q : list piece) : string :=
  foldr (fun p s => String.append (render_piece p) s) EmptyString q.

(** [query], [params] and [paramIndex]. *)
Record builder : Type := Builder {
  query : list piece;
  params : list cell;
  paramIndex : nat
}.

Definition select_customers : string :=
  "
            SELECT DISTINCT
                customer_name,
                city,
                country,
                COUNT(DISTINCT order_ref) as total_orders,
                SUM(quantity) as total_quantity,
                MAX(order_date) as last_order
            FROM gazelle_sales
            WHERE 1=1
        ".

Definition start : builder := Builder [Sql select_customers] [] 1.

(** [if (startDate) { ... }] *)
Definition add_startDate (startDate : option cell) (b : builder) : builder :=
  match startDate with
  | Some v =>
    if truthy v
    then Builder (query b ++ [Sql " AND order_date >= ";
                              Placeholder (paramIndex b)])
                 (params b ++ [v]) (paramIndex b + 1)
    else b
  | None => b
  end.

(** [if (endDate) { ... }] *)
Definition add_endDate (endDate : option cell) (b : builder) : builder :=
  match endDate with
  | Some v =>
    if truthy v
    then Builder (query b ++ [Sql " AND order_date <= ";
                              Placeholder (paramIndex b)])
                 (params b ++ [v]) (paramIndex b + 1)
    else b
  | None => b
  end.

(** [pieces.join(sep)] *)
Fixpoint join {A : Type} (sep : A) (l : list A) : list A :=
  match l with
  | [] => []
  | [x] => [x]
  | x :: rest => x :: sep :: join sep rest
  end.

(** [if (titles && titles.length > 0) { ... }], for [titles] absent or
    an array. *)
Definition add_titles (titles : option (list cell)) (b : builder)
  : builder :=
  match titles with
  | Some ((_ :: _) as l) =>
    let titlePlaceholders :=
      join (Sql ",")
        (imap (fun i _ => Placeholder (paramIndex b + i)) l) in
    Builder (query b ++ [Sql " AND title IN ("] ++ titlePlaceholders
               ++ [Sql ")"])
            (params b ++ l) (paramIndex b + length l)
  | _ => b
  end.

(** [if (publisher) { ... }] *)
Definition add_publisher (publisher : option cell) (b : builder)
  : builder :=
  match publisher with
  | Some v =>
    if truthy v
    then Builder (query b ++ [Sql " AND LOWER(publisher) LIKE LOWER(";
                              Placeholder (paramIndex b); Sql ")"])
                 (params b ++ [CStr (String "%"
                                 (String.append (to_string v) "%"))])
                 (paramIndex b + 1)
    else b
  | None => b
  end.

Definition group_order : string :=
  " GROUP BY customer_name, city, country ORDER BY country, city, customer_name".

(** The statement and the values that [app.post('/api/generate-report')]
    passes to [pool.query], for a body whose [publisher], [startDate] and
    [endDate] are scalars or absent and whose [titles] is an array or
    absent. *)
Definition statement (publisher startDate endDate : option cell)
    (titles : option (list cell)) : list piece * list cell :=
  let b := add_publisher publisher
             (add_titles titles
                (add_endDate endDate (add_startDate startDate start))) in
  (query b ++ [Sql group_order], params b).

(** The numbers of the placeholders of a statement, in the order they
    occur. *)
Definition placeholders (q : list piece) : list nat :=
  omap (fun p => match p with
                 | Placeholder n => Some n
                 | Sql _ => None
                 end) q.

(** A fragment that holds no [$], so no placeholder of its own. *)
Definition plain (p : piece) : bool :=
  match p with
  | Sql s => str_forall (fun c => negb (Ascii.eqb c "$")) s
  | Placeholder _ => true
  end.

(** The statement with each placeholder replaced by the value the
    database binds to it: [$n] is the [n]-th of the values, none when
    there are fewer. *)
Inductive bound : Type :=
  | Text (text : string)
  | Value (v : option cell).

Definition bind (ps : list cell) (p : piece) : bound :=
  match p with
  | Sql s => Text s
  | Placeholder n =>
    Value (match n with
           | O => None
           | S i => ps !! i
           end)
  end.

(** A condition on one value. *)
Definition condition (sql : string) (v : option cell) : list bound :=
  match v with
  | Some c => if truthy c then [Text sql; Value (Some c)] else []
  | None => []
  end.

(** The condition on the titles, with its values. *)
Definition title_condition (titles : option (list cell)) : list bound :=
  match titles with
  | Some ((_ :: _) as l) =>
    [Text " AND title IN ("]
    ++ join (Text ",") (map (fun t => Value (Some t)) l) ++ [Text ")"]
  | _ => []
  end.

(** The condition on the publisher, with its pattern. *)
Definition publisher_condition (publisher : option cell) : list bound :=
  match publisher with
  | Some v =>
    if truthy v
    then [Text " AND LOWER(publisher) LIKE LOWER(";
          Value (Some (CStr (String "%" (String.append (to_string v) "%"))));
          Text ")"]
    else []
  | None => []
  end.

(** A builder whose placeholders are numbered from 1 in the order of
    its values, and whose statement with the values bound is [e]. *)
Definition well_numbered (b : builder) (e : list bound) : Prop :=
  placeholders (query b) = seq 1 (length (params b))
  /\ paramIndex b = S (length (params b))
  /\ forallb plain (query b) = true
  /\ map (bind (params b)) (query b) = e.

End Report.

(* ===================================================================== *)
(** ** The export: the date column                                         *)
(* ===================================================================== *)

Module ExportAll.
Import JsString JsNumber JsValue JsDate.
Local Open Scope Z_scope.

(** A day of the proleptic Gregorian calendar. *)
Record civil : Type := Civil {
  year : Z;
  month : Z;
  day : Z
}.

(** YearFromTime, MonthFromTime (counted from 1) and DateFromTime of the
    day number [z] (days since 1970-01-01). *)
Definition civil_from_days (z : Z) : civil :=
  let z' := z + 719468 in
  let era := z' / 146097 in
  let doe := z' - era * 146097 in
  let yoe := (doe - doe / 1460 + doe / 36524 - doe / 146096) / 365 in
  let doy := doe - (365 * yoe + yoe / 4 - yoe / 100) in
  let mp := (5 * doy + 2) / 153 in
  let d := doy - (153 * mp + 2) / 5 + 1 in
  let m := if mp <? 10 then mp + 3 else mp - 9 in
  let y := yoe + era * 400 in
  Civil (if m <=? 2 then y + 1 else y) m d.

(** A field written with two digits at least. *)
Definition two_digits (n : Z) : string :=
  if n <? 10 then String "0" (digits_of n) else digits_of n.

(** [d.toLocaleDateString('en-GB')] on a machine whose local time is UTC:
    day, month and year of the era, as [dd/MM/y]. *)
Definition toLocaleDateString_en_GB (d : jsdate) : string :=
  match d with
  | InvalidDate => "Invalid Date"
  | DateAt t =>
    let c := civil_from_days (t / msPerDay) in
    String.append (two_digits (day c))
      (String "/"
         (String.append (two_digits (month c))
            (String "/"
               (digits_of (if 1 <=? year c then year c
                           else 1 - year c)))))
  end.

(** What the driver gives for a [DATE] column: the Date at local
    midnight of the day that was stored, here the day of the Date that
    was passed. *)
Definition date_column (d : jsdate) : jsdate :=
  match d with
  | InvalidDate => InvalidDate
  | DateAt t => DateAt (t / msPerDay * msPerDay)
  end.

(** [row.order_date ? new Date(row.order_date).toLocaleDateString('en-GB')
    : ''], the second field of a line of [app.get('/api/export-all')]. *)
Definition order_date_text (r : Pg.gazelle_sale) : string :=
  match Pg.order_date r with
  | Some d => toLocaleDateString_en_GB (date_column d)
  | None => EmptyString
  end.

(** A test on every integer of [lo, lo + n). *)
Definition all_between (p : Z -> bool) (lo : Z) (n : nat) : bool :=
  forallb (fun i => p (lo + Z.of_nat i)) (seq 0 n).

End ExportAll.

(* ===================================================================== *)
(** ** The totals and the two clearing routes                              *)
(* ===================================================================== *)

Module Maintenance.
Import Server.

(** The body of the answer of [/api/stats]; each total is a count of
    rows, which the driver gives as a string of digits (never falsy, so
    the [|| 0] of the source never applies). *)
Record totals : Type := Totals {
  total_records : nat;
  total_customers : nat;
  total_titles : nat;
  excluded_customers : nat;
  total_booksonix : nat;
  total_gazelle : nat
}.

(** [COUNT(DISTINCT column)] over the sales. *)
Definition count_distinct (column : Pg.gazelle_sale -> string)
    (tbl : list Pg.gazelle_sale) : nat :=
  length (remove_dups (map column tbl)).

(** [app.get('/api/stats', ...)] *)
Definition stats : M totals := fun w =>
  let booksonixResult := size (booksonix_records w) in
  let gazelleResult := length (gazelle_sales w) in
  let customerResult := count_distinct Pg.customer_name (gazelle_sales w) in
  let titleResult := count_distinct Pg.sale_title (gazelle_sales w) in
  (Returned (Totals gazelleResult customerResult titleResult 0
               booksonixResult gazelleResult), w).

(** [app.delete('/api/clear-booksonix', ...)]; the answer is
    [deletedCount]. *)
Definition clear_booksonix : M nat := fun w =>
  (Returned (size (booksonix_records w)),
   World (files w) ∅ (gazelle_sales w)).

(** [app.delete('/api/clear-data', ...)] *)
Definition clear_data : M nat := fun w =>
  (Returned (length (gazelle_sales w)),
   World (files w) (booksonix_records w) []).

(** The totals a request for [/api/stats] would get in a world. *)
Definition totals_of (w : world) : totals :=
  match fst (stats w) with
  | Returned t => t
  | Thrown _ => Totals 0 0 0 0 0 0
  end.

(** The count of new records in the answer of an upload, 0 when the
    upload failed. *)
Definition reported_new (r : outcome response) : nat :=
  match r with
  | Returned (BooksonixDone s) => Booksonix.sent_newRecords s
  | Returned (GazelleDone s) => Gazelle.sent_newRecords s
  | _ => 0
  end.

End Maintenance.

(* ===================================================================== *)
(** * Properties                                                           *)
(* ===================================================================== *)

Import JsString JsNumber JsValue JsDate Resolver.

(** The host of the closed examples: Node.js on a machine whose local
    time is UTC. Every string of the examples has one of the shapes that
    [Node] covers, so the rest of the engine's parser is never
    consulted; here it rejects. *)
Local Abbreviation node_js := (Node.utc_host (fun _ => InvalidDate)).

(** ** Column resolution *)

Lemma js_or_falsy (a b : option cell) :
  truthy_opt a = false -> a ||| b = b.
Proof. unfold js_or. intros ->. reflexivity. Qed.

Lemma js_or_truthy (a b : option cell) :
  truthy_opt a = true -> a ||| b = a.
Proof. unfold js_or. intros ->. reflexivity. Qed.

(** Once an operand is truthy the rest of the chain is not looked at. *)
Lemma foldl_or_truthy (row : row) (labels : list string) (o : option cell) :
  truthy_opt o = true ->
  foldl (fun acc a => acc ||| row !! a) o labels = o.
Proof.
  revert o. induction labels as [|a labels IH]; intros o Ho; simpl.
  - reflexivity.
  - rewrite (js_or_truthy o _ Ho). apply IH, Ho.
Qed.

(** The chain of the source is [resolve] on its labels. *)
Lemma or_chain_resolve (row : row) (labels : list string) (o : option cell)
    (dflt : cell) :
  truthy_opt o = false ->
  defined (or_chain row o labels dflt) = resolve row labels dflt.
Proof.
  unfold or_chain. revert o.
  induction labels as [|a labels IH]; intros o Ho; simpl.
  - rewrite (js_or_falsy _ _ Ho). reflexivity.
  - rewrite (js_or_falsy o _ Ho).
    destruct (row !! a) as [v|] eqn:Ha.
    + destruct (truthy v) eqn:Hv.
      * rewrite foldl_or_truthy by exact Hv.
        rewrite js_or_truthy by exact Hv. reflexivity.
      * apply IH. exact Hv.
    + apply IH. reflexivity.
Qed.

Lemma or_chain_from_undefined (row : row) (labels : list string)
    (dflt : cell) :
  defined (or_chain row None labels dflt) = resolve row labels dflt.
Proof. apply or_chain_resolve. reflexivity. Qed.

(** What [resolve] returns: the value of the first label, in the order of
    the list, whose cell is truthy, and the default when there is none. *)
Lemma resolve_first_truthy (row : row) (aliases : list string) (dflt : cell) :
  (exists (i : nat) (a : string) (v : cell),
      aliases !! i = Some a /\ row !! a = Some v /\ truthy v = true /\
      (forall (j : nat) (b : string), (j < i)%nat -> aliases !! j = Some b ->
         truthy_opt (row !! b) = false) /\
      resolve row aliases dflt = v)
  \/ ((forall b : string, b ∈ aliases -> truthy_opt (row !! b) = false) /\
      resolve row aliases dflt = dflt).
Proof.
  induction aliases as [|a aliases IH]; simpl.
  - right. split; [|reflexivity]. intros b Hb. inversion Hb.
  - destruct (row !! a) as [v|] eqn:Ha; [destruct (truthy v) eqn:Hv|].
    + left. exists 0%nat, a, v. repeat split; try assumption.
      intros j b Hj. lia.
    + destruct IH as [(i & b & w & Hi & Hb & Hw & Hbefore & Hres)|[Hall Hres]].
      * left. exists (S i), b, w. repeat split; try assumption.
        intros [|j] c Hj Hc; simpl in Hc.
        -- injection Hc as <-. rewrite Ha. exact Hv.
        -- apply (Hbefore j); [lia|exact Hc].
      * right. split; [|exact Hres].
        intros b Hb. apply elem_of_cons in Hb as [->|Hb].
        -- rewrite Ha. exact Hv.
        -- apply Hall, Hb.
    + destruct IH as [(i & b & w & Hi & Hb & Hw & Hbefore & Hres)|[Hall Hres]].
      * left. exists (S i), b, w. repeat split; try assumption.
        intros [|j] c Hj Hc; simpl in Hc.
        -- injection Hc as <-. rewrite Ha. reflexivity.
        -- apply (Hbefore j); [lia|exact Hc].
      * right. split; [|exact Hres].
        intros b Hb. apply elem_of_cons in Hb as [->|Hb].
        -- rewrite Ha. reflexivity.
        -- apply Hall, Hb.
Qed.

(** Only the cells under the listed labels, spelled exactly, count. *)
Lemma resolve_ext (row1 row2 : row) (aliases : list string) (dflt : cell) :
  (forall a : string, a ∈ aliases -> row1 !! a = row2 !! a) ->
  resolve row1 aliases dflt = resolve row2 aliases dflt.
Proof.
  induction aliases as [|a aliases IH]; intros H; simpl.
  - reflexivity.
  - rewrite <- (H a) by (apply elem_of_cons; left; reflexivity).
    rewrite IH; [reflexivity|].
    intros b Hb. apply H. apply elem_of_cons. right. exact Hb.
Qed.

Lemma booksonix_sku_resolved (row : row) :
  Booksonix.sku_of row =
  let sku := resolve row Booksonix.sku_aliases (CStr "") in
  if truthy sku then CStr (trim (remove_char "-" (to_string sku))) else sku.
Proof.
  unfold Booksonix.sku_of.
  change (defined _)
    with (defined (or_chain row None Booksonix.sku_aliases (CStr ""))).
  rewrite or_chain_from_undefined. reflexivity.
Qed.

Lemma gazelle_orderRef_resolved (row : row) :
  Gazelle.orderRef_of row =
  trim (to_string (resolve row Gazelle.orderRef_aliases (CStr ""))).
Proof.
  unfold Gazelle.orderRef_of, Gazelle.text.
  change (defined _)
    with (defined (or_chain row None Gazelle.orderRef_aliases (CStr ""))).
  rewrite or_chain_from_undefined. reflexivity.
Qed.

(** C8, as amended. The chains that resolve the SKU (Booksonix) and the
    order reference (Gazelle) are [resolve] on their lists of labels, and
    [resolve], a total function of the row, the labels and the default,
    tries the labels in the declared order with exact look-up and returns
    the cell of the first label whose cell is truthy: a label that is
    absent, or present with an empty string, a zero, NaN, false or null,
    is passed over. When no label has a truthy cell the default is
    returned. *)
Theorem column_resolver_first_truthy (row : row) :
  (Booksonix.sku_of row =
     let sku := resolve row Booksonix.sku_aliases (CStr "") in
     if truthy sku then CStr (trim (remove_char "-" (to_string sku)))
     else sku)
  /\ Gazelle.orderRef_of row =
     trim (to_string (resolve row Gazelle.orderRef_aliases (CStr "")))
  /\ forall (aliases : list string) (dflt : cell),
      (exists (i : nat) (a : string) (v : cell),
          aliases !! i = Some a /\ row !! a = Some v /\ truthy v = true /\
          (forall (j : nat) (b : string), (j < i)%nat ->
             aliases !! j = Some b -> truthy_opt (row !! b) = false) /\
          resolve row aliases dflt = v)
      \/ ((forall b : string, b ∈ aliases ->
             truthy_opt (row !! b) = false) /\
          resolve row aliases dflt = dflt).
Proof.
  split; [apply booksonix_sku_resolved|].
  split; [apply gazelle_orderRef_resolved|].
  intros aliases dflt. apply resolve_first_truthy.
Qed.

(** C8, the claim as stated fails: in a row whose column [SKU] is present
    and blank and whose column [sku] holds [X1], the first alias present
    is [SKU], with the empty string, and the resolver returns [X1]. *)
Lemma column_resolver_skips_blank_cell :
  let row : row := <["SKU" := CStr ""]> (<["sku" := CStr "X1"]> ∅) in
  row !! "SKU" = Some (CStr "")
  /\ first_present row Booksonix.sku_aliases (CStr "") = CStr ""
  /\ resolve row Booksonix.sku_aliases (CStr "") = CStr "X1"
  /\ Booksonix.sku_of row = CStr "X1"
  /\ resolve row Booksonix.sku_aliases (CStr "")
     <> first_present row Booksonix.sku_aliases (CStr "").
Proof.
  vm_compute. repeat split; try reflexivity. discriminate.
Qed.

(** The look-up is exact: a label that differs in case is not found. *)
Example column_resolver_case_sensitive :
  Booksonix.sku_of (<["sKU" := CStr "X1"]> ∅) = CStr "".
Proof. vm_compute. reflexivity. Qed.

(** ** The date normalizer *)

Section DateProperties.

Variable h : host.

(** A string that the engine's own parser accepts is returned as the
    engine read it: the explicit day-first branch is not reached. *)
Lemma parse_date_string_engine_first (s : string) :
  is_valid (Date_parse h (trim s)) = true ->
  parse_date_string h s = Some (Date_parse h (trim s)).
Proof.
  intros Hv. unfold parse_date_string. rewrite Hv. reflexivity.
Qed.

(** A string of the shape D/M/YYYY that the engine's parser rejects is
    read by the explicit branch, the first field as the day. *)
Lemma parse_date_string_day_first (s p0 p1 p2 : string) :
  is_valid (Date_parse h (trim s)) = false ->
  re_dmy (trim s) = true ->
  split "/" (trim s) = [p0; p1; p2] ->
  is_valid (Date_of_fields h (parseInt p2) (sub_const (parseInt p1) 1)
              (parseInt p0)) = true ->
  parse_date_string h s =
  Some (Date_of_fields h (parseInt p2) (sub_const (parseInt p1) 1)
          (parseInt p0)).
Proof.
  intros Hv Hre Hsplit Hd. unfold parse_date_string.
  rewrite Hv, Hre, Hsplit, Hd. reflexivity.
Qed.

Lemma safe_integer_intro (m e : Z) :
  (0 <= e)%Z -> (m <> 0)%Z -> (Z.abs (m * 10 ^ e) <= 2 ^ 53)%Z ->
  safe_integer m e = true.
Proof.
  intros He Hm Hb. unfold safe_integer.
  assert (He16 : (e <= 16)%Z).
  { destruct (Z.le_gt_cases e 16) as [H|H]; [exact H|exfalso].
    assert (Hp : (10 ^ 17 <= 10 ^ e)%Z)
      by (apply Z.pow_le_mono_r; lia).
    rewrite Z.abs_mul in Hb.
    assert (Hpe : (Z.abs (10 ^ e) = 10 ^ e)%Z)
      by (apply Z.abs_eq; lia).
    rewrite Hpe in Hb.
    assert (H53 : (2 ^ 53 < 10 ^ 17)%Z) by reflexivity.
    nia. }
  destruct (Z.leb_spec 0 e); [|lia].
  destruct (Z.leb_spec e 16); [|lia].
  apply Z.leb_le. exact Hb.
Qed.

(** On integers that are doubles the arithmetic is exact. *)
Lemma fraction_integer (m e : Z) :
  (0 <= e)%Z -> (Z.abs (m * 10 ^ e) <= 2 ^ 53)%Z ->
  fraction m e = Some ((m * 10 ^ e)%Z, 1%Z).
Proof.
  intros He Hb. unfold fraction.
  destruct (Z.eqb_spec m 0) as [->|Hm]; [reflexivity|].
  rewrite (safe_integer_intro m e He Hm Hb). reflexivity.
Qed.

Lemma of_fraction_integer (a : Z) :
  (Z.abs a <= 2 ^ 53)%Z -> of_fraction a 1 = Dec a 0.
Proof.
  intros Ha. unfold of_fraction.
  destruct (Z.eqb_spec a 0) as [->|Hne]; [reflexivity|].
  change (1 =? 1)%Z with true. cbn [andb].
  destruct (Z.leb_spec (Z.abs a) (2 ^ 53)); [reflexivity|lia].
Qed.

Lemma sub_const_integer (m e k : Z) :
  (0 <= e)%Z -> (Z.abs (m * 10 ^ e) <= 2 ^ 53)%Z ->
  (Z.abs (m * 10 ^ e - k) <= 2 ^ 53)%Z ->
  sub_const (Dec m e) k = Dec (m * 10 ^ e - k) 0.
Proof.
  intros He Hb Hr. unfold sub_const.
  rewrite (fraction_integer m e He Hb), Z.mul_1_r.
  apply of_fraction_integer. exact Hr.
Qed.



End DateProperties.



(** A serial whose instant is beyond the range of Date gives null. *)
Example serial_out_of_range_is_null :
  parseExcelDate node_js
    (VCell (CNum (of_Z 1000000000000))) = None.
Proof. vm_compute. reflexivity. Qed.

(** A serial with a fraction goes through the arithmetic of doubles:
    45000.1 is decoded to 1678847039999 ms, one millisecond before the
    instant of the exact product. *)
Example serial_with_fraction :
  parseExcelDate node_js
    (VCell (CNum (Dec 450001 (-1)))) = Some (DateAt 1678847039999).
Proof. vm_compute. reflexivity. Qed.

(** C1. On Node.js the string 01/02/2025 is accepted by the engine's own
    parser, which reads it month first: [parseExcelDate] returns
    January 2, 2025 and not February 1, 2025. *)
Theorem parseExcelDate_slash_date_read_month_first
    (other : string -> jsdate) :
  parseExcelDate (Node.utc_host other) (VCell (CStr "01/02/2025")) =
    Some (DateAt (days_from_civil 2025 1 2 * msPerDay))
  /\ parseExcelDate (Node.utc_host other) (VCell (CStr "01/02/2025")) <>
    Some (DateAt (days_from_civil 2025 2 1 * msPerDay))
  /\ parseExcelDate (Node.utc_host other) (VCell (CStr "01/02/2025")) =
    Some (Date_parse (Node.utc_host other) "01/02/2025").
Proof.
  vm_compute. repeat split; try reflexivity. discriminate.
Qed.

(** The explicit day-first branch is reached when the engine rejects the
    string, as for a first field above 12. *)
Example parseExcelDate_13_02_2025 :
  parseExcelDate node_js (VCell (CStr "13/02/2025")) =
  Some (DateAt (days_from_civil 2025 2 13 * msPerDay)).
Proof. vm_compute. reflexivity. Qed.

(** ** Currency and percentage fields *)

Lemma trimStart_forall_bounded (p : ascii -> bool) (n : nat) :
  forall s : string,
    (String.length s <= n)%nat ->
    str_forall p s = true -> str_forall p (trimStart s) = true.
Proof.
  induction n as [|n IH]; intros s Hlen Hs.
  - destruct s; [reflexivity|simpl in Hlen; lia].
  - destruct s as [|c1 s1]; [reflexivity|].
    simpl in Hlen. simpl in Hs. apply andb_prop in Hs as [Hc1 Hs1].
    simpl. destruct (is_ascii_space c1).
    { apply IH; [lia|exact Hs1]. }
    destruct s1 as [|c2 s2].
    { simpl. rewrite Hc1. reflexivity. }
    simpl in Hlen. simpl in Hs1. apply andb_prop in Hs1 as [Hc2 Hs2].
    destruct (is_space2 c1 c2).
    { apply IH; [lia|exact Hs2]. }
    destruct s2 as [|c3 s3].
    { simpl. rewrite Hc1, Hc2. reflexivity. }
    simpl in Hlen. simpl in Hs2. apply andb_prop in Hs2 as [Hc3 Hs3].
    destruct (is_space3 c1 c2 c3).
    { apply IH; [lia|exact Hs3]. }
    simpl. rewrite Hc1, Hc2, Hc3, Hs3. reflexivity.
Qed.

Lemma trimStart_forall (p : ascii -> bool) (s : string) :
  str_forall p s = true -> str_forall p (trimStart s) = true.
Proof. apply (trimStart_forall_bounded p (String.length s)). lia. Qed.

Lemma trimEnd_forall (p : ascii -> bool) (s : string) :
  str_forall p s = true -> str_forall p (trimEnd s) = true.
Proof.
  induction s as [|c s IH]; intros Hs; [reflexivity|].
  simpl in Hs. apply andb_prop in Hs as [Hc Hs].
  simpl. destruct (is_blank (String c s)); [reflexivity|].
  simpl. rewrite Hc, (IH Hs). reflexivity.
Qed.

Lemma trim_forall (p : ascii -> bool) (s : string) :
  str_forall p s = true -> str_forall p (trim s) = true.
Proof. intros Hs. unfold trim. apply trimEnd_forall, trimStart_forall, Hs. Qed.

(** What [replace(/[^...]/g, '')] leaves is inside the class. *)
Lemma remove_if_forall (q : ascii -> bool) (s : string) :
  str_forall (fun c => negb (q c)) (remove_if q s) = true.
Proof.
  induction s as [|c s IH]; [reflexivity|].
  simpl. destruct (q c) eqn:Hq; [exact IH|].
  simpl. rewrite Hq, IH. reflexivity.
Qed.

Lemma str_forall_impl (p q : ascii -> bool) (s : string) :
  (forall c : ascii, p c = true -> q c = true) ->
  str_forall p s = true -> str_forall q s = true.
Proof.
  intros Hpq. induction s as [|c s IH]; intros Hs; [reflexivity|].
  simpl in Hs. apply andb_prop in Hs as [Hc Hs].
  simpl. rewrite (Hpq c Hc), (IH Hs). reflexivity.
Qed.

Lemma span_digits_all_digits (s : string) :
  all_digits (fst (span_digits s)) = true.
Proof.
  induction s as [|c s IH]; [reflexivity|].
  simpl. destruct (is_digit c) eqn:Hc; [|reflexivity].
  destruct (span_digits s) as [d r]. simpl in *. rewrite Hc, IH. reflexivity.
Qed.

Lemma all_digits_app (a b : string) :
  all_digits a = true -> all_digits b = true ->
  all_digits (String.append a b) = true.
Proof.
  intros Ha Hb. induction a as [|c a IH]; [exact Hb|].
  simpl in Ha. apply andb_prop in Ha as [Hc Ha].
  simpl. rewrite Hc, (IH Ha). reflexivity.
Qed.

Lemma digit_value_nonneg (c : ascii) :
  is_digit c = true -> (0 <= digit_value c)%Z.
Proof.
  unfold is_digit, digit_value. intros H.
  apply andb_prop in H as [H _]. apply N.leb_le in H. lia.
Qed.

Lemma digits_value_from_nonneg (s : string) :
  forall acc : Z, (0 <= acc)%Z -> all_digits s = true ->
    (0 <= digits_value_from acc s)%Z.
Proof.
  induction s as [|c s IH]; intros acc Hacc Hs; [exact Hacc|].
  simpl in Hs. apply andb_prop in Hs as [Hc Hs].
  simpl. apply IH; [|exact Hs].
  pose proof (digit_value_nonneg c Hc). lia.
Qed.

Lemma digit_or_point_cases (c : ascii) :
  Booksonix.digit_or_point c = true ->
  Ascii.eqb c "-" = false /\ Ascii.eqb c "+" = false
  /\ Ascii.eqb "I" c = false.
Proof.
  intros H. repeat split.
  - destruct (Ascii.eqb c "-") eqn:E; [|reflexivity].
    apply Ascii.eqb_eq in E. subst c. discriminate H.
  - destruct (Ascii.eqb c "+") eqn:E; [|reflexivity].
    apply Ascii.eqb_eq in E. subst c. discriminate H.
  - destruct (Ascii.eqb "I" c) eqn:E; [|reflexivity].
    apply Ascii.eqb_eq in E. subst c. discriminate H.
Qed.

(** *** Rounding to a double keeps the sign *)

Lemma div_nearest_even_nonneg (a b : Z) :
  (0 <= a)%Z -> (0 <= b)%Z -> (0 <= div_nearest_even a b)%Z.
Proof.
  intros Ha Hb. unfold div_nearest_even.
  pose proof (Z_div_nonneg_nonneg a b Ha Hb) as Hq.
  destruct (2 * (a mod b) ?= b)%Z; [destruct (Z.even (a / b))| |]; lia.
Qed.

Lemma scale2_nonneg (p q E : Z) :
  (0 <= p)%Z -> (0 <= q)%Z ->
  (0 <= fst (scale2 p q E))%Z /\ (0 <= snd (scale2 p q E))%Z.
Proof.
  intros Hp Hq. unfold scale2.
  destruct (0 <=? E)%Z; cbn [fst snd]; split; try assumption;
    apply Z.mul_nonneg_nonneg; try assumption; apply Z.pow_nonneg; lia.
Qed.

Lemma nearest_double_nonneg (p q M E : Z) :
  (0 <= p)%Z -> (0 <= q)%Z ->
  nearest_double p q = Some (M, E) -> (0 <= M)%Z.
Proof.
  intros Hp Hq. unfold nearest_double.
  destruct (scale2 p q (Z.max (Z.log2 p - Z.log2 q - 52) (-1074)))
    as [a b].
  match goal with
  | |- context [scale2 p q ?E0] =>
      pose proof (scale2_nonneg p q E0 Hp Hq) as [Ha Hb];
      destruct (scale2 p q E0) as [a' b']
  end.
  cbn [fst snd] in Ha, Hb.
  pose proof (div_nearest_even_nonneg a' b' Ha Hb) as HM.
  destruct (div_nearest_even a' b' =? 2 ^ 53)%Z.
  - destruct (971 <? _)%Z; [discriminate|].
    intros H. injection H as <- _. apply Z.pow_nonneg. lia.
  - destruct (971 <? _)%Z; [discriminate|].
    intros H. injection H as <- _. exact HM.
Qed.

Lemma floor_scaled_nonneg (p q t : Z) :
  (0 <= p)%Z -> (0 <= q)%Z -> (0 <= floor_scaled p q t)%Z.
Proof.
  intros Hp Hq. unfold floor_scaled.
  destruct (0 <=? t)%Z; apply Z_div_nonneg_nonneg; try assumption;
    apply Z.mul_nonneg_nonneg; try assumption; apply Z.pow_nonneg; lia.
Qed.

Lemma shortest_from_nonneg (p q n M E : Z) :
  (0 <= p)%Z -> (0 <= q)%Z ->
  forall (fuel : nat) (k : Z),
    (0 <= fst (shortest_from fuel k p q n M E))%Z.
Proof.
  intros Hp Hq. induction fuel as [|fuel IH]; intros k.
  - cbn [shortest_from fst]. apply floor_scaled_nonneg; assumption.
  - cbn [shortest_from]. cbv zeta.
    pose proof (floor_scaled_nonneg p q (n - k) Hp Hq) as Hs.
    repeat match goal with
    | |- context [if ?b then _ else _] => destruct b
    end; cbn [fst]; try lia.
    apply IH.
Qed.

Lemma shortest_nonneg (M E : Z) :
  (0 <= M)%Z -> (0 <= fst (shortest M E))%Z.
Proof.
  intros HM. unfold shortest, binary_fraction.
  destruct (0 <=? E)%Z; apply shortest_from_nonneg; try lia;
    try (apply Z.pow_nonneg; lia);
    try (apply Z.mul_nonneg_nonneg; [exact HM|apply Z.pow_nonneg; lia]).
Qed.

Lemma to_double_nonneg (m e : Z) :
  (0 <= m)%Z -> not_negative (to_double m e).
Proof.
  intros Hm. unfold to_double.
  assert (Hneg : (m <? 0)%Z = false) by (apply Z.ltb_ge; exact Hm).
  destruct (m =? 0)%Z; [simpl; lia|].
  destruct (short m e); [exact Hm|].
  destruct (safe_integer m e); [exact Hm|].
  rewrite Hneg.
  destruct (309 <=? above m e)%Z; [reflexivity|].
  destruct (below m e <=? -324)%Z; [simpl; lia|].
  assert (Hpq : (0 <= fst (decimal_fraction (Z.abs m) e))%Z
                /\ (0 <= snd (decimal_fraction (Z.abs m) e))%Z).
  { unfold decimal_fraction. destruct (0 <=? e)%Z; cbn [fst snd].
    - split; [|lia]. apply Z.mul_nonneg_nonneg; [lia|].
      apply Z.pow_nonneg. lia.
    - split; [lia|]. apply Z.pow_nonneg. lia. }
  destruct (decimal_fraction (Z.abs m) e) as [p q].
  cbn [fst snd] in Hpq. destruct Hpq as [Hp Hq].
  unfold round_fraction.
  destruct (nearest_double p q) as [[M E]|] eqn:Hn; [|reflexivity].
  pose proof (nearest_double_nonneg p q M E Hp Hq Hn) as HM.
  destruct (M =? 0)%Z; [simpl; lia|].
  pose proof (shortest_nonneg M E HM) as Hs.
  destruct (shortest M E) as [s t]. exact Hs.
Qed.

(** [parseFloat] on digits and points: [NaN], or a number that is not
    negative. *)
Lemma parseFloat_digits_and_points (s : string) :
  str_forall Booksonix.digit_or_point s = true ->
  parseFloat s = NaN \/ not_negative (parseFloat s).
Proof.
  intros Hs. unfold parseFloat.
  pose proof (trimStart_forall _ _ Hs) as Ht.
  destruct (trimStart s) as [|c t] eqn:Et.
  - left. reflexivity.
  - simpl in Ht. apply andb_prop in Ht as [Hc Ht].
    destruct (digit_or_point_cases c Hc) as (Hminus & Hplus & HI).
    unfold take_sign. rewrite Hminus, Hplus.
    change (strip_prefix "Infinity" (String c t))
      with (if Ascii.eqb "I" c then strip_prefix "nfinity" t else None).
    rewrite HI.
    pose proof (span_digits_all_digits (String c t)) as Hip.
    destruct (span_digits (String c t)) as [ip r1]. simpl in Hip.
    assert (Hfrac : forall fp r2,
      all_digits fp = true ->
      let x := match String.append ip fp with
               | EmptyString => NaN
               | ds => to_double (signed false (digits_value ds))
                         (exponent_part r2 - Z.of_nat (String.length fp))
               end in
      x = NaN \/ not_negative x).
    { intros fp r2 Hfp. cbv zeta.
      pose proof (all_digits_app ip fp Hip Hfp) as Hds.
      destruct (String.append ip fp) as [|d ds] eqn:Eds;
        [left; reflexivity|].
      right. apply to_double_nonneg. simpl signed. unfold digits_value.
      apply digits_value_from_nonneg; [lia|exact Hds]. }
    destruct r1 as [|c1 r1'].
    + apply (Hfrac EmptyString). reflexivity.
    + destruct (Ascii.eqb c1 ".").
      * pose proof (span_digits_all_digits r1') as Hfp.
        destruct (span_digits r1') as [fp r2]. apply Hfrac. exact Hfp.
      * apply (Hfrac EmptyString). reflexivity.
Qed.

Lemma cleanPrice_digits_and_points (v : cell) :
  str_forall Booksonix.digit_or_point (Booksonix.cleanPrice v) = true.
Proof.
  unfold Booksonix.cleanPrice. apply trim_forall.
  apply remove_if_forall.
Qed.

(** The Booksonix price is never negative and never [NaN]. *)
Lemma booksonix_price_nonneg (row : row) :
  not_negative (Booksonix.price_of row).
Proof.
  unfold Booksonix.price_of.
  destruct (truthy _); [|simpl; lia].
  match goal with |- context [Booksonix.cleanPrice ?v] =>
    pose proof (parseFloat_digits_and_points _
                  (cleanPrice_digits_and_points v)) as H;
    destruct (parseFloat (Booksonix.cleanPrice v)) as [|neg|m e]
  end.
  - simpl. lia.
  - destruct H as [H|H]; [discriminate|exact H].
  - destruct H as [H|H]; [discriminate|].
    unfold or_zero, num_truthy.
    destruct (m =? 0)%Z; simpl; [lia|exact H].
Qed.

Lemma hundredths_nonneg (m e : Z) : (0 <= m)%Z -> (0 <= hundredths m e)%Z.
Proof.
  intros Hm. unfold hundredths.
  destruct (0 <=? e + 2)%Z eqn:He.
  - apply Z.mul_nonneg_nonneg; [exact Hm|]. apply Z.pow_nonneg. lia.
  - apply Z.leb_gt in He.
    assert (Hd : (0 < 10 ^ (- (e + 2)))%Z) by (apply Z.pow_pos_nonneg; lia).
    apply Z.mul_nonneg_nonneg; [lia|].
    apply Z.div_pos; lia.
Qed.

(** C7, as amended. For every row the normalized Booksonix price is
    never negative and never [NaN]: it is a decimal that is not
    negative, or the positive infinity, which a numeral beyond the range
    of the doubles gives; the [DECIMAL(10,2)] column either refuses the
    price (an infinity and a price too large are refused) or stores a
    number of hundredths that is not negative. *)
Theorem booksonix_price_never_negative (row : row) :
  ((exists m e : Z, Booksonix.price_of row = Dec m e /\ (0 <= m)%Z)
   \/ Booksonix.price_of row = Inf false)
  /\ is_negative (Booksonix.price_of row) = false
  /\ match Pg.decimal2 10 (Booksonix.price_of row) with
     | Pg.Ok (Pg.Numeric c) => (0 <= c)%Z
     | Pg.Ok Pg.NumericNaN => False
     | Pg.Error _ => True
     end.
Proof.
  pose proof (booksonix_price_nonneg row) as H.
  destruct (Booksonix.price_of row) as [|neg|m e]; simpl in H.
  - destruct H.
  - subst neg. split; [right; reflexivity|]. split; [reflexivity|exact I].
  - split; [left; exists m, e; split; [reflexivity|exact H]|].
    split.
    + simpl. apply Z.ltb_ge. exact H.
    + simpl. destruct (Z.abs (hundredths m e) <? 10 ^ 10)%Z; [|exact I].
      apply hundredths_nonneg, H.
Qed.

(** The price is read as a double: the numeral 1.00499999999999999999
    is the double printed 1.005, stored as 1.01; a numeral of 310 digits
    is Infinity, which the column refuses. *)
Example booksonix_price_is_a_double :
  Booksonix.price_of (<["Price" := CStr "1.00499999999999999999"]> ∅)
  = Dec 1005 (-3)
  /\ Pg.decimal2 10
       (Booksonix.price_of (<["Price" := CStr "1.00499999999999999999"]> ∅))
     = Pg.Ok (Pg.Numeric 101)
  /\ Booksonix.price_of (<["Price" := CStr (String "1" (zeros 309))]> ∅)
     = Inf false
  /\ Pg.decimal2 10
       (Booksonix.price_of (<["Price" := CStr (String "1" (zeros 309))]> ∅))
     = Pg.Error (Pg.numeric_value_out_of_range "numeric field overflow").
Proof. vm_compute. repeat split; reflexivity. Qed.

(** C7, the claim as stated fails for the Gazelle fields: a unit price
    cell [-5.00] and a discount cell [-10%] are normalized to -5 and -10
    and stored as such. *)
Lemma gazelle_price_and_discount_can_be_negative :
  let row : row :=
    <["Order Ref" := CStr "A1"]> (<["Customer Name" := CStr "Shop"]>
      (<["Unit Price" := CStr "-5.00"]> (<["Discount %" := CStr "-10%"]> ∅)))
  in
  Gazelle.unitPrice_of row = Dec (-500) (-2)
  /\ is_negative (Gazelle.unitPrice_of row) = true
  /\ Gazelle.discount_of row = Dec (-10) 0
  /\ is_negative (Gazelle.discount_of row) = true
  /\ Pg.unit_price <$> snd (Gazelle.ingest node_js [row] [])
     = [Pg.Numeric (-500)]
  /\ Pg.discount <$> snd (Gazelle.ingest node_js [row] [])
     = [Pg.Numeric (-1000)].
Proof. vm_compute. repeat split; reflexivity. Qed.

(** ** The Booksonix table under the upload *)

Lemma coalesce_assoc (x y z : option string) :
  Pg.coalesce x (Pg.coalesce y z) = Pg.coalesce (Pg.coalesce x y) z.
Proof. destruct x, y; reflexivity. Qed.

Lemma do_update_assoc (a b c : Pg.booksonix_record) :
  Pg.do_update a (Pg.do_update b c) = Pg.do_update (Pg.do_update a b) c.
Proof.
  unfold Pg.do_update. simpl. f_equal.
  destruct (Pg.isbn c) as [[|ch s]|]; simpl; reflexivity.
Qed.

Lemma do_update_idemp (a : Pg.booksonix_record) : Pg.do_update a a = a.
Proof.
  destruct a as [k i t au p pr q]. unfold Pg.do_update. simpl. f_equal.
  destruct i as [[|ch s]|]; reflexivity.
Qed.

Lemma merge_opt_assoc (x y z : option Pg.booksonix_record) :
  Pg.merge_opt x (Pg.merge_opt y z) = Pg.merge_opt (Pg.merge_opt x y) z.
Proof.
  destruct x, y, z; simpl; try reflexivity.
  rewrite do_update_assoc. reflexivity.
Qed.

Lemma merge_opt_idemp (x : option Pg.booksonix_record) :
  Pg.merge_opt x x = x.
Proof. destruct x; simpl; [rewrite do_update_idemp|]; reflexivity. Qed.

Lemma merge_opt_None_r (x : option Pg.booksonix_record) :
  Pg.merge_opt x None = x.
Proof. destruct x; reflexivity. Qed.

(** One turn of the loop, by what the row proposes. *)
Lemma booksonix_step_cases (c : Booksonix.counters)
    (tbl : gmap string Pg.booksonix_record) (row : row) :
  Booksonix.step (c, tbl) row =
  if negb (truthy (Booksonix.sku_of row)) then
    (Booksonix.Counters (Booksonix.newRecords c) (Booksonix.duplicates c)
       (S (Booksonix.errors c)) (S (Booksonix.skippedNoSku c)), tbl)
  else
    match Booksonix.candidate row with
    | Some e =>
      match tbl !! Pg.sku e with
      | None =>
        (Booksonix.Counters (S (Booksonix.newRecords c))
           (Booksonix.duplicates c) (Booksonix.errors c)
           (Booksonix.skippedNoSku c), <[Pg.sku e := e]> tbl)
      | Some old =>
        (Booksonix.Counters (Booksonix.newRecords c)
           (S (Booksonix.duplicates c)) (Booksonix.errors c)
           (Booksonix.skippedNoSku c),
         <[Pg.sku e := Pg.do_update old e]> tbl)
      end
    | None =>
      (Booksonix.Counters (Booksonix.newRecords c) (Booksonix.duplicates c)
         (S (Booksonix.errors c)) (Booksonix.skippedNoSku c), tbl)
    end.
Proof.
  unfold Booksonix.step, Booksonix.candidate, Booksonix.query.
  destruct (negb (truthy (Booksonix.sku_of row))); [reflexivity|].
  destruct (Pg.booksonix_values _ _ _ _ _ _ _) as [e|err]; simpl;
    [|reflexivity].
  unfold Pg.booksonix_upsert.
  destruct (tbl !! Pg.sku e); reflexivity.
Qed.

(** The table after one turn, key by key. *)
Lemma booksonix_step_lookup (c : Booksonix.counters)
    (tbl : gmap string Pg.booksonix_record) (row : row) (k : string) :
  snd (Booksonix.step (c, tbl) row) !! k =
  Pg.merge_opt (tbl !! k) (Booksonix.contribution k row).
Proof.
  rewrite booksonix_step_cases. unfold Booksonix.contribution.
  unfold Booksonix.candidate at 2.
  destruct (negb (truthy (Booksonix.sku_of row))) eqn:Hkey.
  { simpl. rewrite merge_opt_None_r. reflexivity. }
  fold (Booksonix.candidate row).
  assert (Hc : Booksonix.candidate row =
    match Pg.booksonix_values (to_string (Booksonix.sku_of row))
            (Booksonix.or_null (Booksonix.isbn_of row))
            (to_string (Booksonix.title_of row)) ""
            (to_string (Booksonix.publisher_of row))
            (Booksonix.price_of row) (of_Z 0) with
    | Pg.Ok e => Some e
    | Pg.Error _ => None
    end).
  { unfold Booksonix.candidate. rewrite Hkey. reflexivity. }
  rewrite <- Hc.
  destruct (Booksonix.candidate row) as [e|].
  2:{ simpl. rewrite merge_opt_None_r. reflexivity. }
  destruct (decide (Pg.sku e = k)) as [<-|Hne].
  - destruct (tbl !! Pg.sku e) as [old|] eqn:Hold; simpl;
      rewrite lookup_insert_eq; reflexivity.
  - rewrite merge_opt_None_r.
    destruct (tbl !! Pg.sku e) as [old|] eqn:Hold; simpl;
      rewrite lookup_insert_ne by exact Hne; reflexivity.
Qed.

(** The table after the loop, key by key. *)
Lemma booksonix_loop_lookup (data : list row) :
  forall (c : Booksonix.counters) (tbl : gmap string Pg.booksonix_record)
         (k : string),
    snd (foldl Booksonix.step (c, tbl) data) !! k =
    Pg.merge_opt (tbl !! k) (Booksonix.proposed k data).
Proof.
  induction data as [|row data IH]; intros c tbl k.
  - simpl. rewrite merge_opt_None_r. reflexivity.
  - cbn [foldl foldr Booksonix.proposed].
    destruct (Booksonix.step (c, tbl) row) as [c' tbl'] eqn:Hstep.
    rewrite IH.
    replace tbl' with (snd (Booksonix.step (c, tbl) row))
      by (rewrite Hstep; reflexivity).
    rewrite booksonix_step_lookup, merge_opt_assoc. reflexivity.
Qed.

(** Running the loop a second time over the same rows leaves the table
    as the first run left it. *)
Lemma booksonix_table_idempotent (data : list row)
    (tbl : gmap string Pg.booksonix_record) :
  snd (Booksonix.ingest data (snd (Booksonix.ingest data tbl))) =
  snd (Booksonix.ingest data tbl).
Proof.
  unfold Booksonix.ingest. apply map_eq. intros k.
  rewrite !booksonix_loop_lookup.
  rewrite <- merge_opt_assoc, merge_opt_idemp. reflexivity.
Qed.

Lemma merge_opt_is_Some_l (x y : option Pg.booksonix_record) :
  is_Some x -> is_Some (Pg.merge_opt x y).
Proof. intros [a ->]. destruct y; simpl; eauto. Qed.

Lemma merge_opt_is_Some_r (x y : option Pg.booksonix_record) :
  is_Some y -> is_Some (Pg.merge_opt x y).
Proof. intros [b ->]. destruct x; simpl; eauto. Qed.

Lemma candidate_has_key (row : row) (e : Pg.booksonix_record) :
  Booksonix.candidate row = Some e -> truthy (Booksonix.sku_of row) = true.
Proof.
  unfold Booksonix.candidate.
  destruct (truthy (Booksonix.sku_of row)); [reflexivity|discriminate].
Qed.

(** The counters after the loop, whatever the table holds. *)
Lemma booksonix_counters (data : list row) :
  forall (c : Booksonix.counters) (tbl : gmap string Pg.booksonix_record),
    let c' := fst (foldl Booksonix.step (c, tbl) data) in
    Booksonix.newRecords c' + Booksonix.duplicates c' =
      Booksonix.newRecords c + Booksonix.duplicates c
      + Booksonix.count Booksonix.accepted data
    /\ Booksonix.errors c' =
      Booksonix.errors c + Booksonix.count Booksonix.no_key data
      + Booksonix.count Booksonix.write_fails data
    /\ Booksonix.skippedNoSku c' =
      Booksonix.skippedNoSku c + Booksonix.count Booksonix.no_key data.
Proof.
  induction data as [|row data IH]; intros c tbl.
  - simpl. lia.
  - cbn [foldl Booksonix.count].
    destruct (Booksonix.step (c, tbl) row) as [c1 tbl1] eqn:Hstep.
    specialize (IH c1 tbl1). cbv zeta in IH |- *.
    destruct IH as (IH1 & IH2 & IH3).
    rewrite booksonix_step_cases in Hstep.
    assert (Hno : Booksonix.no_key row = negb (truthy (Booksonix.sku_of row)))
      by reflexivity.
    assert (Hwf : Booksonix.write_fails row =
                  truthy (Booksonix.sku_of row)
                  && negb (Booksonix.accepted row)) by reflexivity.
    rewrite Hno, Hwf. unfold Booksonix.accepted at 1 3.
    destruct (truthy (Booksonix.sku_of row)) eqn:Hkey; simpl in Hstep.
    + destruct (Booksonix.candidate row) as [e|] eqn:Hcand.
      * destruct (tbl !! Pg.sku e); injection Hstep as <- <-;
          simpl in *; lia.
      * injection Hstep as <- <-. simpl in *. lia.
    + assert (Hcand : Booksonix.candidate row = None).
      { unfold Booksonix.candidate. rewrite Hkey. reflexivity. }
      rewrite Hcand. injection Hstep as <- <-. simpl in *. lia.
Qed.

(** The counters after the loop when the table already has a row for
    every key the sheet proposes: nothing is new. *)
Lemma booksonix_counters_known_keys (data : list row) :
  forall (c : Booksonix.counters) (tbl : gmap string Pg.booksonix_record),
    (forall (row : row) (e : Pg.booksonix_record),
        row ∈ data -> Booksonix.candidate row = Some e ->
        is_Some (tbl !! Pg.sku e)) ->
    Booksonix.newRecords (fst (foldl Booksonix.step (c, tbl) data)) =
      Booksonix.newRecords c.
Proof.
  induction data as [|row data IH]; intros c tbl Hknown.
  - reflexivity.
  - cbn [foldl].
    destruct (Booksonix.step (c, tbl) row) as [c1 tbl1] eqn:Hstep.
    assert (Htbl1 : forall k, is_Some (tbl !! k) -> is_Some (tbl1 !! k)).
    { intros k Hk.
      replace tbl1 with (snd (Booksonix.step (c, tbl) row))
        by (rewrite Hstep; reflexivity).
      rewrite booksonix_step_lookup. apply merge_opt_is_Some_l, Hk. }
    rewrite IH.
    + rewrite booksonix_step_cases in Hstep.
      destruct (truthy (Booksonix.sku_of row)); simpl in Hstep.
      * destruct (Booksonix.candidate row) as [e|] eqn:Hcand.
        -- destruct (Hknown row e) as [old Hold];
             [apply elem_of_cons; left; reflexivity|exact Hcand|].
           rewrite Hold in Hstep. injection Hstep as <- <-. reflexivity.
        -- injection Hstep as <- <-. reflexivity.
      * injection Hstep as <- <-. reflexivity.
    + intros row' e Hin Hcand. apply Htbl1.
      apply (Hknown row' e); [|exact Hcand].
      apply elem_of_cons. right. exact Hin.
Qed.

(** After the loop the table has a row for every key the sheet
    proposes. *)
Lemma booksonix_proposed_is_Some (data : list row) (row : row)
    (e : Pg.booksonix_record) :
  row ∈ data -> Booksonix.candidate row = Some e ->
  is_Some (Booksonix.proposed (Pg.sku e) data).
Proof.
  intros Hin Hcand. induction data as [|r data IH].
  - inversion Hin.
  - cbn [Booksonix.proposed foldr].
    apply elem_of_cons in Hin as [<-|Hin].
    + apply merge_opt_is_Some_l. unfold Booksonix.contribution.
      rewrite Hcand. rewrite decide_True by reflexivity. eauto.
    + apply merge_opt_is_Some_r. apply IH, Hin.
Qed.

(** C3, as amended. A second run of the loop over the same rows, on the
    table the first run left, creates no row; it counts as updated every
    row that the first run counted as new or as updated, and counts as
    errors, again, the rows without a key and the rows the table
    refuses; it leaves every stored field as the first run left it. *)
Theorem booksonix_reingest_idempotent (data : list row)
    (tbl : gmap string Pg.booksonix_record) :
  let first := Booksonix.ingest data tbl in
  let second := Booksonix.ingest data (snd first) in
  Booksonix.newRecords (fst second) = 0
  /\ Booksonix.duplicates (fst second) =
     Booksonix.newRecords (fst first) + Booksonix.duplicates (fst first)
  /\ Booksonix.errors (fst second) = Booksonix.errors (fst first)
  /\ Booksonix.skippedNoSku (fst second) = Booksonix.skippedNoSku (fst first)
  /\ snd second = snd first.
Proof.
  cbv zeta.
  pose proof (booksonix_counters data Booksonix.zero tbl) as H1.
  pose proof (booksonix_counters data Booksonix.zero
                (snd (Booksonix.ingest data tbl))) as H2.
  cbv zeta in H1, H2.
  assert (Hnew : Booksonix.newRecords
            (fst (Booksonix.ingest data (snd (Booksonix.ingest data tbl))))
          = 0).
  { unfold Booksonix.ingest at 1.
    rewrite booksonix_counters_known_keys; [reflexivity|].
    intros row e Hin Hcand. unfold Booksonix.ingest.
    rewrite booksonix_loop_lookup. apply merge_opt_is_Some_r.
    apply (booksonix_proposed_is_Some data row e Hin Hcand). }
  fold (Booksonix.ingest data tbl) in H1.
  fold (Booksonix.ingest data (snd (Booksonix.ingest data tbl))) in H2.
  destruct H1 as (A1 & A2 & A3), H2 as (B1 & B2 & B3).
  simpl in A1, A2, A3, B1, B2, B3.
  repeat split.
  - exact Hnew.
  - lia.
  - lia.
  - lia.
  - apply booksonix_table_idempotent.
Qed.

(** C3, the claim as stated fails on a sheet that has a row without a
    key: in the second run that row is counted as an error again, not as
    updated, so two of the three rows are counted as updated. *)
Lemma booksonix_reingest_counts_keyless_row_as_error :
  let data : list row :=
    [ <["SKU" := CStr "ABC-123"]> (<["Price" := CStr "£5.00"]> ∅);
      <["SKU" := CStr ""]> (<["Price" := CStr "£1.00"]> ∅);
      <["SKU" := CStr "ABC-123"]> (<["Price" := CStr "£7.00"]> ∅) ] in
  let first := Booksonix.ingest data ∅ in
  let second := Booksonix.ingest data (snd first) in
  fst second = Booksonix.Counters 0 2 1 1
  /\ Booksonix.duplicates (fst second) <> length data.
Proof. vm_compute. split; [reflexivity|discriminate]. Qed.

(** ** The end-to-end scenario *)

(** C6, as amended. With the price under a label the handler looks for
    ([Price]), the three-row sheet gives: after the first row one new
    row [ABC123] with price 5.00; after the second row, which has no key,
    the same table and one error; after the third row the same key
    updated, with price 7.00. *)
Theorem booksonix_three_row_sheet :
  let row1 : row := <["sku" := CStr "ABC-123"]> (<["Price" := CStr "£5.00"]> ∅)
  in
  let row2 : row := <["sku" := CStr ""]> (<["Price" := CStr "£1.00"]> ∅) in
  let row3 : row := <["sku" := CStr "ABC-123"]> (<["Price" := CStr "£7.00"]> ∅)
  in
  let stored (p : Z) : Pg.booksonix_record :=
    Pg.BooksonixRecord "ABC123" None "" "" "" (Pg.Numeric p) 0 in
  Booksonix.ingest [row1] ∅ =
    (Booksonix.Counters 1 0 0 0, {["ABC123" := stored 500%Z]})
  /\ Booksonix.ingest [row1; row2] ∅ =
    (Booksonix.Counters 1 0 1 1, {["ABC123" := stored 500%Z]})
  /\ Booksonix.ingest [row1; row2; row3] ∅ =
    (Booksonix.Counters 1 1 1 1, {["ABC123" := stored 700%Z]}).
Proof. vm_compute. repeat split; reflexivity. Qed.

(** C6, the claim as stated fails when [price] is read as the label of
    the column: the handler looks for [Prices], [Price], [PRICE] and
    [RRP] only, the price of each row is 0, and the stored price is 0
    after the first row and at the end. *)
Lemma booksonix_three_row_sheet_lowercase_price :
  let row1 : row := <["sku" := CStr "ABC-123"]> (<["price" := CStr "£5.00"]> ∅)
  in
  let row2 : row := <["sku" := CStr ""]> (<["price" := CStr "£1.00"]> ∅) in
  let row3 : row := <["sku" := CStr "ABC-123"]> (<["price" := CStr "£7.00"]> ∅)
  in
  Booksonix.price_of row1 = of_Z 0
  /\ Pg.price <$> snd (Booksonix.ingest [row1] ∅) !! "ABC123"
     = Some (Pg.Numeric 0)
  /\ Pg.price <$> snd (Booksonix.ingest [row1; row2; row3] ∅) !! "ABC123"
     = Some (Pg.Numeric 0)
  /\ Pg.price <$> snd (Booksonix.ingest [row1; row2; row3] ∅) !! "ABC123"
     <> Some (Pg.Numeric 700).
Proof. vm_compute. repeat split; try reflexivity. discriminate. Qed.

(** ** Merging into an existing row *)

Lemma varchar_nonempty (n : nat) (s p : string) :
  Pg.varchar (S n) s = Pg.Ok p -> s <> EmptyString -> p <> EmptyString.
Proof.
  unfold Pg.varchar. destruct s as [|c s]; [congruence|]. intros H _.
  cbn [Pg.split_chars] in H.
  destruct ((128 <=? JsString.code c)%N && (JsString.code c <=? 191)%N).
  - destruct (Pg.split_chars (S n) s) as [p' r].
    destruct (Pg.all_spaces r); [|discriminate].
    injection H as <-. discriminate.
  - destruct (Pg.split_chars n s) as [p' r].
    destruct (Pg.all_spaces r); [|discriminate].
    injection H as <-. discriminate.
Qed.

(** What a row that is accepted proposes, column by column. *)
Lemma candidate_fields (row : row) (e : Pg.booksonix_record) :
  Booksonix.candidate row = Some e ->
  truthy (Booksonix.sku_of row) = true
  /\ Pg.varchar 100 (to_string (Booksonix.sku_of row)) = Pg.Ok (Pg.sku e)
  /\ Pg.nullable (Pg.varchar 50) (Booksonix.or_null (Booksonix.isbn_of row))
     = Pg.Ok (Pg.isbn e)
  /\ Pg.varchar 500 (to_string (Booksonix.title_of row)) = Pg.Ok (Pg.title e)
  /\ Pg.author e = EmptyString
  /\ Pg.varchar 500 (to_string (Booksonix.publisher_of row))
     = Pg.Ok (Pg.publisher e)
  /\ Pg.decimal2 10 (Booksonix.price_of row) = Pg.Ok (Pg.price e)
  /\ Pg.quantity e = 0%Z.
Proof.
  unfold Booksonix.candidate.
  destruct (truthy (Booksonix.sku_of row)); [|discriminate]. simpl negb.
  cbv iota. unfold Pg.booksonix_values, mbind, Pg.result_bind.
  destruct (Pg.text_parameters _) as [[]|]; [|discriminate].
  destruct (Pg.varchar 100 _) as [c_sku|]; [|discriminate].
  destruct (Pg.nullable _ _) as [c_isbn|]; [|discriminate].
  destruct (Pg.varchar 500 (to_string (Booksonix.title_of row)))
    as [c_title|]; [|discriminate].
  change (Pg.varchar 500 "") with (Pg.Ok (A:=string) "").
  destruct (Pg.varchar 500 (to_string (Booksonix.publisher_of row)))
    as [c_publisher|]; [|discriminate].
  destruct (Pg.decimal2 10 _) as [c_price|]; [|discriminate].
  change (Pg.integer (of_Z 0)) with (Pg.Ok 0%Z).
  intros H. injection H as <-. simpl. repeat split; reflexivity.
Qed.

Lemma isbn_of_truthy (row : row) :
  truthy (Booksonix.isbn_of row) = true ->
  exists s : string, Booksonix.isbn_of row = CStr s /\ s <> EmptyString.
Proof.
  unfold Booksonix.isbn_of. cbv zeta.
  destruct (truthy (defined _)) eqn:Hv.
  - intros Ht. eexists. split; [reflexivity|].
    intros Heq. rewrite Heq in Ht. discriminate.
  - intros Ht. rewrite Ht in Hv. discriminate.
Qed.

(** An ISBN that is truthy after normalization is stored as a string
    that is not empty; one that is not is stored as NULL. *)
Lemma candidate_isbn (row : row) (e : Pg.booksonix_record) :
  Booksonix.candidate row = Some e ->
  if truthy (Booksonix.isbn_of row)
  then exists s : string, Pg.isbn e = Some s /\ s <> EmptyString
  else Pg.isbn e = None.
Proof.
  intros Hc. destruct (candidate_fields row e Hc) as (_ & _ & Hisbn & _).
  unfold Booksonix.or_null in Hisbn.
  destruct (truthy (Booksonix.isbn_of row)) eqn:Ht.
  - destruct (isbn_of_truthy row Ht) as (s & Hs & Hne).
    rewrite Hs in Hisbn. simpl in Hisbn.
    unfold Pg.nullable, mbind, Pg.result_bind in Hisbn.
    destruct (Pg.varchar 50 s) as [p|] eqn:Hv; [|discriminate].
    injection Hisbn as <-. exists p. split; [reflexivity|].
    apply (varchar_nonempty _ _ _ Hv Hne).
  - simpl in Hisbn. injection Hisbn as <-. reflexivity.
Qed.

(** C2, as amended. When a row with a key is accepted and the table has
    a row for that key, the row is counted as updated and the stored row
    is changed field by field: the ISBN is kept when the incoming one is
    empty and replaced when it is not; the title, the publisher and the
    price are replaced by the incoming values whatever they are, an empty
    string and 0 included; the author, the quantity and the key are
    kept. *)
Theorem booksonix_merge_on_conflict (row : row) (c : Booksonix.counters)
    (tbl : gmap string Pg.booksonix_record)
    (excluded old : Pg.booksonix_record) :
  Booksonix.candidate row = Some excluded ->
  tbl !! Pg.sku excluded = Some old ->
  let merged := Pg.do_update old excluded in
  Booksonix.step (c, tbl) row =
    (Booksonix.Counters (Booksonix.newRecords c)
       (S (Booksonix.duplicates c)) (Booksonix.errors c)
       (Booksonix.skippedNoSku c),
     <[Pg.sku excluded := merged]> tbl)
  /\ (if truthy (Booksonix.isbn_of row)
      then Pg.isbn merged = Pg.isbn excluded
           /\ exists s : string,
               Pg.isbn excluded = Some s /\ s <> EmptyString
      else Pg.isbn merged = Pg.isbn old)
  /\ Pg.varchar 500 (to_string (Booksonix.title_of row))
     = Pg.Ok (Pg.title merged)
  /\ Pg.varchar 500 (to_string (Booksonix.publisher_of row))
     = Pg.Ok (Pg.publisher merged)
  /\ Pg.decimal2 10 (Booksonix.price_of row) = Pg.Ok (Pg.price merged)
  /\ Pg.author merged = Pg.author old
  /\ Pg.quantity merged = Pg.quantity old
  /\ Pg.sku merged = Pg.sku old.
Proof.
  intros Hc Hold. cbv zeta.
  destruct (candidate_fields row excluded Hc)
    as (Hkey & _ & _ & Htitle & _ & Hpub & Hprice & _).
  pose proof (candidate_isbn row excluded Hc) as Hisbn.
  split.
  { rewrite booksonix_step_cases, Hkey, Hc, Hold. reflexivity. }
  split.
  { destruct (truthy (Booksonix.isbn_of row)).
    - destruct Hisbn as (s & Hs & Hne). split; [|exists s; split; assumption].
      simpl. rewrite Hs. destruct s; [congruence|reflexivity].
    - simpl. rewrite Hisbn. reflexivity. }
  simpl. repeat split; assumption || reflexivity.
Qed.

(** A row for the key [A1] that has no title, publisher or price, on a
    table that holds a full row for [A1]. *)
Lemma booksonix_merge_on_conflict_witness :
  let old := Pg.BooksonixRecord "A1" (Some "9780000000017") "Old Title"
               "A. Writer" "Old House" (Pg.Numeric 999) 3 in
  let excluded := Pg.BooksonixRecord "A1" None "" "" "" (Pg.Numeric 0) 0 in
  let row : row := <["SKU" := CStr "A1"]> ∅ in
  let tbl : gmap string Pg.booksonix_record := {["A1" := old]} in
  Booksonix.candidate row = Some excluded
  /\ tbl !! Pg.sku excluded = Some old
  /\ Booksonix.step (Booksonix.zero, tbl) row =
     (Booksonix.Counters 0 1 0 0,
      <["A1" := Pg.do_update old excluded]> tbl).
Proof.
  cbv zeta.
  assert (H1 : Booksonix.candidate (<["SKU" := CStr "A1"]> ∅) =
               Some (Pg.BooksonixRecord "A1" None "" "" "" (Pg.Numeric 0) 0))
    by (vm_compute; reflexivity).
  assert (H2 : ({["A1" := Pg.BooksonixRecord "A1" (Some "9780000000017")
                          "Old Title" "A. Writer" "Old House"
                          (Pg.Numeric 999) 3]}
                 : gmap string Pg.booksonix_record)
               !! Pg.sku (Pg.BooksonixRecord "A1" None "" "" ""
                            (Pg.Numeric 0) 0)
               = Some (Pg.BooksonixRecord "A1" (Some "9780000000017")
                         "Old Title" "A. Writer" "Old House"
                         (Pg.Numeric 999) 3))
    by (vm_compute; reflexivity).
  split; [exact H1|]. split; [exact H2|].
  exact (proj1 (booksonix_merge_on_conflict _ Booksonix.zero _ _ _ H1 H2)).
Defined.

(** C2, the claim as stated fails for the title, the publisher and the
    price: a row for the key [A1] with no title, publisher or price
    replaces the stored title and publisher by the empty string and the
    stored price by 0; only the ISBN is kept. *)
Lemma booksonix_blank_fields_overwrite :
  let old := Pg.BooksonixRecord "A1" (Some "9780000000017") "Old Title"
               "A. Writer" "Old House" (Pg.Numeric 999) 3 in
  let row : row := <["SKU" := CStr "A1"]> ∅ in
  let tbl : gmap string Pg.booksonix_record := {["A1" := old]} in
  Booksonix.title_of row = CStr ""
  /\ Booksonix.publisher_of row = CStr ""
  /\ snd (Booksonix.step (Booksonix.zero, tbl) row) !! "A1" =
     Some (Pg.BooksonixRecord "A1" (Some "9780000000017") ""
             "A. Writer" "" (Pg.Numeric 0) 3)
  /\ Pg.title <$> snd (Booksonix.step (Booksonix.zero, tbl) row) !! "A1"
     <> Some "Old Title".
Proof. vm_compute. repeat split; try reflexivity. discriminate. Qed.

(** ** The Gazelle table under the upload *)

Lemma str_forall_app (p : ascii -> bool) (a b : string) :
  str_forall p (String.append a b) = str_forall p a && str_forall p b.
Proof.
  induction a as [|c a IH]; [reflexivity|].
  simpl. rewrite IH. apply andb_assoc.
Qed.

Lemma includes_duplicate_no_d (s : string) :
  str_forall no_d s = true -> includes "duplicate" s = false.
Proof.
  induction s as [|c s IH]; intros Hs; [reflexivity|].
  simpl in Hs. apply andb_prop in Hs as [Hc Hs].
  cbn [includes].
  change (strip_prefix "duplicate" (String c s))
    with (if Ascii.eqb "d" c then strip_prefix "uplicate" s else None).
  unfold no_d in Hc. rewrite Ascii.eqb_sym in Hc.
  destruct (Ascii.eqb "d" c); [discriminate|]. apply IH, Hs.
Qed.

Lemma string_of_uint_no_d (u : Decimal.uint) :
  str_forall no_d (NilEmpty.string_of_uint u) = true.
Proof. induction u; simpl; auto. Qed.

Lemma digits_of_no_d (z : Z) : str_forall no_d (digits_of z) = true.
Proof. destruct z; simpl; [reflexivity| |]; apply string_of_uint_no_d. Qed.

Lemma strip_trailing_zeros_forall (p : ascii -> bool) (s : string) :
  str_forall p s = true ->
  str_forall p (fst (strip_trailing_zeros s)) = true.
Proof.
  induction s as [|c s IH]; intros Hs; [reflexivity|].
  simpl in Hs. apply andb_prop in Hs as [Hc Hs]. specialize (IH Hs).
  simpl. destruct (strip_trailing_zeros s) as [t z]. simpl in IH.
  destruct t as [|c' t'].
  - destruct (Ascii.eqb c "0"); simpl; [reflexivity|].
    rewrite Hc. reflexivity.
  - cbn [fst str_forall] in *. rewrite Hc. exact IH.
Qed.

Lemma str_take_forall (p : ascii -> bool) (n : nat) :
  forall s : string,
    str_forall p s = true -> str_forall p (str_take n s) = true.
Proof.
  induction n as [|n IH]; intros [|c s] Hs; try reflexivity.
  simpl in Hs. apply andb_prop in Hs as [Hc Hs].
  simpl. rewrite Hc. apply IH, Hs.
Qed.

Lemma str_drop_forall (p : ascii -> bool) (n : nat) :
  forall s : string,
    str_forall p s = true -> str_forall p (str_drop n s) = true.
Proof.
  induction n as [|n IH]; intros [|c s] Hs; try reflexivity; try exact Hs.
  simpl in Hs. apply andb_prop in Hs as [Hc Hs].
  simpl. apply IH, Hs.
Qed.

Lemma zeros_no_d (n : nat) : str_forall no_d (zeros n) = true.
Proof. induction n as [|n IH]; [reflexivity|]. simpl. exact IH. Qed.

(** The text of a number has no letter d in it. *)
Lemma number_to_string_no_d (x : number) :
  str_forall no_d (number_to_string x) = true.
Proof.
  destruct x as [|[|]|m e]; try reflexivity.
  unfold number_to_string.
  destruct (m =? 0)%Z; [reflexivity|].
  pose proof (strip_trailing_zeros_forall no_d _ (digits_of_no_d m)) as Ht.
  destruct (strip_trailing_zeros (digits_of m)) as [t z]. simpl in Ht.
  set (k := Z.of_nat (String.length t)).
  set (n := (k + e + Z.of_nat z)%Z).
  assert (Hbody : forall body : string,
            str_forall no_d body = true ->
            str_forall no_d (if (m <? 0)%Z then String "-" body else body)
            = true).
  { intros body Hb. destruct (m <? 0)%Z; [simpl|]; exact Hb. }
  apply Hbody.
  destruct ((k <=? n)%Z && (n <=? 21)%Z).
  { rewrite str_forall_app, Ht, zeros_no_d. reflexivity. }
  destruct ((0 <? n)%Z && (n <=? 21)%Z).
  { rewrite str_forall_app, str_take_forall by exact Ht.
    exact (str_drop_forall no_d _ t Ht). }
  destruct ((-6 <? n)%Z && (n <=? 0)%Z).
  { rewrite str_forall_app. simpl.
    rewrite str_forall_app, zeros_no_d, Ht. reflexivity. }
  rewrite str_forall_app.
  assert (Hexp : str_forall no_d
            (String "e" (String (if (n - 1 <? 0)%Z then "-"%char else "+"%char)
               (digits_of (n - 1)))) = true).
  { simpl. destruct (n - 1 <? 0)%Z; simpl; apply digits_of_no_d. }
  rewrite Hexp, andb_true_r.
  destruct (k =? 1)%Z; [exact Ht|].
  rewrite str_forall_app, str_take_forall by exact Ht.
  exact (str_drop_forall no_d 1 t Ht).
Qed.

Lemma varchar_error (n : nat) (s : string) (e : Pg.pg_error) :
  Pg.varchar n s = Pg.Error e -> e = Pg.string_data_right_truncation n.
Proof.
  unfold Pg.varchar. destruct (Pg.split_chars n s) as [p r].
  destruct (Pg.all_spaces r); [discriminate|]. congruence.
Qed.

Lemma decimal2_error (p : Z) (x : number) (e : Pg.pg_error) :
  Pg.decimal2 p x = Pg.Error e ->
  e = Pg.numeric_value_out_of_range "numeric field overflow".
Proof.
  unfold Pg.decimal2. destruct x as [|neg|m ex]; try discriminate.
  - congruence.
  - destruct (Z.abs (hundredths m ex) <? 10 ^ p)%Z; [discriminate|congruence].
Qed.

Lemma integer_error_not_duplicate (x : number) (e : Pg.pg_error) :
  Pg.integer x = Pg.Error e -> Gazelle.is_duplicate e = false.
Proof.
  assert (Hq : str_forall no_d (Pg.quoted (number_to_string x)) = true).
  { unfold Pg.quoted. cbn [str_forall].
    rewrite str_forall_app, (number_to_string_no_d x). reflexivity. }
  assert (Hrange : Gazelle.is_duplicate
            (Pg.numeric_value_out_of_range
               (String.append "value "
                  (String.append (Pg.quoted (number_to_string x))
                     " is out of range for type integer"))) = false).
  { unfold Gazelle.is_duplicate. simpl Pg.code. simpl Pg.message.
    rewrite includes_duplicate_no_d; [reflexivity|].
    rewrite str_forall_app, str_forall_app, Hq. reflexivity. }
  assert (Hsyntax : Gazelle.is_duplicate
            (Pg.invalid_text_representation
               (String.append "integer: " (Pg.quoted (number_to_string x))))
            = false).
  { unfold Gazelle.is_duplicate. simpl Pg.code.
    unfold Pg.message.
    generalize dependent (Pg.quoted (number_to_string x)). intros t Ht.
    assert (Hskip : includes "duplicate"
              (String.append "invalid input syntax for type "
                 (String.append "integer: " t))
            = includes "duplicate" t) by reflexivity.
    rewrite Hskip, includes_duplicate_no_d; [reflexivity|exact Ht]. }
  unfold Pg.integer. destruct x as [|neg|m ex].
  - intros H. injection H as <-. exact Hsyntax.
  - intros H. injection H as <-. exact Hsyntax.
  - destruct (_ && _).
    + destruct (_ && _); [discriminate|].
      intros H. injection H as <-. exact Hrange.
    + intros H. injection H as <-. exact Hsyntax.
Qed.

Lemma text_parameters_error (ps : list string) (e : Pg.pg_error) :
  Pg.text_parameters ps = Pg.Error e -> e = Pg.character_not_in_repertoire.
Proof.
  unfold Pg.text_parameters. destruct (forallb Pg.no_nul ps);
    [discriminate|congruence].
Qed.

Ltac column_refused E :=
  let H := fresh "H" in
  intros H; injection H as <-;
  first [ apply varchar_error in E | apply decimal2_error in E
        | apply text_parameters_error in E ];
  subst; reflexivity.

(** No error of the [INSERT] into [gazelle_sales] passes the test for a
    duplicate: the table has no uniqueness constraint, and the errors of
    its column types have other codes and other messages. *)
Lemma gazelle_values_not_duplicate (h : host) (row : row)
    (err : Pg.pg_error) :
  Gazelle.values h row = Pg.Error err -> Gazelle.is_duplicate err = false.
Proof.
  unfold Gazelle.values, Pg.gazelle_values, mbind, Pg.result_bind.
  destruct (Pg.text_parameters _) eqn:E0; [|column_refused E0].
  destruct (Pg.varchar 100 (Gazelle.orderRef_of row)) eqn:E1;
    [|column_refused E1].
  destruct (Pg.varchar 500 (Gazelle.customerName_of row)) eqn:E2;
    [|column_refused E2].
  destruct (Pg.varchar 200 (Gazelle.city_of row)) eqn:E3;
    [|column_refused E3].
  destruct (Pg.varchar 100 (Gazelle.country_of row)) eqn:E4;
    [|column_refused E4].
  destruct (Pg.varchar 500 (Gazelle.title_of row)) eqn:E5;
    [|column_refused E5].
  destruct (Pg.varchar 50 (Gazelle.isbn13_of row)) eqn:E6;
    [|column_refused E6].
  destruct (Pg.integer (Gazelle.quantity_of row)) eqn:E7.
  2:{ intros H. injection H as <-.
      apply (integer_error_not_duplicate _ _ E7). }
  destruct (Pg.decimal2 10 (Gazelle.unitPrice_of row)) eqn:E8;
    [|column_refused E8].
  destruct (Pg.decimal2 5 (Gazelle.discount_of row)) eqn:E9;
    [|column_refused E9].
  destruct (Pg.varchar 500 (Gazelle.publisher_of row)) eqn:E10;
    [|column_refused E10].
  destruct (Pg.varchar 100 (Gazelle.format_of row)) eqn:E11;
    [|column_refused E11].
  discriminate.
Qed.

(** One turn of the Gazelle loop: the branch for a duplicate is never
    taken. *)
Lemma gazelle_step_cases (h : host) (i : nat) (c : Gazelle.counters)
    (tbl : list Pg.gazelle_sale) (row : row) :
  Gazelle.step h i (c, tbl) row =
  if Gazelle.no_key row then
    (Gazelle.Counters (Gazelle.newRecords c) (Gazelle.updatedRecords c)
       (Gazelle.errors c) (S (Gazelle.skippedRows c))
       (Gazelle.errorDetails c), tbl)
  else
    match Gazelle.values h row with
    | Pg.Ok r =>
      (Gazelle.Counters (S (Gazelle.newRecords c))
         (Gazelle.updatedRecords c) (Gazelle.errors c)
         (Gazelle.skippedRows c) (Gazelle.errorDetails c), tbl ++ [r])
    | Pg.Error err =>
      (Gazelle.Counters (Gazelle.newRecords c) (Gazelle.updatedRecords c)
         (S (Gazelle.errors c)) (Gazelle.skippedRows c)
         (Gazelle.errorDetails c ++
            [Gazelle.ErrorDetail (i + 1) (Pg.message err)
               (row !! "Order Ref") (row !! "Customer Name")]), tbl)
    end.
Proof.
  unfold Gazelle.step, Gazelle.no_key.
  destruct (_ || _)%bool; [reflexivity|].
  destruct (Gazelle.values h row) as [r|err] eqn:Hv; [reflexivity|].
  rewrite (gazelle_values_not_duplicate h row err Hv). reflexivity.
Qed.

(** The counters and the table after the Gazelle loop. *)
Lemma gazelle_loop_result (h : host) (rawData : list row) :
  forall (i : nat) (c : Gazelle.counters) (tbl : list Pg.gazelle_sale),
    let r := Gazelle.loop h i rawData (c, tbl) in
    Gazelle.newRecords (fst r) =
      Gazelle.newRecords c + length (Gazelle.inserted h rawData)
    /\ Gazelle.updatedRecords (fst r) = Gazelle.updatedRecords c
    /\ Gazelle.errors (fst r) =
      Gazelle.errors c + Gazelle.count (Gazelle.write_fails h) rawData
    /\ Gazelle.skippedRows (fst r) =
      Gazelle.skippedRows c + Gazelle.count Gazelle.no_key rawData
    /\ snd r = tbl ++ Gazelle.inserted h rawData.
Proof.
  induction rawData as [|row rest IH]; intros i c tbl; cbv zeta.
  - simpl. rewrite app_nil_r. repeat split; lia.
  - cbn [Gazelle.loop Gazelle.count]. rewrite gazelle_step_cases.
    unfold Gazelle.inserted. cbn [omap list_omap].
    fold (Gazelle.inserted h rest).
    unfold Gazelle.write_fails at 1. unfold Gazelle.accepted.
    unfold Gazelle.candidate.
    destruct (Gazelle.no_key row).
    + specialize (IH (S i)
        (Gazelle.Counters (Gazelle.newRecords c) (Gazelle.updatedRecords c)
           (Gazelle.errors c) (S (Gazelle.skippedRows c))
           (Gazelle.errorDetails c)) tbl).
      cbv zeta in IH. destruct IH as (I1 & I2 & I3 & I4 & I5).
      simpl in *. repeat split; try lia; assumption.
    + destruct (Gazelle.values h row) as [r|err].
      * specialize (IH (S i)
          (Gazelle.Counters (S (Gazelle.newRecords c))
             (Gazelle.updatedRecords c) (Gazelle.errors c)
             (Gazelle.skippedRows c) (Gazelle.errorDetails c))
          (tbl ++ [r])).
        cbv zeta in IH. destruct IH as (I1 & I2 & I3 & I4 & I5).
        simpl in *. repeat split; try lia; try assumption.
        rewrite I5, <- app_assoc. reflexivity.
      * specialize (IH (S i)
          (Gazelle.Counters (Gazelle.newRecords c)
             (Gazelle.updatedRecords c) (S (Gazelle.errors c))
             (Gazelle.skippedRows c)
             (Gazelle.errorDetails c ++
                [Gazelle.ErrorDetail (i + 1) (Pg.message err)
                   (row !! "Order Ref") (row !! "Customer Name")])) tbl).
        cbv zeta in IH. destruct IH as (I1 & I2 & I3 & I4 & I5).
        simpl in *. repeat split; try lia; assumption.
Qed.

(** C10, as amended. The table [gazelle_sales] has no uniqueness
    constraint: no error of the [INSERT] passes the test for a duplicate,
    the count of duplicates is 0 after every upload, and every row with
    an order reference and a customer name whose values the database
    accepts is appended as a new row. A row with both key fields of which
    the database refuses a value (one too long for its column, a number
    its column cannot hold, a text with the character NUL) is not
    inserted: it adds one to the count of errors and its message to the
    details, and the count of errors of an upload is the number of such
    rows. A second upload of the same sheet appends the same rows again:
    from an empty table the stored rows double. *)
Theorem gazelle_append_only (h : host) (rawData : list row)
    (tbl : list Pg.gazelle_sale) :
  let first := Gazelle.ingest h rawData tbl in
  let second := Gazelle.ingest h rawData (snd first) in
  (forall (row : row) (err : Pg.pg_error),
      Gazelle.values h row = Pg.Error err ->
      Gazelle.is_duplicate err = false)
  /\ (forall (row : row) (r : Pg.gazelle_sale) (i : nat)
        (c : Gazelle.counters) (t : list Pg.gazelle_sale),
      Gazelle.no_key row = false -> Gazelle.values h row = Pg.Ok r ->
      Gazelle.step h i (c, t) row =
      (Gazelle.Counters (S (Gazelle.newRecords c))
         (Gazelle.updatedRecords c) (Gazelle.errors c)
         (Gazelle.skippedRows c) (Gazelle.errorDetails c), t ++ [r]))
  /\ (forall (row : row) (err : Pg.pg_error) (i : nat)
        (c : Gazelle.counters) (t : list Pg.gazelle_sale),
      Gazelle.no_key row = false -> Gazelle.values h row = Pg.Error err ->
      Gazelle.step h i (c, t) row =
      (Gazelle.Counters (Gazelle.newRecords c) (Gazelle.updatedRecords c)
         (S (Gazelle.errors c)) (Gazelle.skippedRows c)
         (Gazelle.errorDetails c ++
            [Gazelle.ErrorDetail (i + 1) (Pg.message err)
               (row !! "Order Ref") (row !! "Customer Name")]), t))
  /\ Gazelle.errors (fst first) = Gazelle.count (Gazelle.write_fails h) rawData
  /\ Gazelle.errors (fst second) = Gazelle.errors (fst first)
  /\ Gazelle.updatedRecords (fst first) = 0
  /\ Gazelle.updatedRecords (fst second) = 0
  /\ Gazelle.newRecords (fst first) = length (Gazelle.inserted h rawData)
  /\ Gazelle.newRecords (fst second) = Gazelle.newRecords (fst first)
  /\ snd first = tbl ++ Gazelle.inserted h rawData
  /\ snd second =
     tbl ++ Gazelle.inserted h rawData ++ Gazelle.inserted h rawData
  /\ length (snd (Gazelle.ingest h rawData
                    (snd (Gazelle.ingest h rawData [])))) =
     2 * length (snd (Gazelle.ingest h rawData [])).
Proof.
  cbv zeta. unfold Gazelle.ingest.
  pose proof (gazelle_loop_result h rawData 0 Gazelle.zero tbl) as H1.
  pose proof (gazelle_loop_result h rawData 0 Gazelle.zero
                (snd (Gazelle.loop h 0 rawData (Gazelle.zero, tbl)))) as H2.
  pose proof (gazelle_loop_result h rawData 0 Gazelle.zero []) as H3.
  pose proof (gazelle_loop_result h rawData 0 Gazelle.zero
                (snd (Gazelle.loop h 0 rawData (Gazelle.zero, [])))) as H4.
  cbv zeta in H1, H2, H3, H4.
  destruct H1 as (A1 & A2 & A3 & _ & A5), H2 as (B1 & B2 & B3 & _ & B5).
  destruct H3 as (_ & _ & _ & _ & C5), H4 as (_ & _ & _ & _ & D5).
  simpl in A1, A2, A3, B1, B2, B3.
  split; [intros row err; apply gazelle_values_not_duplicate|].
  split.
  { intros row r i c t Hkey Hv.
    rewrite gazelle_step_cases, Hkey, Hv. reflexivity. }
  split.
  { intros row err i c t Hkey Hv.
    rewrite gazelle_step_cases, Hkey, Hv. reflexivity. }
  repeat split.
  - exact A3.
  - rewrite B3, A3. reflexivity.
  - exact A2.
  - exact B2.
  - exact A1.
  - rewrite B1, A1. reflexivity.
  - exact A5.
  - rewrite B5, A5, <- app_assoc. reflexivity.
  - rewrite D5, C5. simpl. rewrite length_app. lia.
Qed.

(** A row with a key whose values fit the columns, uploaded twice. *)
Lemma gazelle_append_only_witness :
  let row : row :=
    <["Order Ref" := CStr "A1"]> (<["Customer Name" := CStr "Shop"]> ∅) in
  let sale := Pg.GazelleSale "A1" None "Shop" "" "" "" "" 0
                (Pg.Numeric 0) (Pg.Numeric 0) "" "" in
  Gazelle.no_key row = false
  /\ Gazelle.values node_js row = Pg.Ok sale
  /\ Gazelle.step node_js 0 (Gazelle.zero, []) row =
     (Gazelle.Counters 1 0 0 0 [], [sale]).
Proof.
  cbv zeta.
  assert (H1 : Gazelle.no_key
                 (<["Order Ref" := CStr "A1"]>
                    (<["Customer Name" := CStr "Shop"]> ∅)) = false)
    by (vm_compute; reflexivity).
  assert (H2 : Gazelle.values node_js
                 (<["Order Ref" := CStr "A1"]>
                    (<["Customer Name" := CStr "Shop"]> ∅)) =
               Pg.Ok (Pg.GazelleSale "A1" None "Shop" "" "" "" "" 0
                        (Pg.Numeric 0) (Pg.Numeric 0) "" ""))
    by (vm_compute; reflexivity).
  split; [exact H1|]. split; [exact H2|].
  exact (proj1 (proj2 (gazelle_append_only node_js [] []))
           _ _ 0 Gazelle.zero [] H1 H2).
Defined.

(** C10, the claim as stated fails for a row whose order reference is
    longer than the 100 characters of its column: the row has both key
    fields, it is not inserted, and it is counted as an error. *)
Lemma gazelle_overlong_row_not_inserted :
  let row : row :=
    <["Order Ref" := CStr (zeros 101)]>
      (<["Customer Name" := CStr "Shop"]> ∅) in
  Gazelle.no_key row = false
  /\ snd (Gazelle.ingest node_js [row] []) = []
  /\ Gazelle.newRecords (fst (Gazelle.ingest node_js [row] [])) = 0
  /\ Gazelle.errors (fst (Gazelle.ingest node_js [row] [])) = 1
  /\ Gazelle.detail_error
       <$> Gazelle.errorDetails (fst (Gazelle.ingest node_js [row] []))
     = ["value too long for type character varying(100)"%string].
Proof. vm_compute. repeat split; reflexivity. Qed.

(** ** Rows without a key *)

(** C4, as amended. A row whose SKU is empty after normalization leaves
    the Booksonix table and the counts of new and updated rows as they
    were and adds one to [skippedNoSku] and one to [errors]; a row whose
    order reference or customer name is empty leaves the Gazelle table
    and the counts of new rows, duplicates and errors as they were and
    adds one to [skippedRows]. The Gazelle summary sends the rows without
    a key and the write errors in two fields; the Booksonix summary sends
    one field [errors], the rows without a key plus the write errors,
    and does not send [skippedNoSku]. *)
Theorem keyless_row_is_skipped (h : host) (row : row) :
  (truthy (Booksonix.sku_of row) = false ->
   forall (c : Booksonix.counters) (tbl : gmap string Pg.booksonix_record),
     Booksonix.step (c, tbl) row =
     (Booksonix.Counters (Booksonix.newRecords c) (Booksonix.duplicates c)
        (S (Booksonix.errors c)) (S (Booksonix.skippedNoSku c)), tbl))
  /\ (Gazelle.orderRef_of row = EmptyString
      \/ Gazelle.customerName_of row = EmptyString ->
      forall (i : nat) (c : Gazelle.counters) (tbl : list Pg.gazelle_sale),
        Gazelle.step h i (c, tbl) row =
        (Gazelle.Counters (Gazelle.newRecords c) (Gazelle.updatedRecords c)
           (Gazelle.errors c) (S (Gazelle.skippedRows c))
           (Gazelle.errorDetails c), tbl))
  /\ (forall (data : list JsValue.row) (tbl : list Pg.gazelle_sale),
        let s := Gazelle.summarize data (fst (Gazelle.ingest h data tbl)) in
        Gazelle.sent_skippedRows s = Gazelle.count Gazelle.no_key data
        /\ Gazelle.sent_errors s =
           Gazelle.count (Gazelle.write_fails h) data)
  /\ (forall (data : list JsValue.row)
        (tbl : gmap string Pg.booksonix_record),
        let s := Booksonix.summarize data (fst (Booksonix.ingest data tbl))
        in
        Booksonix.sent_errors s =
          Booksonix.count Booksonix.no_key data
          + Booksonix.count Booksonix.write_fails data
        /\ Booksonix.skippedNoSku (fst (Booksonix.ingest data tbl)) =
           Booksonix.count Booksonix.no_key data).
Proof.
  split; [|split; [|split]].
  - intros Hkey c tbl. rewrite booksonix_step_cases, Hkey. reflexivity.
  - intros Hkey i c tbl. rewrite gazelle_step_cases.
    assert (Hno : Gazelle.no_key row = true).
    { unfold Gazelle.no_key. destruct Hkey as [-> | ->]; simpl.
      - reflexivity.
      - apply orb_true_r. }
    rewrite Hno. reflexivity.
  - intros data tbl. cbv zeta. unfold Gazelle.ingest.
    destruct (gazelle_loop_result h data 0 Gazelle.zero tbl)
      as (_ & _ & E & S & _).
    simpl in *. split; assumption.
  - intros data tbl. cbv zeta. unfold Booksonix.ingest.
    destruct (booksonix_counters data Booksonix.zero tbl) as (_ & E & S).
    simpl in *. split; assumption.
Qed.

(** A row with a price and no SKU, no order reference and no customer
    name. *)
Lemma keyless_row_is_skipped_witness :
  let row : row := <["Price" := CStr "£1.00"]> ∅ in
  truthy (Booksonix.sku_of row) = false
  /\ Gazelle.orderRef_of row = EmptyString
  /\ Booksonix.step (Booksonix.zero, ∅) row =
     (Booksonix.Counters 0 0 1 1, ∅)
  /\ Gazelle.step node_js 0 (Gazelle.zero, []) row =
     (Gazelle.Counters 0 0 0 1 [], []).
Proof.
  cbv zeta.
  assert (H1 : truthy (Booksonix.sku_of (<["Price" := CStr "£1.00"]> ∅))
               = false) by (vm_compute; reflexivity).
  assert (H2 : Gazelle.orderRef_of (<["Price" := CStr "£1.00"]> ∅)
               = EmptyString) by (vm_compute; reflexivity).
  split; [exact H1|]. split; [exact H2|]. split.
  - exact (proj1 (keyless_row_is_skipped node_js _) H1
             Booksonix.zero ∅).
  - exact (proj1 (proj2 (keyless_row_is_skipped node_js _))
             (or_introl H2) 0 Gazelle.zero []).
Defined.

(** C4, the claim as stated fails for the Booksonix summary: a sheet
    whose only row has no SKU and a sheet whose only row has a SKU that
    the table refuses (101 characters) get the same answer, one error
    each; the answer does not tell a row without a key from a write
    error. *)
Lemma booksonix_summary_mixes_keyless_and_write_errors :
  let keyless : list row := [ <["SKU" := CStr ""]> ∅ ] in
  let refused : list row := [ <["SKU" := CStr (zeros 101)]> ∅ ] in
  Booksonix.count Booksonix.no_key keyless = 1
  /\ Booksonix.count Booksonix.write_fails keyless = 0
  /\ Booksonix.count Booksonix.no_key refused = 0
  /\ Booksonix.count Booksonix.write_fails refused = 1
  /\ Booksonix.summarize keyless (fst (Booksonix.ingest keyless ∅)) =
     Booksonix.Summary 1 0 0 1
  /\ Booksonix.summarize refused (fst (Booksonix.ingest refused ∅)) =
     Booksonix.Summary 1 0 0 1.
Proof. vm_compute. repeat split; reflexivity. Qed.

(** ** The uploaded file *)

(** The Booksonix handler, by what is at the path of the upload. *)
Lemma booksonix_upload_cases (path : string) (w : Server.world) :
  Server.booksonix_upload (Some path) w =
  match Server.files w !! path with
  | Some (Server.Workbook data) =>
    let r := Booksonix.ingest data (Server.booksonix_records w) in
    (Server.Returned (Server.BooksonixDone (Booksonix.summarize data (fst r))),
     Server.World (delete path (Server.files w)) (snd r)
       (Server.gazelle_sales w))
  | Some Server.Unreadable =>
    (Server.Returned (Server.Failed "Unsupported file"),
     Server.World (delete path (Server.files w)) (Server.booksonix_records w)
       (Server.gazelle_sales w))
  | None =>
    (Server.Returned (Server.Failed "ENOENT: no such file or directory"), w)
  end.
Proof.
  unfold Server.booksonix_upload, Server.try_catch, mbind, Server.M_bind,
    Server.read_rows, Server.booksonix_rows.
  destruct (Server.files w !! path) as [[|data]|] eqn:Hf.
  - unfold Server.existsSync, Server.unlinkSync. rewrite Hf.
    rewrite bool_decide_eq_true_2 by eauto. rewrite Hf. reflexivity.
  - destruct (Booksonix.ingest data (Server.booksonix_records w))
      as [c tbl] eqn:Hr.
    unfold Server.unlinkSync. cbn [Server.files]. rewrite Hf. reflexivity.
  - unfold Server.existsSync. rewrite Hf.
    rewrite bool_decide_eq_false_2 by (intros [x Hx]; discriminate).
    reflexivity.
Qed.

(** The Gazelle handler, by what is at the path of the upload. *)
Lemma gazelle_upload_cases (h : host) (path : string) (w : Server.world) :
  Server.gazelle_upload h (Some path) w =
  match Server.files w !! path with
  | Some (Server.Workbook rawData) =>
    let r := Gazelle.ingest h rawData (Server.gazelle_sales w) in
    (Server.Returned
       (Server.GazelleDone (Gazelle.summarize rawData (fst r))),
     Server.World (delete path (Server.files w)) (Server.booksonix_records w)
       (snd r))
  | Some Server.Unreadable =>
    (Server.Returned (Server.Failed "Upload failed: Unsupported file"),
     Server.World (delete path (Server.files w)) (Server.booksonix_records w)
       (Server.gazelle_sales w))
  | None =>
    (Server.Returned
       (Server.Failed "Upload failed: ENOENT: no such file or directory"),
     w)
  end.
Proof.
  unfold Server.gazelle_upload, Server.try_catch, mbind, Server.M_bind,
    Server.read_rows, Server.gazelle_rows.
  destruct (Server.files w !! path) as [[|rawData]|] eqn:Hf.
  - unfold Server.existsSync, Server.unlinkSync. rewrite Hf.
    rewrite bool_decide_eq_true_2 by eauto. rewrite Hf. reflexivity.
  - destruct (Gazelle.ingest h rawData (Server.gazelle_sales w))
      as [c tbl] eqn:Hr.
    unfold Server.unlinkSync. cbn [Server.files]. rewrite Hf. reflexivity.
  - unfold Server.existsSync. rewrite Hf.
    rewrite bool_decide_eq_false_2 by (intros [x Hx]; discriminate).
    reflexivity.
Qed.

(** C9. Whatever is at the path of the uploaded file and whatever the
    tables hold, each handler returns an answer, and when it has returned
    there is no file at that path: after the summary of a sheet whose
    rows were all stored, after the summary of a sheet some of whose rows
    were skipped or refused, and after the failure answer for a file that
    cannot be read. No other file is touched. *)
Theorem upload_removes_transient_file (h : host) (path : string)
    (w : Server.world) :
  let b := Server.booksonix_upload (Some path) w in
  let g := Server.gazelle_upload h (Some path) w in
  (exists r : Server.response, fst b = Server.Returned r)
  /\ Server.files (snd b) !! path = None
  /\ (forall p : string, p <> path ->
        Server.files (snd b) !! p = Server.files w !! p)
  /\ (exists r : Server.response, fst g = Server.Returned r)
  /\ Server.files (snd g) !! path = None
  /\ (forall p : string, p <> path ->
        Server.files (snd g) !! p = Server.files w !! p).
Proof.
  cbv zeta. rewrite booksonix_upload_cases, gazelle_upload_cases.
  destruct (Server.files w !! path) as [[|data]|] eqn:Hf; simpl.
  - repeat split; try (eexists; reflexivity); try apply lookup_delete_eq;
      intros p Hp; apply lookup_delete_ne; congruence.
  - repeat split; try (eexists; reflexivity); try apply lookup_delete_eq;
      intros p Hp; apply lookup_delete_ne; congruence.
  - repeat split; try (eexists; reflexivity); exact Hf.
Qed.

(** The three ways out of the Booksonix handler on one disk: a sheet
    whose row is stored, a sheet with a row without a key, and a file
    that cannot be read. *)
Example upload_exit_paths :
  let good : row := <["SKU" := CStr "A1"]> ∅ in
  let keyless : row := <["Title" := CStr "No key"]> ∅ in
  let disk : gmap string Server.file :=
    {[ "uploads/1" := Server.Workbook [good];
       "uploads/2" := Server.Workbook [good; keyless];
       "uploads/3" := Server.Unreadable ]} in
  let w := Server.World disk ∅ [] in
  fst (Server.booksonix_upload (Some "uploads/1") w) =
    Server.Returned (Server.BooksonixDone (Booksonix.Summary 1 1 0 0))
  /\ fst (Server.booksonix_upload (Some "uploads/2") w) =
    Server.Returned (Server.BooksonixDone (Booksonix.Summary 2 1 0 1))
  /\ fst (Server.booksonix_upload (Some "uploads/3") w) =
    Server.Returned (Server.Failed "Unsupported file")
  /\ Server.files (snd (Server.booksonix_upload (Some "uploads/3") w))
     !! "uploads/3" = None.
Proof. vm_compute. repeat split; reflexivity. Qed.

(** ** Further properties of the pipeline *)

Lemma booksonix_row_in_one_class (data : list row) :
  Booksonix.count Booksonix.accepted data
  + Booksonix.count Booksonix.no_key data
  + Booksonix.count Booksonix.write_fails data = length data.
Proof.
  induction data as [|row data IH]; [reflexivity|].
  cbn [Booksonix.count length].
  unfold Booksonix.no_key at 1, Booksonix.write_fails at 1,
    Booksonix.has_key, Booksonix.accepted at 1 3.
  destruct (Booksonix.candidate row) as [e|] eqn:Hc.
  - rewrite (candidate_has_key row e Hc). simpl. lia.
  - destruct (truthy (Booksonix.sku_of row)); simpl; lia.
Qed.

(** Every row of a Booksonix sheet is counted once: as new, as updated
    or as an error; the rows without a key are among the errors. *)
Theorem booksonix_every_row_counted (data : list row)
    (tbl : gmap string Pg.booksonix_record) :
  let c := fst (Booksonix.ingest data tbl) in
  Booksonix.newRecords c + Booksonix.duplicates c + Booksonix.errors c
  = length data
  /\ Booksonix.skippedNoSku c <= Booksonix.errors c.
Proof.
  cbv zeta. unfold Booksonix.ingest.
  destruct (booksonix_counters data Booksonix.zero tbl) as (A & E & S).
  pose proof (booksonix_row_in_one_class data) as Hall.
  simpl in A, E, S. lia.
Qed.

Lemma gazelle_row_in_one_class (h : host) (rawData : list row) :
  length (Gazelle.inserted h rawData)
  + Gazelle.count Gazelle.no_key rawData
  + Gazelle.count (Gazelle.write_fails h) rawData = length rawData.
Proof.
  induction rawData as [|row rest IH]; [reflexivity|].
  unfold Gazelle.inserted. cbn [omap list_omap Gazelle.count length].
  fold (Gazelle.inserted h rest).
  unfold Gazelle.write_fails at 1, Gazelle.accepted, Gazelle.candidate.
  destruct (Gazelle.no_key row); simpl; [lia|].
  destruct (Gazelle.values h row); simpl; lia.
Qed.

(** Every row of a Gazelle sheet is counted once: as new, as skipped or
    as an error, and none as a duplicate. *)
Theorem gazelle_every_row_counted (h : host) (rawData : list row)
    (tbl : list Pg.gazelle_sale) :
  let s := Gazelle.summarize rawData (fst (Gazelle.ingest h rawData tbl)) in
  Gazelle.sent_newRecords s + Gazelle.sent_skippedRows s
  + Gazelle.sent_errors s = Gazelle.totalRows s
  /\ Gazelle.sent_duplicates s = 0.
Proof.
  cbv zeta. unfold Gazelle.ingest.
  destruct (gazelle_loop_result h rawData 0 Gazelle.zero tbl)
    as (N & U & E & S & _).
  pose proof (gazelle_row_in_one_class h rawData) as Hall.
  simpl in *. lia.
Qed.

(** The currency and percentage examples of the specification. *)
Theorem currency_and_percentage_examples :
  Booksonix.price_of (<["Price" := CStr "£1,234.50"]> ∅) = Dec 123450 (-2)
  /\ Pg.decimal2 10 (Booksonix.price_of (<["Price" := CStr "£1,234.50"]> ∅))
     = Pg.Ok (Pg.Numeric 123450)
  /\ Booksonix.price_of (<["Price" := CStr "GBP 12"]> ∅) = Dec 12 0
  /\ Pg.decimal2 10 (Booksonix.price_of (<["Price" := CStr "GBP 12"]> ∅))
     = Pg.Ok (Pg.Numeric 1200)
  /\ Booksonix.price_of (<["Price" := CStr ""]> ∅) = Dec 0 0
  /\ Booksonix.price_of ∅ = Dec 0 0
  /\ Gazelle.discount_of (<["Discount %" := CStr "17.5%"]> ∅) = Dec 175 (-1)
  /\ Gazelle.discount_of (<["Discount %" := CStr ""]> ∅) = Dec 0 0
  /\ Gazelle.unitPrice_of (<["Unit Price" := CStr "£1,234.50"]> ∅)
     = Dec 123450 (-2).
Proof. vm_compute. repeat split; reflexivity. Qed.

(** ** Slash dates on Node.js *)

Lemma digit_not_separator (c : ascii) :
  is_digit c = true ->
  Ascii.eqb c "/" = false /\ Ascii.eqb c "-" = false
  /\ is_ascii_space c = false
  /\ (forall c2 : ascii, is_space2 c c2 = false)
  /\ (forall c2 c3 : ascii, is_space3 c c2 c3 = false).
Proof.
  intros H. unfold is_digit in H. apply andb_prop in H as [Hlo Hhi].
  apply N.leb_le in Hlo. apply N.leb_le in Hhi.
  repeat split.
  - destruct (Ascii.eqb c "/") eqn:E; [|reflexivity].
    apply Ascii.eqb_eq in E. subst c. vm_compute in Hlo. contradiction.
  - destruct (Ascii.eqb c "-") eqn:E; [|reflexivity].
    apply Ascii.eqb_eq in E. subst c. vm_compute in Hlo. contradiction.
  - unfold is_ascii_space.
    destruct (code c <=? 13)%N eqn:E1; [apply N.leb_le in E1; lia|].
    destruct (code c =? 32)%N eqn:E2; [apply N.eqb_eq in E2; lia|].
    rewrite andb_false_r. reflexivity.
  - intros c2. unfold is_space2.
    destruct (code c =? 194)%N eqn:E; [apply N.eqb_eq in E; lia|].
    reflexivity.
  - intros c2 c3. unfold is_space3. cbv zeta.
    destruct (code c =? 225)%N eqn:E1; [apply N.eqb_eq in E1; lia|].
    destruct (code c =? 226)%N eqn:E2; [apply N.eqb_eq in E2; lia|].
    destruct (code c =? 227)%N eqn:E3; [apply N.eqb_eq in E3; lia|].
    destruct (code c =? 239)%N eqn:E4; [apply N.eqb_eq in E4; lia|].
    reflexivity.
Qed.

Lemma digit_or_slash_solid (c : ascii) :
  digit_or_slash c = true ->
  Ascii.eqb c "-" = false
  /\ is_ascii_space c = false
  /\ (forall c2 : ascii, is_space2 c c2 = false)
  /\ (forall c2 c3 : ascii, is_space3 c c2 c3 = false).
Proof.
  unfold digit_or_slash. intros H. apply orb_prop in H as [H|H].
  - destruct (digit_not_separator c H) as (_ & H1 & H2 & H3 & H4).
    repeat split; assumption.
  - apply Ascii.eqb_eq in H. subst c. repeat split; reflexivity.
Qed.

Lemma trimStart_solid (c : ascii) (t : string) :
  digit_or_slash c = true -> trimStart (String c t) = String c t.
Proof.
  intros H. destruct (digit_or_slash_solid c H) as (_ & H1 & H2 & H3).
  cbn [trimStart]. rewrite H1.
  destruct t as [|c2 t]; [reflexivity|]. rewrite H2.
  destruct t as [|c3 t]; [reflexivity|]. rewrite H3. reflexivity.
Qed.

Lemma trimEnd_solid (s : string) :
  str_forall digit_or_slash s = true -> trimEnd s = s.
Proof.
  induction s as [|c s IH]; intros Hs; [reflexivity|].
  simpl in Hs. apply andb_prop in Hs as [Hc Hs].
  cbn [trimEnd]. unfold is_blank. rewrite (trimStart_solid c s Hc).
  rewrite (IH Hs). reflexivity.
Qed.

Lemma trim_solid (s : string) :
  str_forall digit_or_slash s = true -> trim s = s.
Proof.
  intros Hs. unfold trim. destruct s as [|c s]; [reflexivity|].
  pose proof Hs as Hs'. simpl in Hs'. apply andb_prop in Hs' as [Hc _].
  rewrite (trimStart_solid c s Hc). apply trimEnd_solid, Hs.
Qed.

Lemma all_digits_solid (s : string) :
  all_digits s = true -> str_forall digit_or_slash s = true.
Proof.
  induction s as [|c s IH]; intros Hs; [reflexivity|].
  simpl in Hs. apply andb_prop in Hs as [Hc Hs].
  simpl. unfold digit_or_slash at 1. rewrite Hc, (IH Hs). reflexivity.
Qed.

Lemma split_digits (sep : ascii) (d : string) :
  is_digit sep = false -> all_digits d = true -> split sep d = [d].
Proof.
  intros Hsep. induction d as [|c d IH]; intros Hd; [reflexivity|].
  simpl in Hd. apply andb_prop in Hd as [Hc Hd].
  cbn [split]. destruct (Ascii.eqb c sep) eqn:E.
  - apply Ascii.eqb_eq in E. subst c. congruence.
  - rewrite (IH Hd). reflexivity.
Qed.

Lemma split_digits_then (sep : ascii) (d rest : string) :
  is_digit sep = false -> all_digits d = true ->
  split sep (String.append d (String sep rest)) = d :: split sep rest.
Proof.
  intros Hsep. induction d as [|c d IH]; intros Hd.
  - simpl. rewrite Ascii.eqb_refl. reflexivity.
  - simpl in Hd. apply andb_prop in Hd as [Hc Hd].
    change (String.append (String c d) (String sep rest))
      with (String c (String.append d (String sep rest))).
    cbn [split]. destruct (Ascii.eqb c sep) eqn:E.
    + apply Ascii.eqb_eq in E. subst c. congruence.
    + rewrite (IH Hd). reflexivity.
Qed.

(** A string without the separator is its own single part. *)
Lemma split_without (sep : ascii) (s : string) :
  str_forall (fun c => negb (Ascii.eqb c sep)) s = true ->
  split sep s = [s].
Proof.
  induction s as [|c s IH]; intros Hs; [reflexivity|].
  simpl in Hs. apply andb_prop in Hs as [Hc Hs].
  cbn [split]. apply negb_true_iff in Hc. rewrite Hc, (IH Hs). reflexivity.
Qed.

Lemma digit_value_le_9 (c : ascii) :
  is_digit c = true -> (0 <= digit_value c <= 9)%Z.
Proof.
  unfold is_digit, digit_value. intros H.
  apply andb_prop in H as [Hlo Hhi].
  apply N.leb_le in Hlo. apply N.leb_le in Hhi. lia.
Qed.

Lemma four_digits_value (c : string) :
  all_digits c = true -> String.length c = 4 ->
  (0 <= digits_value c <= 9999)%Z.
Proof.
  intros Hc Hlen.
  destruct c as [|c1 [|c2 [|c3 [|c4 [|c5 c]]]]]; try discriminate.
  simpl in Hc.
  repeat match goal with
         | H : _ && _ = true |- _ => apply andb_prop in H as [? H]
         end.
  unfold digits_value. cbn [digits_value_from].
  pose proof (digit_value_le_9 c1 ltac:(assumption)).
  pose proof (digit_value_le_9 c2 ltac:(assumption)).
  pose proof (digit_value_le_9 c3 ltac:(assumption)).
  pose proof (digit_value_le_9 c4 ltac:(assumption)).
  lia.
Qed.

Lemma digits_value_pos_nonempty (s : string) :
  (1 <= digits_value s)%Z -> Node.nonempty_digits s = all_digits s.
Proof.
  intros H. unfold Node.nonempty_digits.
  destruct s as [|c s]; [vm_compute in H; contradiction|].
  simpl. rewrite andb_true_r. reflexivity.
Qed.

(** The day number of a date of the years 0 to 9999 is far inside the
    range of Date. *)
Lemma MakeDay_in_range (y m d : Z) :
  (0 <= y <= 9999)%Z -> (0 <= m <= 11)%Z -> (1 <= d <= 31)%Z ->
  (Z.abs (MakeDay y m d * msPerDay) <= max_time)%Z.
Proof.
  intros Hy Hm Hd. unfold MakeDay, days_from_civil, msPerDay, max_time.
  rewrite (Z.div_small m 12) by lia.
  rewrite (Z.mod_small m 12) by lia.
  rewrite Z.add_0_r.
  destruct (m + 1 <=? 2)%Z; destruct (2 <? m + 1)%Z;
    Z.to_euclidean_division_equations; lia.
Qed.

Lemma legacy_year_in_range (y : Z) :
  (0 <= y <= 9999)%Z -> (0 <= Node.legacy_year y <= 9999)%Z.
Proof.
  intros H. unfold Node.legacy_year.
  destruct ((0 <=? y)%Z && (y <=? 49)%Z) eqn:E1.
  - apply andb_prop in E1 as [_ E]. apply Z.leb_le in E. lia.
  - destruct ((50 <=? y)%Z && (y <=? 99)%Z) eqn:E2; [|lia].
    apply andb_prop in E2 as [_ E]. apply Z.leb_le in E. lia.
Qed.

(** On Node.js every date written D/M/YYYY whose first field is at most
    12 (and whose second field is at most 31) is read with the first
    field as the month and the second as the day. *)
Theorem node_reads_slash_date_month_first (other : string -> jsdate)
    (a b c : string) :
  all_digits a = true -> all_digits b = true -> all_digits c = true ->
  String.length c = 4 ->
  (1 <= digits_value a <= 12)%Z ->
  (1 <= digits_value b <= 31)%Z ->
  parseExcelDate (Node.utc_host other)
    (VCell (CStr (String.append a
                    (String "/" (String.append b (String "/" c)))))) =
  Some (DateAt (MakeDay (Node.legacy_year (digits_value c))
                  (digits_value a - 1) (digits_value b) * msPerDay)).
Proof.
  intros Ha Hb Hc Hlen Hav Hbv.
  set (s := String.append a (String "/" (String.append b (String "/" c)))).
  assert (Hsolid : str_forall digit_or_slash s = true).
  { unfold s. rewrite str_forall_app, (all_digits_solid a Ha).
    cbn [str_forall andb]. unfold digit_or_slash at 1.
    rewrite str_forall_app, (all_digits_solid b Hb).
    cbn [str_forall andb]. apply (all_digits_solid c Hc). }
  assert (Hne : exists ch t, s = String ch t).
  { unfold s. destruct a as [|ch a'];
      [unfold digits_value in Hav; simpl in Hav; lia|].
    eexists _, _. reflexivity. }
  assert (Hsplit : split "/" s = [a; b; c]).
  { unfold s. rewrite split_digits_then by (reflexivity || exact Ha).
    rewrite split_digits_then by (reflexivity || exact Hb).
    rewrite split_digits by (reflexivity || exact Hc). reflexivity. }
  assert (Hiso : Node.iso_date s = None).
  { unfold Node.iso_date. rewrite split_without; [reflexivity|].
    apply (str_forall_impl digit_or_slash); [|exact Hsolid].
    intros ch Hch. destruct (digit_or_slash_solid ch Hch) as (-> & _).
    reflexivity. }
  pose proof (four_digits_value c Hc Hlen) as Hcv.
  pose proof (legacy_year_in_range _ Hcv) as Hy.
  assert (Hparse : Node.Date_parse other s =
            DateAt (MakeDay (Node.legacy_year (digits_value c))
                      (digits_value a - 1) (digits_value b) * msPerDay)).
  { unfold Node.Date_parse. rewrite Hiso. unfold Node.legacy_slashes.
    rewrite Hsplit.
    rewrite !digits_value_pos_nonempty by lia.
    assert (Hcne : Node.nonempty_digits c = true).
    { unfold Node.nonempty_digits. rewrite Hc, Hlen. reflexivity. }
    rewrite Ha, Hb, Hcne. cbn [andb].
    assert (Hday_a : Node.is_day (digits_value a) = true).
    { unfold Node.is_day. apply andb_true_intro.
      split; apply Z.leb_le; lia. }
    assert (Hmonth : Node.is_month (digits_value a) = true).
    { unfold Node.is_month. apply andb_true_intro.
      split; apply Z.leb_le; lia. }
    assert (Hday_b : Node.is_day (digits_value b) = true).
    { unfold Node.is_day. apply andb_true_intro.
      split; apply Z.leb_le; lia. }
    rewrite Hday_a, Hmonth, Hday_b. cbn [andb].
    unfold TimeClip.
    assert (Hin : (Z.abs (MakeDay (Node.legacy_year (digits_value c))
                            (digits_value a - 1) (digits_value b)
                          * msPerDay) <=? max_time)%Z = true).
    { apply Z.leb_le. apply MakeDay_in_range; lia. }
    rewrite Hin. reflexivity. }
  destruct Hne as (ch & t & Hs_eq).
  unfold parseExcelDate. rewrite Hs_eq. cbn [truthy negb]. rewrite <- Hs_eq.
  unfold parse_date_string. rewrite (trim_solid s Hsolid).
  change (Date_parse (Node.utc_host other) s) with (Node.Date_parse other s).
  rewrite Hparse. reflexivity.
Qed.

(** The date 01/02/2025: month 01, day 02. *)
Lemma node_reads_slash_date_month_first_witness :
  parseExcelDate node_js (VCell (CStr "01/02/2025")) =
  Some (DateAt (MakeDay 2025 0 2 * msPerDay)).
Proof.
  assert (Ha : all_digits "01" = true) by reflexivity.
  assert (Hb : all_digits "02" = true) by reflexivity.
  assert (Hc : all_digits "2025" = true) by reflexivity.
  assert (Hlen : String.length "2025" = 4) by reflexivity.
  assert (Hav : (1 <= digits_value "01" <= 12)%Z)
    by (vm_compute; split; discriminate).
  assert (Hbv : (1 <= digits_value "02" <= 31)%Z)
    by (vm_compute; split; discriminate).
  exact (node_reads_slash_date_month_first (fun _ => InvalidDate)
           "01" "02" "2025"
           Ha Hb Hc Hlen Hav Hbv).
Defined.

(** ** What the uploads leave in the tables *)

Lemma remove_hyphens_none (s : string) :
  str_forall Stored.not_hyphen (remove_char "-" s) = true.
Proof.
  unfold remove_char.
  apply (str_forall_impl (fun c => negb (Ascii.eqb "-" c)));
    [|apply remove_if_forall].
  intros c Hc. unfold Stored.not_hyphen. rewrite Ascii.eqb_sym. exact Hc.
Qed.

Lemma split_chars_forall (p : ascii -> bool) (s : string) :
  forall n : nat,
    str_forall p s = true -> str_forall p (fst (Pg.split_chars n s)) = true.
Proof.
  induction s as [|c s IH]; intros n Hs; [reflexivity|].
  simpl in Hs. apply andb_prop in Hs as [Hc Hs]. cbn [Pg.split_chars].
  destruct ((128 <=? JsString.code c)%N && (JsString.code c <=? 191)%N).
  - specialize (IH n Hs). destruct (Pg.split_chars n s) as [q r].
    simpl in *. rewrite Hc, IH. reflexivity.
  - destruct n as [|n]; [reflexivity|].
    specialize (IH n Hs). destruct (Pg.split_chars n s) as [q r].
    simpl in *. rewrite Hc, IH. reflexivity.
Qed.

Lemma split_chars_length (s : string) :
  forall n : nat, (char_length (fst (Pg.split_chars n s)) <= n)%nat.
Proof.
  induction s as [|c s IH]; intros n; [simpl; lia|].
  cbn [Pg.split_chars].
  destruct ((128 <=? JsString.code c)%N && (JsString.code c <=? 191)%N)
    eqn:Hcont.
  - specialize (IH n). destruct (Pg.split_chars n s) as [q r].
    simpl in *. rewrite Hcont. exact IH.
  - destruct n as [|n]; [simpl; lia|].
    specialize (IH n). destruct (Pg.split_chars n s) as [q r].
    simpl in *. rewrite Hcont. lia.
Qed.

(** What a [VARCHAR(n)] column accepts it stores within [n] characters,
    made of bytes of the value. *)
Lemma varchar_stored (p : ascii -> bool) (n : nat) (s v : string) :
  Pg.varchar n s = Pg.Ok v ->
  (char_length v <= n)%nat
  /\ (str_forall p s = true -> str_forall p v = true).
Proof.
  unfold Pg.varchar.
  pose proof (split_chars_length s n) as Hlen.
  pose proof (split_chars_forall p s n) as Hall.
  destruct (Pg.split_chars n s) as [q r]. simpl in *.
  destruct (Pg.all_spaces r); [|discriminate].
  intros H. injection H as <-. split; assumption.
Qed.

(** A cell with its hyphens removed and its ends trimmed, when it is
    not empty and its column accepts it, is stored as an identifier. *)
Lemma normalized_identifier (n : nat) (v : cell) (stored : string) :
  trim (remove_char "-" (to_string v)) <> EmptyString ->
  Pg.varchar (S n) (trim (remove_char "-" (to_string v))) = Pg.Ok stored ->
  Stored.identifier (S n) stored.
Proof.
  intros Hne Hv.
  destruct (varchar_stored Stored.not_hyphen _ _ _ Hv) as [Hlen Hall].
  split; [|split].
  - apply (varchar_nonempty _ _ _ Hv Hne).
  - apply Hall. apply trim_forall, remove_hyphens_none.
  - exact Hlen.
Qed.

Lemma sku_of_truthy (row : row) :
  truthy (Booksonix.sku_of row) = true ->
  exists v : cell,
    Booksonix.sku_of row = CStr (trim (remove_char "-" (to_string v)))
    /\ trim (remove_char "-" (to_string v)) <> EmptyString.
Proof.
  unfold Booksonix.sku_of. cbv zeta.
  destruct (truthy (defined _)) eqn:Hv.
  - intros Ht. eexists. split; [reflexivity|].
    intros Heq. rewrite Heq in Ht. discriminate.
  - intros Ht. rewrite Ht in Hv. discriminate.
Qed.

Lemma isbn_of_shape (row : row) :
  truthy (Booksonix.isbn_of row) = true ->
  exists v : cell,
    Booksonix.isbn_of row = CStr (trim (remove_char "-" (to_string v)))
    /\ trim (remove_char "-" (to_string v)) <> EmptyString.
Proof.
  unfold Booksonix.isbn_of. cbv zeta.
  destruct (truthy (defined _)) eqn:Hv.
  - intros Ht. eexists. split; [reflexivity|].
    intros Heq. rewrite Heq in Ht. discriminate.
  - intros Ht. rewrite Ht in Hv. discriminate.
Qed.

(** The row a sheet row proposes is well formed under its own SKU. *)
Lemma candidate_row_ok (row : row) (e : Pg.booksonix_record) :
  Booksonix.candidate row = Some e -> Stored.booksonix_row_ok (Pg.sku e) e.
Proof.
  intros Hc.
  destruct (candidate_fields row e Hc) as (Hkey & Hsku & Hisbn & _).
  destruct (sku_of_truthy row Hkey) as (v & Hv & Hne).
  rewrite Hv in Hsku. simpl in Hsku.
  split; [reflexivity|]. split.
  - apply (normalized_identifier 99 v _ Hne Hsku).
  - unfold Booksonix.or_null in Hisbn.
    destruct (truthy (Booksonix.isbn_of row)) eqn:Ht.
    + destruct (isbn_of_shape row Ht) as (w & Hw & Hwne).
      rewrite Hw in Hisbn. simpl in Hisbn.
      unfold Pg.nullable, mbind, Pg.result_bind in Hisbn.
      destruct (Pg.varchar 50 _) as [i|] eqn:Hi; [|discriminate].
      injection Hisbn as <-.
      apply (normalized_identifier 49 w _ Hwne Hi).
    + simpl in Hisbn. injection Hisbn as <-. exact I.
Qed.

Lemma do_update_row_ok (k : string) (old e : Pg.booksonix_record) :
  Stored.booksonix_row_ok k old -> Stored.booksonix_row_ok k e ->
  Stored.booksonix_row_ok k (Pg.do_update old e).
Proof.
  intros (Hk & Hid & Hi) (_ & _ & He).
  split; [exact Hk|]. split; [exact Hid|].
  simpl. destruct (Pg.isbn e) as [[|c i]|]; simpl; try exact Hi.
  exact He.
Qed.

Lemma merge_opt_row_ok (k : string) (x y : option Pg.booksonix_record) :
  (forall r, x = Some r -> Stored.booksonix_row_ok k r) ->
  (forall r, y = Some r -> Stored.booksonix_row_ok k r) ->
  forall r, Pg.merge_opt x y = Some r -> Stored.booksonix_row_ok k r.
Proof.
  intros Hx Hy r. destruct x as [a|], y as [b|]; simpl; intros H;
    try (injection H as <-); try discriminate.
  - apply do_update_row_ok; [apply Hx|apply Hy]; reflexivity.
  - apply Hx. reflexivity.
  - apply Hy. reflexivity.
Qed.

Lemma proposed_row_ok (k : string) (data : list row) :
  forall r, Booksonix.proposed k data = Some r ->
            Stored.booksonix_row_ok k r.
Proof.
  induction data as [|row data IH]; [discriminate|].
  cbn [Booksonix.proposed foldr]. apply merge_opt_row_ok; [|exact IH].
  intros r. unfold Booksonix.contribution.
  destruct (Booksonix.candidate row) as [e|] eqn:Hc; [|discriminate].
  destruct (decide (Pg.sku e = k)) as [<-|]; [|discriminate].
  intros H. injection H as <-. apply (candidate_row_ok row e Hc).
Qed.

(** An upload keeps the Booksonix table well formed: every row sits
    under its own SKU, which is not empty, has no hyphen and fits its
    column, and every ISBN is NULL or such an identifier. *)
Theorem booksonix_upload_keeps_table_ok (data : list row)
    (tbl : gmap string Pg.booksonix_record) :
  Stored.booksonix_table_ok tbl ->
  Stored.booksonix_table_ok (snd (Booksonix.ingest data tbl)).
Proof.
  intros Htbl k r. unfold Booksonix.ingest.
  rewrite booksonix_loop_lookup.
  apply merge_opt_row_ok; [apply Htbl|apply proposed_row_ok].
Qed.

Lemma booksonix_upload_keeps_table_ok_witness :
  let data : list row :=
    [ <["SKU" := CStr " 978-1-84-X "]> (<["ISBN" := CStr "978-0-00-1"]> ∅) ] in
  Stored.booksonix_table_ok ∅
  /\ Stored.booksonix_table_ok (snd (Booksonix.ingest data ∅))
  /\ Pg.sku <$> snd (Booksonix.ingest data ∅) !! "978184X" = Some "978184X"%string.
Proof.
  cbv zeta.
  assert (H0 : Stored.booksonix_table_ok ∅).
  { intros k r H. rewrite lookup_empty in H. discriminate. }
  split; [exact H0|]. split.
  - exact (booksonix_upload_keeps_table_ok _ ∅ H0).
  - vm_compute. reflexivity.
Defined.

(** The table grows by exactly the rows counted as new. *)
Lemma booksonix_loop_size (data : list row) :
  forall (c : Booksonix.counters) (tbl : gmap string Pg.booksonix_record),
    size (snd (foldl Booksonix.step (c, tbl) data)) + Booksonix.newRecords c
    = size tbl
      + Booksonix.newRecords (fst (foldl Booksonix.step (c, tbl) data)).
Proof.
  induction data as [|row data IH]; intros c tbl; [reflexivity|].
  cbn [foldl].
  destruct (Booksonix.step (c, tbl) row) as [c1 tbl1] eqn:Hstep.
  specialize (IH c1 tbl1).
  rewrite booksonix_step_cases in Hstep.
  destruct (negb (truthy (Booksonix.sku_of row))).
  { injection Hstep as <- <-. simpl in *. lia. }
  destruct (Booksonix.candidate row) as [e|].
  2:{ injection Hstep as <- <-. simpl in *. lia. }
  destruct (tbl !! Pg.sku e) as [old|] eqn:Hold;
    injection Hstep as <- <-; simpl in *.
  - rewrite map_size_insert_Some in IH by eauto. lia.
  - rewrite map_size_insert_None in IH by exact Hold. lia.
Qed.

(** After a Booksonix upload the number of stored rows is the number
    before plus [newRecords]; no upload removes a row. *)
Theorem booksonix_upload_grows_by_new (data : list row)
    (tbl : gmap string Pg.booksonix_record) :
  size (snd (Booksonix.ingest data tbl)) =
  size tbl + Booksonix.newRecords (fst (Booksonix.ingest data tbl)).
Proof.
  unfold Booksonix.ingest.
  pose proof (booksonix_loop_size data Booksonix.zero tbl) as H.
  simpl in H. lia.
Qed.

Lemma proposed_none (k : string) (data : list row) :
  (forall (row : row) (e : Pg.booksonix_record),
      row ∈ data -> Booksonix.candidate row = Some e -> Pg.sku e <> k) ->
  Booksonix.proposed k data = None.
Proof.
  induction data as [|r data IH]; intros H; [reflexivity|].
  cbn [Booksonix.proposed foldr]. fold (Booksonix.proposed k data).
  rewrite IH.
  - rewrite merge_opt_None_r. unfold Booksonix.contribution.
    destruct (Booksonix.candidate r) as [e|] eqn:Hc; [|reflexivity].
    rewrite decide_False; [reflexivity|].
    apply (H r e); [apply elem_of_cons; left; reflexivity|exact Hc].
  - intros row e Hin. apply H. apply elem_of_cons. right. exact Hin.
Qed.

(** An upload leaves alone the row of every SKU that no accepted row of
    the sheet bears. *)
Theorem booksonix_upload_leaves_other_keys (data : list row)
    (tbl : gmap string Pg.booksonix_record) (k : string) :
  (forall (row : row) (e : Pg.booksonix_record),
      row ∈ data -> Booksonix.candidate row = Some e -> Pg.sku e <> k) ->
  snd (Booksonix.ingest data tbl) !! k = tbl !! k.
Proof.
  intros H. unfold Booksonix.ingest.
  rewrite booksonix_loop_lookup, (proposed_none k data H).
  apply merge_opt_None_r.
Qed.

Lemma booksonix_upload_leaves_other_keys_witness :
  let old := Pg.BooksonixRecord "B2" None "Kept" "" "" (Pg.Numeric 100) 0 in
  let data : list row := [ <["SKU" := CStr "A1"]> ∅ ] in
  snd (Booksonix.ingest data {["B2" := old]}) !! "B2"
  = ({["B2" := old]} : gmap string Pg.booksonix_record) !! "B2".
Proof.
  cbv zeta. apply booksonix_upload_leaves_other_keys.
  intros row e Hin Hc. apply list_elem_of_singleton in Hin. subst row.
  vm_compute in Hc. injection Hc as <-. discriminate.
Defined.

Lemma proposed_app (k : string) (l1 l2 : list row) :
  Booksonix.proposed k (l1 ++ l2) =
  Pg.merge_opt (Booksonix.proposed k l1) (Booksonix.proposed k l2).
Proof.
  induction l1 as [|r l1 IH]; [reflexivity|].
  cbn [app Booksonix.proposed foldr].
  fold (Booksonix.proposed k (l1 ++ l2)). fold (Booksonix.proposed k l1).
  rewrite IH, merge_opt_assoc. reflexivity.
Qed.

(** The fields a later row for the same key passes on to the stored
    row. *)
Lemma merge_opt_takes (e x r : Pg.booksonix_record)
    (o : option Pg.booksonix_record) :
  Pg.title x = Pg.title e -> Pg.publisher x = Pg.publisher e ->
  Pg.price x = Pg.price e ->
  (forall s, Pg.isbn e = Some s -> s <> EmptyString -> Pg.isbn x = Some s) ->
  Pg.merge_opt o (Some x) = Some r ->
  Pg.title r = Pg.title e /\ Pg.publisher r = Pg.publisher e
  /\ Pg.price r = Pg.price e
  /\ (forall s, Pg.isbn e = Some s -> s <> EmptyString ->
        Pg.isbn r = Some s).
Proof.
  intros Ht Hp Hpr Hi. destruct o as [old|]; simpl; intros H;
    injection H as <-; simpl.
  - repeat split; try assumption.
    intros s Hs Hne. rewrite (Hi s Hs Hne).
    destruct s; [congruence|reflexivity].
  - repeat split; assumption.
Qed.

(** Within a sheet the last accepted row of a SKU decides the stored
    title, publisher and price, and the stored ISBN when it has one. *)
Theorem booksonix_last_row_wins (pre post : list row) (row : row)
    (e : Pg.booksonix_record) (tbl : gmap string Pg.booksonix_record) :
  Booksonix.candidate row = Some e ->
  (forall (row' : JsValue.row) (e' : Pg.booksonix_record),
      row' ∈ post -> Booksonix.candidate row' = Some e' ->
      Pg.sku e' <> Pg.sku e) ->
  exists r : Pg.booksonix_record,
    snd (Booksonix.ingest (pre ++ row :: post) tbl) !! Pg.sku e = Some r
    /\ Pg.title r = Pg.title e /\ Pg.publisher r = Pg.publisher e
    /\ Pg.price r = Pg.price e
    /\ (forall s, Pg.isbn e = Some s -> Pg.isbn r = Some s).
Proof.
  intros Hc Hpost. unfold Booksonix.ingest.
  rewrite booksonix_loop_lookup, proposed_app.
  cbn [Booksonix.proposed foldr]. fold (Booksonix.proposed (Pg.sku e) post).
  rewrite (proposed_none _ post Hpost), merge_opt_None_r.
  unfold Booksonix.contribution. rewrite Hc, decide_True by reflexivity.
  assert (Hne : forall s, Pg.isbn e = Some s -> s <> EmptyString).
  { intros s Hs. pose proof (candidate_isbn row e Hc) as Hi.
    destruct (truthy (Booksonix.isbn_of row)).
    - destruct Hi as (s' & Hs' & Hne). congruence.
    - congruence. }
  destruct (Pg.merge_opt (Booksonix.proposed (Pg.sku e) pre) (Some e))
    as [x|] eqn:Hx.
  2:{ destruct (Booksonix.proposed (Pg.sku e) pre); discriminate. }
  destruct (merge_opt_takes e e x _ eq_refl eq_refl eq_refl
              (fun s Hs _ => Hs) Hx) as (X1 & X2 & X3 & X4).
  destruct (Pg.merge_opt (tbl !! Pg.sku e) (Some x)) as [r|] eqn:Hr.
  2:{ destruct (tbl !! Pg.sku e); discriminate. }
  destruct (merge_opt_takes e x r _ X1 X2 X3 X4 Hr) as (R1 & R2 & R3 & R4).
  exists r. repeat split; try assumption.
  intros s Hs. apply (R4 s Hs (Hne s Hs)).
Qed.

Lemma booksonix_last_row_wins_witness :
  let first : row :=
    <["SKU" := CStr "A1"]> (<["Title" := CStr "First"]> ∅) in
  let last : row :=
    <["SKU" := CStr "A-1"]> (<["Title" := CStr "Last"]> ∅) in
  exists r : Pg.booksonix_record,
    snd (Booksonix.ingest ([first] ++ last :: []) ∅) !! "A1" = Some r
    /\ Pg.title r = "Last"%string.
Proof.
  cbv zeta.
  assert (Hc : Booksonix.candidate
                 (<["SKU" := CStr "A-1"]> (<["Title" := CStr "Last"]> ∅)) =
               Some (Pg.BooksonixRecord "A1" None "Last" "" ""
                       (Pg.Numeric 0) 0)) by (vm_compute; reflexivity).
  destruct (booksonix_last_row_wins
              [<["SKU" := CStr "A1"]> (<["Title" := CStr "First"]> ∅)] []
              _ _ ∅ Hc) as (r & Hr & Ht & _).
  { intros row' e' Hin. inversion Hin. }
  exists r. split; [exact Hr|exact Ht].
Defined.

(** What an accepted Gazelle row stores, column by column. *)
Lemma gazelle_candidate_fields (h : host) (row : row) (r : Pg.gazelle_sale) :
  Gazelle.candidate h row = Some r ->
  Gazelle.orderRef_of row <> EmptyString
  /\ Gazelle.customerName_of row <> EmptyString
  /\ Pg.varchar 100 (Gazelle.orderRef_of row) = Pg.Ok (Pg.order_ref r)
  /\ Pg.varchar 500 (Gazelle.customerName_of row)
     = Pg.Ok (Pg.customer_name r)
  /\ Pg.varchar 50 (Gazelle.isbn13_of row) = Pg.Ok (Pg.isbn13 r)
  /\ Pg.integer (Gazelle.quantity_of row) = Pg.Ok (Pg.sale_quantity r)
  /\ Pg.decimal2 10 (Gazelle.unitPrice_of row) = Pg.Ok (Pg.unit_price r)
  /\ Pg.decimal2 5 (Gazelle.discount_of row) = Pg.Ok (Pg.discount r)
  /\ Pg.order_date r = Gazelle.parsedDate_of h row.
Proof.
  unfold Gazelle.candidate, Gazelle.no_key.
  destruct (String.eqb (Gazelle.orderRef_of row) "") eqn:E1;
    [discriminate|].
  destruct (String.eqb (Gazelle.customerName_of row) "") eqn:E2;
    [discriminate|].
  apply String.eqb_neq in E1, E2. simpl orb. cbv iota.
  unfold Gazelle.values, Pg.gazelle_values, mbind, Pg.result_bind.
  destruct (Pg.text_parameters _) as [[]|]; [|discriminate].
  destruct (Pg.varchar 100 (Gazelle.orderRef_of row)); [|discriminate].
  destruct (Pg.varchar 500 (Gazelle.customerName_of row)); [|discriminate].
  destruct (Pg.varchar 200 (Gazelle.city_of row)); [|discriminate].
  destruct (Pg.varchar 100 (Gazelle.country_of row)); [|discriminate].
  destruct (Pg.varchar 500 (Gazelle.title_of row)); [|discriminate].
  destruct (Pg.varchar 50 (Gazelle.isbn13_of row)); [|discriminate].
  destruct (Pg.integer (Gazelle.quantity_of row)); [|discriminate].
  destruct (Pg.decimal2 10 (Gazelle.unitPrice_of row)); [|discriminate].
  destruct (Pg.decimal2 5 (Gazelle.discount_of row)); [|discriminate].
  destruct (Pg.varchar 500 (Gazelle.publisher_of row)); [|discriminate].
  destruct (Pg.varchar 100 (Gazelle.format_of row)); [|discriminate].
  intros H. injection H as <-. simpl. repeat split; assumption || reflexivity.
Qed.

Lemma gazelle_candidate_row_ok (h : host) (row : row) (r : Pg.gazelle_sale) :
  Gazelle.candidate h row = Some r -> Stored.gazelle_row_ok r.
Proof.
  intros Hc.
  destruct (gazelle_candidate_fields h row r Hc)
    as (Hne1 & Hne2 & H1 & H2 & H3 & _).
  destruct (varchar_stored Stored.not_hyphen _ _ _ H1) as [L1 _].
  destruct (varchar_stored Stored.not_hyphen _ _ _ H2) as [L2 _].
  destruct (varchar_stored Stored.not_hyphen _ _ _ H3) as [_ A3].
  repeat split.
  - apply (varchar_nonempty _ _ _ H1 Hne1).
  - exact L1.
  - apply (varchar_nonempty _ _ _ H2 Hne2).
  - exact L2.
  - apply A3. unfold Gazelle.isbn13_of.
    apply trim_forall, remove_hyphens_none.
Qed.

(** A Gazelle upload changes no stored row, and every row it adds has an
    order reference and a customer name that are not empty and fit their
    columns, and an ISBN without hyphens: a table of such rows stays
    one. *)
Theorem gazelle_upload_keeps_rows_ok (h : host) (rawData : list row)
    (tbl : list Pg.gazelle_sale) :
  (exists added : list Pg.gazelle_sale,
      snd (Gazelle.ingest h rawData tbl) = tbl ++ added
      /\ Forall Stored.gazelle_row_ok added)
  /\ (Forall Stored.gazelle_row_ok tbl ->
      Forall Stored.gazelle_row_ok (snd (Gazelle.ingest h rawData tbl))).
Proof.
  unfold Gazelle.ingest.
  destruct (gazelle_loop_result h rawData 0 Gazelle.zero tbl)
    as (_ & _ & _ & _ & Hsnd).
  rewrite Hsnd.
  assert (Hadded : Forall Stored.gazelle_row_ok (Gazelle.inserted h rawData)).
  { apply Forall_forall. intros r Hr.
    apply list_elem_of_omap in Hr as (row & _ & Hc).
    apply (gazelle_candidate_row_ok h row r Hc). }
  split; [eexists; split; [reflexivity|exact Hadded]|].
  intros Htbl.
  apply Forall_app_2; [exact Htbl|].
  apply Forall_forall. intros r Hr.
  apply list_elem_of_omap in Hr as (row & _ & Hc).
  apply (gazelle_candidate_row_ok h row r Hc).
Qed.

Lemma gazelle_upload_keeps_rows_ok_witness :
  let row : row :=
    <["Order Ref" := CStr "A1"]> (<["Customer Name" := CStr "Shop"]>
      (<["ISBN" := CStr "978-1-84"]> ∅)) in
  Forall Stored.gazelle_row_ok []
  /\ Forall Stored.gazelle_row_ok
       (snd (Gazelle.ingest node_js [row] []))
  /\ Pg.isbn13 <$> snd (Gazelle.ingest node_js [row] [])
     = ["978184"%string].
Proof.
  cbv zeta.
  assert (H0 : Forall Stored.gazelle_row_ok []) by constructor.
  split; [exact H0|]. split.
  - exact (proj2 (gazelle_upload_keeps_rows_ok node_js _ []) H0).
  - vm_compute. reflexivity.
Defined.

(** ** Deleting a user *)

Lemma other_admins_zero (id : Z) (tbl : gmap Z Users.user) :
  Users.other_admins id tbl = 0 ->
  forall (k : Z) (u : Users.user),
    tbl !! k = Some u -> Users.is_admin u = true -> k = id.
Proof.
  unfold Users.other_admins. intros Hlen k u Hk Hu.
  destruct (decide (k = id)) as [|Hne]; [assumption|].
  apply length_zero_iff_nil in Hlen.
  assert (Hin : (k, u) ∈ filter
            (fun p => Users.is_admin (snd p) = true /\ fst p <> id)
            (map_to_list tbl)).
  { apply list_elem_of_filter. split; [split; assumption|].
    apply elem_of_map_to_list. exact Hk. }
  rewrite Hlen in Hin. inversion Hin.
Qed.

Lemma other_admins_pos (id : Z) (tbl : gmap Z Users.user) :
  Users.other_admins id tbl <> 0 ->
  exists (k : Z) (u : Users.user),
    tbl !! k = Some u /\ Users.is_admin u = true /\ k <> id.
Proof.
  unfold Users.other_admins. intros Hlen.
  destruct (filter _ (map_to_list tbl)) as [|[k u] l] eqn:Hf;
    [contradiction|].
  assert (Hin : (k, u) ∈ filter
            (fun p => Users.is_admin (snd p) = true /\ fst p <> id)
            (map_to_list tbl)).
  { rewrite Hf. apply elem_of_cons. left. reflexivity. }
  apply list_elem_of_filter in Hin as [[Hu Hne] Hin].
  apply elem_of_map_to_list in Hin.
  exists k, u. repeat split; assumption.
Qed.

Lemma delete_user_uninterrupted (int4in : string -> option Z)
    (id_text : string) (tbl : gmap Z Users.user) :
  Users.uninterrupted (Users.arrives int4in id_text) tbl
  = (Users.Answered (fst (Users.delete_user int4in id_text tbl)),
     snd (Users.delete_user int4in id_text tbl)).
Proof.
  unfold Users.uninterrupted, Users.arrives, Users.delete_user.
  destruct (int4in id_text) as [id|]; [|reflexivity].
  cbn [Users.statement].
  destruct (tbl !! id) as [u|]; [|reflexivity].
  destruct (Users.is_admin u); cbn [Users.statement andb];
    [|reflexivity].
  destruct (Users.other_admins id tbl =? 0)%nat; reflexivity.
Qed.

Lemma delete_user_sequential (int4in : string -> option Z)
    (id_text : string) (tbl : gmap Z Users.user) :
  (exists (k : Z) (u : Users.user),
      tbl !! k = Some u /\ Users.is_admin u = true) ->
  (exists (k : Z) (u : Users.user),
      snd (Users.delete_user int4in id_text tbl) !! k = Some u
      /\ Users.is_admin u = true)
  /\ (forall k : Z, int4in id_text <> Some k ->
        snd (Users.delete_user int4in id_text tbl) !! k = tbl !! k)
  /\ (fst (Users.delete_user int4in id_text tbl) = Users.UserNotFound <->
      exists id : Z, int4in id_text = Some id /\ tbl !! id = None).
Proof.
  intros (k & u & Hk & Hu). unfold Users.delete_user.
  destruct (int4in id_text) as [id|] eqn:Hid.
  2:{ split; [exists k, u; split; assumption|]. split; [reflexivity|].
      split; [discriminate|]. intros (id & H & _). discriminate. }
  destruct (tbl !! id) as [target|] eqn:Htarget.
  2:{ split; [exists k, u; split; assumption|]. split; [reflexivity|].
      split; [intros _; exists id; split; [reflexivity|exact Htarget]|].
      reflexivity. }
  assert (Hnot404 : forall (a : Users.answer),
            a <> Users.UserNotFound ->
            (a = Users.UserNotFound <->
             exists id0 : Z, Some id = Some id0 /\ tbl !! id0 = None)).
  { intros a Ha. split; [contradiction|].
    intros (id0 & H & Hnone). injection H as <-. congruence. }
  destruct (Users.is_admin target) eqn:Hadmin; simpl.
  - destruct (Users.other_admins id tbl =? 0)%nat eqn:Hothers; simpl.
    + split; [exists k, u; split; assumption|]. split; [reflexivity|].
      apply Hnot404. discriminate.
    + apply Nat.eqb_neq in Hothers.
      destruct (other_admins_pos id tbl Hothers) as (k' & u' & Hk' & Hu' & Hne).
      split.
      { exists k', u'. split; [|exact Hu'].
        rewrite lookup_delete_ne by congruence. exact Hk'. }
      split.
      { intros j Hj. apply lookup_delete_ne. congruence. }
      apply Hnot404. discriminate.
  - split.
    { exists k, u. split; [|exact Hu].
      rewrite lookup_delete_ne; [exact Hk|]. intros ->. congruence. }
    split.
    { intros j Hj. apply lookup_delete_ne. congruence. }
    apply Hnot404. discriminate.
Qed.


(** When no other request changes the users between the three
    statements of the handler, deleting a user does not remove the last
    administrator: whatever the text of [:id] and however the database
    reads it, the three statements sent one after the other give the
    answer and the table of [delete_user], and a table that has a user of
    role admin still has one afterwards. The handler removes at most the
    row of that id, and answers 404, with the table unchanged, when there
    is no such row. *)
Theorem delete_user_keeps_an_admin (int4in : string -> option Z)
    (id_text : string) (tbl : gmap Z Users.user) :
  (exists (k : Z) (u : Users.user),
      tbl !! k = Some u /\ Users.is_admin u = true) ->
  Users.uninterrupted (Users.arrives int4in id_text) tbl
  = (Users.Answered (fst (Users.delete_user int4in id_text tbl)),
     snd (Users.delete_user int4in id_text tbl))
  /\ (exists (k : Z) (u : Users.user),
        snd (Users.delete_user int4in id_text tbl) !! k = Some u
        /\ Users.is_admin u = true)
  /\ (forall k : Z, int4in id_text <> Some k ->
        snd (Users.delete_user int4in id_text tbl) !! k = tbl !! k)
  /\ (fst (Users.delete_user int4in id_text tbl) = Users.UserNotFound <->
      exists id : Z, int4in id_text = Some id /\ tbl !! id = None).
Proof.
  intros H. split; [apply delete_user_uninterrupted|].
  exact (delete_user_sequential int4in id_text tbl H).
Qed.

Lemma delete_user_keeps_an_admin_witness :
  let read (s : string) : option Z := Some (digits_value s) in
  let tbl : gmap Z Users.user :=
    {[ 1%Z := Users.User "admin" "admin@antennebooks.com" "x" (Some "admin");
       2%Z := Users.User "ed" "ed@antennebooks.com" "y" (Some "editor") ]} in
  (exists (k : Z) (u : Users.user),
      tbl !! k = Some u /\ Users.is_admin u = true)
  /\ fst (Users.delete_user read "1" tbl) = Users.LastAdmin
  /\ exists (k : Z) (u : Users.user),
      snd (Users.delete_user read "1" tbl) !! k = Some u
      /\ Users.is_admin u = true.
Proof.
  cbv zeta.
  assert (H : exists (k : Z) (u : Users.user),
             ({[ 1%Z := Users.User "admin" "admin@antennebooks.com" "x"
                          (Some "admin");
                 2%Z := Users.User "ed" "ed@antennebooks.com" "y"
                          (Some "editor") ]} : gmap Z Users.user) !! k
             = Some u /\ Users.is_admin u = true).
  { exists 1%Z, (Users.User "admin" "admin@antennebooks.com" "x"
                   (Some "admin")).
    split; reflexivity. }
  split; [exact H|]. split; [vm_compute; reflexivity|].
  exact (proj1 (proj2 (delete_user_keeps_an_admin
                         (fun s => Some (digits_value s)) "1" _ H))).
Defined.

Lemma other_admins_nonzero (id k : Z) (u : Users.user)
    (tbl : gmap Z Users.user) :
  tbl !! k = Some u -> Users.is_admin u = true -> k <> id ->
  (Users.other_admins id tbl =? 0)%nat = false.
Proof.
  intros Hk Hu Hne. apply Nat.eqb_neq. intros H0. apply Hne.
  exact (other_admins_zero id tbl H0 k u Hk Hu).
Qed.

(** The check of the handler does not hold against a second request: the
    three statements are sent outside any transaction, so when two
    requests to delete two different administrators send their
    statements in turn, each sees the other administrator when it
    counts, both are answered with a success and both rows are removed;
    if the two were the only administrators, no administrator is
    left. *)
Theorem concurrent_deletes_remove_both_admins
    (int4in : string -> option Z) (text_a text_b : string) (a b : Z)
    (ua ub : Users.user) (tbl : gmap Z Users.user) :
  int4in text_a = Some a -> int4in text_b = Some b -> a <> b ->
  tbl !! a = Some ua -> Users.is_admin ua = true ->
  tbl !! b = Some ub -> Users.is_admin ub = true ->
  Users.interleaved [true; false; true; false; true; false]
    (Users.arrives int4in text_a) (Users.arrives int4in text_b) tbl
  = (Users.Answered Users.Deleted, Users.Answered Users.Deleted,
     delete b (delete a tbl))
  /\ ((forall (k : Z) (v : Users.user),
         tbl !! k = Some v -> Users.is_admin v = true -> k = a \/ k = b) ->
      forall (k : Z) (v : Users.user),
        delete b (delete a tbl) !! k = Some v -> Users.is_admin v = false).
Proof.
  intros Ha Hb Hab Hua Haa Hub Hab'. split.
  - unfold Users.interleaved, Users.arrives. rewrite Ha, Hb.
    cbn [foldl Users.statement]. rewrite Hua, Haa.
    cbn [foldl Users.statement]. rewrite Hub, Hab'.
    cbn [foldl Users.statement].
    rewrite (other_admins_nonzero a b ub tbl Hub Hab') by congruence.
    cbn [foldl Users.statement].
    rewrite (other_admins_nonzero b a ua tbl Hua Haa) by congruence.
    reflexivity.
  - intros Honly k v Hk.
    destruct (Users.is_admin v) eqn:Hv; [exfalso|reflexivity].
    destruct (decide (k = b)) as [->|Hkb].
    { rewrite lookup_delete_eq in Hk. discriminate. }
    rewrite lookup_delete_ne in Hk by congruence.
    destruct (decide (k = a)) as [->|Hka].
    { rewrite lookup_delete_eq in Hk. discriminate. }
    rewrite lookup_delete_ne in Hk by congruence.
    destruct (Honly k v Hk Hv); contradiction.
Qed.

Lemma concurrent_deletes_remove_both_admins_witness :
  let read (s : string) : option Z := Some (digits_value s) in
  let tbl : gmap Z Users.user :=
    {[ 1%Z := Users.User "admin" "admin@antennebooks.com" "x" (Some "admin");
       2%Z := Users.User "root" "root@antennebooks.com" "y" (Some "admin") ]}
  in
  fst (Users.delete_user read "1" tbl) = Users.Deleted
  /\ fst (Users.delete_user read "2"
            (snd (Users.delete_user read "1" tbl))) = Users.LastAdmin
  /\ Users.interleaved [true; false; true; false; true; false]
       (Users.arrives read "1") (Users.arrives read "2") tbl
     = (Users.Answered Users.Deleted, Users.Answered Users.Deleted,
        delete 2%Z (delete 1%Z tbl)).
Proof.
  cbv zeta. split; [vm_compute; reflexivity|].
  split; [vm_compute; reflexivity|].
  exact (proj1 (concurrent_deletes_remove_both_admins
    (fun s => Some (digits_value s)) "1" "2" 1%Z 2%Z
    (Users.User "admin" "admin@antennebooks.com" "x" (Some "admin"))
    (Users.User "root" "root@antennebooks.com" "y" (Some "admin"))
    {[ 1%Z := Users.User "admin" "admin@antennebooks.com" "x" (Some "admin");
       2%Z := Users.User "root" "root@antennebooks.com" "y" (Some "admin") ]}
    eq_refl eq_refl ltac:(discriminate) eq_refl eq_refl eq_refl eq_refl)).
Defined.

(** ** The report statement *)

Lemma placeholders_app (a b : list Report.piece) :
  Report.placeholders (a ++ b)
  = Report.placeholders a ++ Report.placeholders b.
Proof. unfold Report.placeholders. apply omap_app. Qed.

Lemma placeholders_join (s : string) (q : list Report.piece) :
  Report.placeholders (Report.join (Report.Sql s) q) = Report.placeholders q.
Proof.
  induction q as [|x q IH]; [reflexivity|].
  destruct q as [|y q']; [reflexivity|].
  change (Report.join (Report.Sql s) (x :: y :: q'))
    with (x :: Report.Sql s :: Report.join (Report.Sql s) (y :: q')).
  change (x :: Report.Sql s :: Report.join (Report.Sql s) (y :: q'))
    with ([x; Report.Sql s] ++ Report.join (Report.Sql s) (y :: q')).
  change (x :: y :: q') with ([x] ++ y :: q').
  rewrite !placeholders_app, IH. destruct x; reflexivity.
Qed.

Lemma plain_join (s : string) (q : list Report.piece) :
  Report.plain (Report.Sql s) = true ->
  forallb Report.plain q = true ->
  forallb Report.plain (Report.join (Report.Sql s) q) = true.
Proof.
  intros Hs. induction q as [|x q IH]; [reflexivity|].
  destruct q as [|y q']; [intros H; exact H|].
  change (Report.join (Report.Sql s) (x :: y :: q'))
    with (x :: Report.Sql s :: Report.join (Report.Sql s) (y :: q')).
  intros H. cbn [forallb] in H. apply andb_prop in H as [Hx Hrest].
  cbn [forallb]. rewrite Hx, Hs. cbn [andb]. apply IH. exact Hrest.
Qed.

Lemma map_join {A B : Type} (f : A -> B) (sep : A) (l : list A) :
  map f (Report.join sep l) = Report.join (f sep) (map f l).
Proof.
  induction l as [|x l IH]; [reflexivity|].
  destruct l as [|y l']; [reflexivity|].
  change (Report.join sep (x :: y :: l'))
    with (x :: sep :: Report.join sep (y :: l')).
  cbn [map]. cbn [map] in IH. rewrite IH. reflexivity.
Qed.

Lemma title_placeholders (l : list cell) : forall k : nat,
  Report.placeholders (imap (fun i _ => Report.Placeholder (k + i)) l)
  = seq k (length l).
Proof.
  induction l as [|x l IH]; intros k; [reflexivity|].
  rewrite imap_cons.
  change (Report.placeholders
            (Report.Placeholder (k + 0)
             :: imap ((fun i _ => Report.Placeholder (k + i)) ∘ S) l))
    with ((k + 0)
          :: Report.placeholders
               (imap ((fun i _ => Report.Placeholder (k + i)) ∘ S) l)).
  rewrite Nat.add_0_r. cbn [length seq]. f_equal.
  rewrite <- (IH (S k)). f_equal. apply imap_ext.
  intros i y _. cbn. f_equal. lia.
Qed.

Lemma title_placeholders_plain (l : list cell) : forall k : nat,
  forallb Report.plain (imap (fun i _ => Report.Placeholder (k + i)) l)
  = true.
Proof.
  induction l as [|x l IH]; intros k; [reflexivity|].
  rewrite imap_cons. cbn [forallb Report.plain andb].
  rewrite <- (IH (S k)). f_equal. apply imap_ext.
  intros i y _. cbn. f_equal. lia.
Qed.

Lemma title_values (l : list cell) : forall pre : list cell,
  map (Report.bind (pre ++ l))
    (imap (fun i _ => Report.Placeholder (S (length pre) + i)) l)
  = map (fun t => Report.Value (Some t)) l.
Proof.
  induction l as [|x l IH]; intros pre; [reflexivity|].
  rewrite imap_cons. cbn [map]. f_equal.
  - rewrite Nat.add_0_r. cbn [Report.bind].
    rewrite list_lookup_middle by reflexivity. reflexivity.
  - rewrite <- (IH (pre ++ [x])). rewrite <- app_assoc. cbn [app].
    f_equal. apply imap_ext. intros i y _. cbn. f_equal.
    rewrite length_app. cbn [length]. lia.
Qed.

Lemma bind_more_values (ps extra : list cell) (q : list Report.piece) :
  (forall n : nat, n ∈ Report.placeholders q -> 1 <= n <= length ps) ->
  map (Report.bind (ps ++ extra)) q = map (Report.bind ps) q.
Proof.
  induction q as [|p q IH]; intros Hin; [reflexivity|].
  cbn [map]. f_equal.
  - destruct p as [s|n]; [reflexivity|].
    assert (Hn : 1 <= n <= length ps).
    { apply Hin. unfold Report.placeholders. cbn.
      apply elem_of_cons. left. reflexivity. }
    destruct n as [|i]; [lia|]. cbn [Report.bind].
    rewrite lookup_app_l by lia. reflexivity.
  - apply IH. intros n Hn. apply Hin.
    destruct p as [s|m]; [exact Hn|].
    unfold Report.placeholders. cbn. apply elem_of_cons. right. exact Hn.
Qed.

Lemma well_numbered_extend (b : Report.builder) (e : list Report.bound)
    (new : list Report.piece) (vals : list cell)
    (enew : list Report.bound) :
  Report.well_numbered b e ->
  Report.placeholders new = seq (Report.paramIndex b) (length vals) ->
  forallb Report.plain new = true ->
  map (Report.bind (Report.params b ++ vals)) new = enew ->
  Report.well_numbered
    (Report.Builder (Report.query b ++ new) (Report.params b ++ vals)
       (Report.paramIndex b + length vals))
    (e ++ enew).
Proof.
  intros (Hp & Hi & Hpl & Hb) Hn Hpn He. unfold Report.well_numbered.
  cbn [Report.query Report.params Report.paramIndex].
  split; [|split; [|split]].
  - rewrite placeholders_app, Hp, Hn, Hi, length_app, seq_app.
    reflexivity.
  - rewrite Hi, length_app. reflexivity.
  - rewrite forallb_app, Hpl, Hpn. reflexivity.
  - rewrite map_app, He. f_equal. rewrite <- Hb. apply bind_more_values.
    intros n Hin. rewrite Hp in Hin. apply elem_of_seq in Hin. lia.
Qed.

Lemma well_numbered_scalar (b : Report.builder) (e : list Report.bound)
    (sql : string) (v : cell) :
  Report.well_numbered b e ->
  Report.plain (Report.Sql sql) = true ->
  Report.well_numbered
    (Report.Builder
       (Report.query b ++ [Report.Sql sql;
                           Report.Placeholder (Report.paramIndex b)])
       (Report.params b ++ [v]) (Report.paramIndex b + 1))
    (e ++ [Report.Text sql; Report.Value (Some v)]).
Proof.
  intros Hw Hsql.
  apply (well_numbered_extend b e _ [v]); [exact Hw|reflexivity| |].
  - cbn [forallb]. rewrite Hsql. reflexivity.
  - destruct Hw as (_ & Hi & _). cbn [map Report.bind]. rewrite Hi.
    rewrite list_lookup_middle by reflexivity. reflexivity.
Qed.

(** Whatever the filters of the report, the statement the handler sends
    holds exactly as many placeholders as it passes values, numbered
    [$1, $2, ...] in the order of the values, and no other [$]; with
    every placeholder replaced by the value bound to it, the statement
    reads: the start date (if given) as lower bound of [order_date], the
    end date as upper bound, the titles as the list of [title IN], and
    the publisher between two [%] as the pattern of [LIKE]. *)
Theorem report_statement_binds_every_value
    (publisher startDate endDate : option cell)
    (titles : option (list cell)) :
  let q := fst (Report.statement publisher startDate endDate titles) in
  let ps := snd (Report.statement publisher startDate endDate titles) in
  Report.placeholders q = seq 1 (length ps)
  /\ forallb Report.plain q = true
  /\ map (Report.bind ps) q =
     [Report.Text Report.select_customers]
     ++ Report.condition " AND order_date >= " startDate
     ++ Report.condition " AND order_date <= " endDate
     ++ Report.title_condition titles
     ++ Report.publisher_condition publisher
     ++ [Report.Text Report.group_order].
Proof.
  assert (H0 : Report.well_numbered Report.start
                 [Report.Text Report.select_customers]).
  { repeat split. }
  assert (H1 : Report.well_numbered
                 (Report.add_startDate startDate Report.start)
                 ([Report.Text Report.select_customers]
                  ++ Report.condition " AND order_date >= " startDate)).
  { unfold Report.add_startDate, Report.condition.
    destruct startDate as [v|]; [destruct (truthy v)|];
      try (rewrite app_nil_r; exact H0).
    apply well_numbered_scalar; [exact H0|reflexivity]. }
  set (b1 := Report.add_startDate startDate Report.start) in *.
  set (e1 := [Report.Text Report.select_customers]
             ++ Report.condition " AND order_date >= " startDate) in *.
  assert (H2 : Report.well_numbered (Report.add_endDate endDate b1)
                 (e1 ++ Report.condition " AND order_date <= " endDate)).
  { unfold Report.add_endDate, Report.condition.
    destruct endDate as [v|]; [destruct (truthy v)|];
      try (rewrite app_nil_r; exact H1).
    apply well_numbered_scalar; [exact H1|reflexivity]. }
  set (b2 := Report.add_endDate endDate b1) in *.
  set (e2 := e1 ++ Report.condition " AND order_date <= " endDate) in *.
  assert (H3 : Report.well_numbered (Report.add_titles titles b2)
                 (e2 ++ Report.title_condition titles)).
  { unfold Report.add_titles, Report.title_condition.
    destruct titles as [[|t l]|]; try (rewrite app_nil_r; exact H2).
    cbv zeta.
    apply (well_numbered_extend b2 e2
             ([Report.Sql " AND title IN ("]
              ++ Report.join (Report.Sql ",")
                   (imap (fun i _ =>
                            Report.Placeholder (Report.paramIndex b2 + i))
                      (t :: l))
              ++ [Report.Sql ")"])
             (t :: l)); [exact H2| | |].
    - rewrite !placeholders_app, placeholders_join, title_placeholders.
      change (Report.placeholders [Report.Sql ")"]) with (@nil nat).
      rewrite app_nil_r. reflexivity.
    - rewrite !forallb_app, plain_join;
        [reflexivity|reflexivity|apply title_placeholders_plain].
    - destruct H2 as (_ & Hi & _). rewrite !map_app, map_join, Hi.
      rewrite title_values. reflexivity. }
  set (b3 := Report.add_titles titles b2) in *.
  set (e3 := e2 ++ Report.title_condition titles) in *.
  assert (H4 : Report.well_numbered (Report.add_publisher publisher b3)
                 (e3 ++ Report.publisher_condition publisher)).
  { unfold Report.add_publisher, Report.publisher_condition.
    destruct publisher as [v|]; [destruct (truthy v)|];
      try (rewrite app_nil_r; exact H3).
    apply (well_numbered_extend b3 e3 _
             [CStr (String "%" (String.append (to_string v) "%"))]);
      [exact H3|reflexivity|reflexivity|].
    destruct H3 as (_ & Hi & _). cbn [map Report.bind]. rewrite Hi.
    rewrite list_lookup_middle by reflexivity. reflexivity. }
  set (b4 := Report.add_publisher publisher b3) in *.
  destruct H4 as (Hp & Hi & Hpl & Hb).
  change (Report.statement publisher startDate endDate titles)
    with (Report.query b4 ++ [Report.Sql Report.group_order],
          Report.params b4).
  cbv zeta. cbn [fst snd]. split; [|split].
  - rewrite placeholders_app, Hp. apply app_nil_r.
  - rewrite forallb_app, Hpl. reflexivity.
  - rewrite map_app, Hb. unfold e3, e2, e1. rewrite <- !app_assoc.
    reflexivity.
Qed.

(** ** The exported date, read back *)

Lemma all_between_spec (p : Z -> bool) (lo : Z) (n : nat) :
  ExportAll.all_between p lo n = true ->
  forall z : Z, (lo <= z < lo + Z.of_nat n)%Z -> p z = true.
Proof.
  unfold ExportAll.all_between. intros H z Hz.
  rewrite forallb_forall in H.
  replace z with (lo + Z.of_nat (Z.to_nat (z - lo)))%Z by lia.
  apply H. apply in_seq. lia.
Qed.

Lemma two_digits_text (n : Z) :
  (1 <= n <= 31)%Z ->
  all_digits (ExportAll.two_digits n) = true
  /\ String.length (ExportAll.two_digits n) = 2
  /\ digits_value (ExportAll.two_digits n) = n.
Proof.
  intros Hn.
  pose proof (all_between_spec
    (fun z => all_digits (ExportAll.two_digits z)
              && (String.length (ExportAll.two_digits z) =? 2)%nat
              && (digits_value (ExportAll.two_digits z) =? z)%Z) 1 31) as H.
  specialize (H ltac:(vm_compute; reflexivity) n ltac:(lia)).
  apply andb_prop in H as [H H3]. apply andb_prop in H as [H1 H2].
  apply Nat.eqb_eq in H2. apply Z.eqb_eq in H3. repeat split; assumption.
Qed.

Lemma year_text (y : Z) :
  (1000 <= y <= 9999)%Z ->
  all_digits (digits_of y) = true
  /\ String.length (digits_of y) = 4
  /\ digits_value (digits_of y) = y.
Proof.
  intros Hy.
  pose proof (all_between_spec
    (fun z => all_digits (digits_of z)
              && (String.length (digits_of z) =? 4)%nat
              && (digits_value (digits_of z) =? z)%Z) 1000
    (Z.to_nat 9000)) as H.
  specialize (H ltac:(vm_compute; reflexivity) y ltac:(lia)).
  apply andb_prop in H as [H H3]. apply andb_prop in H as [H1 H2].
  apply Nat.eqb_eq in H2. apply Z.eqb_eq in H3. repeat split; assumption.
Qed.

Lemma civil_from_days_fields (z : Z) :
  (1 <= ExportAll.month (ExportAll.civil_from_days z) <= 12)%Z
  /\ (1 <= ExportAll.day (ExportAll.civil_from_days z) <= 31)%Z.
Proof.
  unfold ExportAll.civil_from_days. cbv zeta. cbn [ExportAll.month ExportAll.day].
  match goal with
  | |- context [(?a <? 10)%Z] => destruct (Z.ltb_spec a 10)
  end; Z.to_euclidean_division_equations; lia.
Qed.

Lemma days_from_civil_from_days (z : Z) :
  days_from_civil (ExportAll.year (ExportAll.civil_from_days z))
    (ExportAll.month (ExportAll.civil_from_days z))
    (ExportAll.day (ExportAll.civil_from_days z)) = z.
Proof.
  unfold ExportAll.civil_from_days, days_from_civil. cbv zeta.
  cbn [ExportAll.year ExportAll.month ExportAll.day].
  repeat match goal with
  | |- context [(?a <? ?b)%Z] => destruct (Z.ltb_spec a b)
  | |- context [(?a <=? ?b)%Z] => destruct (Z.leb_spec a b)
  end; Z.to_euclidean_division_equations; lia.
Qed.

Lemma MakeDay_days_from_civil (y m d : Z) :
  (1 <= m <= 12)%Z -> MakeDay y (m - 1) d = days_from_civil y m d.
Proof.
  intros Hm. unfold MakeDay. cbv zeta.
  replace ((m - 1) / 12)%Z with 0%Z
    by (symmetry; apply Z.div_small; lia).
  replace ((m - 1) mod 12)%Z with (m - 1)%Z
    by (symmetry; apply Z.mod_small; lia).
  replace (y + 0)%Z with y by lia. replace (m - 1 + 1)%Z with m by lia.
  unfold days_from_civil. cbv zeta. lia.
Qed.

Lemma to_double_short (n : Z) :
  (0 <= n < 10 ^ 15)%Z -> to_double n 0 = Dec n 0.
Proof.
  intros Hn. unfold to_double.
  destruct (Z.eqb_spec n 0) as [->|Hne]; [reflexivity|].
  unfold short. rewrite Z.abs_eq by lia.
  destruct (Z.ltb_spec n (10 ^ 15)); [reflexivity|lia].
Qed.

Lemma parseInt_digits (s : string) :
  all_digits s = true -> s <> EmptyString ->
  (digits_value s < 10 ^ 15)%Z ->
  parseInt s = Dec (digits_value s) 0.
Proof.
  intros Hd Hne Hlt. destruct s as [|c t]; [contradiction|].
  assert (Hc : is_digit c = true).
  { unfold all_digits in Hd. cbn [str_forall] in Hd.
    apply andb_prop in Hd as [Hc _]. exact Hc. }
  assert (Hsolid : digit_or_slash c = true).
  { unfold digit_or_slash. rewrite Hc. reflexivity. }
  unfold parseInt. rewrite (trimStart_solid c t Hsolid).
  assert (Hsign : take_sign (String c t) = (false, String c t)).
  { unfold take_sign. destruct (digit_or_slash_solid c Hsolid) as (-> & _).
    destruct (Ascii.eqb c "+") eqn:Hplus; [|reflexivity].
    apply Ascii.eqb_eq in Hplus. subst c. discriminate Hc. }
  rewrite Hsign.
  assert (Hspan : forall u : string, all_digits u = true ->
            span_digits u = (u, EmptyString)).
  { induction u as [|a u IH]; [reflexivity|]. intros Hu.
    unfold all_digits in Hu. cbn [str_forall] in Hu.
    apply andb_prop in Hu as [Ha Hu]. cbn [span_digits].
    rewrite Ha, (IH Hu). reflexivity. }
  rewrite (Hspan _ Hd). cbn [signed]. apply to_double_short.
  split; [|exact Hlt]. unfold digits_value.
  apply digits_value_from_nonneg; [lia|exact Hd].
Qed.

(** Node.js on a date written with two digits for the day, two for the
    month and four for the year: month first when the first field can be
    a month, day first otherwise. *)
Lemma node_reads_two_digit_fields (other : string -> jsdate)
    (a b c : string) :
  all_digits a = true -> all_digits b = true -> all_digits c = true ->
  String.length a = 2 -> String.length b = 2 -> String.length c = 4 ->
  (1 <= digits_value a <= 31)%Z ->
  (1 <= digits_value b <= 12)%Z ->
  (1000 <= digits_value c <= 9999)%Z ->
  parseExcelDate (Node.utc_host other)
    (VCell (CStr (String.append a
                    (String "/" (String.append b (String "/" c)))))) =
  Some (DateAt
          ((if (digits_value a <=? 12)%Z
            then days_from_civil (digits_value c) (digits_value a)
                   (digits_value b)
            else days_from_civil (digits_value c) (digits_value b)
                   (digits_value a)) * msPerDay)).
Proof.
  intros Ha Hb Hc Hla Hlb Hlc Hav Hbv Hcv.
  set (s := String.append a (String "/" (String.append b (String "/" c)))).
  assert (Hsolid : str_forall digit_or_slash s = true).
  { unfold s. rewrite str_forall_app, (all_digits_solid a Ha).
    cbn [str_forall andb]. unfold digit_or_slash at 1.
    rewrite str_forall_app, (all_digits_solid b Hb).
    cbn [str_forall andb]. apply (all_digits_solid c Hc). }
  assert (Hne : exists ch t, s = String ch t).
  { unfold s. destruct a as [|ch a']; [discriminate Hla|].
    eexists _, _. reflexivity. }
  assert (Hsplit : split "/" s = [a; b; c]).
  { unfold s. rewrite split_digits_then by (reflexivity || exact Ha).
    rewrite split_digits_then by (reflexivity || exact Hb).
    rewrite split_digits by (reflexivity || exact Hc). reflexivity. }
  assert (Hiso : Node.iso_date s = None).
  { unfold Node.iso_date. rewrite split_without; [reflexivity|].
    apply (str_forall_impl digit_or_slash); [|exact Hsolid].
    intros ch Hch. destruct (digit_or_slash_solid ch Hch) as (-> & _).
    reflexivity. }
  assert (Hyear : Node.legacy_year (digits_value c) = digits_value c).
  { unfold Node.legacy_year.
    destruct (Z.leb_spec (digits_value c) 49);
      [lia|rewrite andb_false_r].
    destruct (Z.leb_spec (digits_value c) 99);
      [lia|rewrite andb_false_r]. reflexivity. }
  assert (Hane : Node.nonempty_digits a = true).
  { unfold Node.nonempty_digits. rewrite Ha, Hla. reflexivity. }
  assert (Hbne : Node.nonempty_digits b = true).
  { unfold Node.nonempty_digits. rewrite Hb, Hlb. reflexivity. }
  assert (Hcne : Node.nonempty_digits c = true).
  { unfold Node.nonempty_digits. rewrite Hc, Hlc. reflexivity. }
  assert (Hday_a : Node.is_day (digits_value a) = true).
  { unfold Node.is_day. apply andb_true_intro.
    split; apply Z.leb_le; lia. }
  assert (Hlegacy : Node.Date_parse other s =
            if (digits_value a <=? 12)%Z
            then DateAt (days_from_civil (digits_value c) (digits_value a)
                           (digits_value b) * msPerDay)
            else InvalidDate).
  { unfold Node.Date_parse. rewrite Hiso. unfold Node.legacy_slashes.
    rewrite Hsplit, Hane, Hbne, Hcne. cbn [andb]. rewrite Hday_a, Hyear.
    unfold Node.is_month.
    destruct (Z.leb_spec (digits_value a) 12) as [Hle|Hgt].
    - assert (H1 : (1 <=? digits_value a)%Z = true)
        by (apply Z.leb_le; lia).
      assert (Hday_b : Node.is_day (digits_value b) = true).
      { unfold Node.is_day. apply andb_true_intro.
        split; apply Z.leb_le; lia. }
      rewrite H1, Hday_b. cbn [andb]. unfold TimeClip.
      assert (Hin : (Z.abs (MakeDay (digits_value c) (digits_value a - 1)
                              (digits_value b) * msPerDay)
                     <=? max_time)%Z = true).
      { apply Z.leb_le. apply MakeDay_in_range; lia. }
      rewrite Hin, MakeDay_days_from_civil by lia. reflexivity.
    - rewrite andb_false_r. reflexivity. }
  destruct Hne as (ch & t & Hs_eq).
  unfold parseExcelDate. rewrite Hs_eq. cbn [truthy negb]. rewrite <- Hs_eq.
  destruct (Z.leb_spec (digits_value a) 12) as [Hle|Hgt].
  - unfold parse_date_string. rewrite (trim_solid s Hsolid).
    change (Date_parse (Node.utc_host other) s) with (Node.Date_parse other s).
    rewrite Hlegacy. reflexivity.
  - assert (Hfields :
      Date_of_fields (Node.utc_host other) (parseInt c) (sub_const (parseInt b) 1)
        (parseInt a)
      = DateAt (days_from_civil (digits_value c) (digits_value b)
                  (digits_value a) * msPerDay)).
    { rewrite !parseInt_digits
        by (assumption || (intros ->; discriminate) || lia).
      rewrite sub_const_integer
        by (rewrite ?Z.pow_0_r, ?Z.mul_1_r; lia).
      unfold Date_of_fields, truncate.
      change (0 <=? 0)%Z with true. cbv iota.
      rewrite !Z.pow_0_r, !Z.mul_1_r.
      destruct (Z.leb_spec (digits_value c) 99);
        [lia|rewrite andb_false_r].
      change (0 <=? 0)%Z with true. cbv iota.
      cbn [UTC Node.utc_host]. unfold TimeClip.
      assert (Hin : (Z.abs (MakeDay (digits_value c) (digits_value b - 1)
                              (digits_value a) * msPerDay)
                     <=? max_time)%Z = true).
      { apply Z.leb_le. apply MakeDay_in_range; lia. }
      rewrite Hin, MakeDay_days_from_civil by lia. reflexivity. }
    rewrite (parse_date_string_day_first (Node.utc_host other) s a b c).
    + rewrite Hfields. reflexivity.
    + rewrite (trim_solid s Hsolid).
      change (Date_parse (Node.utc_host other) s) with (Node.Date_parse other s).
      rewrite Hlegacy. reflexivity.
    + rewrite (trim_solid s Hsolid). unfold re_dmy.
      rewrite Hsplit, Ha, Hb, Hc, Hla, Hlb, Hlc. reflexivity.
    + rewrite (trim_solid s Hsolid). exact Hsplit.
    + rewrite Hfields. reflexivity.
Qed.

(** A sale whose order date falls in the years 1000 to 9999 is exported
    with the date written day/month/year. Read back by [parseExcelDate]
    on Node.js, that text is the day that was stored only when its day
    of the month is after the 12th; up to the 12th the two fields are
    exchanged, and the date that comes back has the stored day as its
    month and the stored month as its day. *)
Theorem exported_date_read_back (other : string -> jsdate)
    (r : Pg.gazelle_sale) (t : Z) :
  Pg.order_date r = Some (DateAt t) ->
  (1000 <= ExportAll.year (ExportAll.civil_from_days (t / msPerDay)) <= 9999)%Z ->
  let c := ExportAll.civil_from_days (t / msPerDay) in
  parseExcelDate (Node.utc_host other) (VCell (CStr (ExportAll.order_date_text r))) =
  Some (if (ExportAll.day c <=? 12)%Z
        then DateAt (days_from_civil (ExportAll.year c) (ExportAll.day c)
                       (ExportAll.month c) * msPerDay)
        else ExportAll.date_column (DateAt t)).
Proof.
  intros Hr Hy c.
  assert (Hday : ((t / msPerDay * msPerDay) / msPerDay = t / msPerDay)%Z).
  { apply Z.div_mul. discriminate. }
  unfold ExportAll.order_date_text. rewrite Hr.
  unfold ExportAll.date_column, ExportAll.toLocaleDateString_en_GB.
  rewrite Hday. fold c. cbv zeta.
  destruct (civil_from_days_fields (t / msPerDay)) as [Hm Hd].
  fold c in Hm, Hd, Hy.
  assert (H1 : (1 <=? ExportAll.year c)%Z = true) by (apply Z.leb_le; lia).
  rewrite H1.
  destruct (two_digits_text (ExportAll.day c) Hd) as (Ha & Hla & Hav).
  destruct (two_digits_text (ExportAll.month c)) as (Hb & Hlb & Hbv); [lia|].
  destruct (year_text (ExportAll.year c) Hy) as (Hc & Hlc & Hcv).
  rewrite (node_reads_two_digit_fields other _ _ _ Ha Hb Hc Hla Hlb Hlc)
    by (rewrite ?Hav, ?Hbv, ?Hcv; lia).
  rewrite Hav, Hbv, Hcv.
  destruct (ExportAll.day c <=? 12)%Z; [reflexivity|].
  unfold c. rewrite days_from_civil_from_days. reflexivity.
Qed.

(** The 5th of March 2024 comes back as the 3rd of May 2024. *)
Lemma exported_date_read_back_witness :
  let r := Pg.GazelleSale "SO-1" (Some (DateAt 1709596800000)) "Shop" ""
             "" "" "" 1 (Pg.Numeric 0) (Pg.Numeric 0) "" "" in
  Pg.order_date r = Some (DateAt 1709596800000)
  /\ ExportAll.order_date_text r = "05/03/2024"
  /\ parseExcelDate node_js (VCell (CStr (ExportAll.order_date_text r)))
     = Some (DateAt 1714694400000).
Proof.
  cbv zeta. split; [reflexivity|]. split; [vm_compute; reflexivity|].
  exact (exported_date_read_back (fun _ => InvalidDate)
           (Pg.GazelleSale "SO-1" (Some (DateAt 1709596800000)) "Shop" ""
              "" "" "" 1 (Pg.Numeric 0) (Pg.Numeric 0) "" "")
           1709596800000 eq_refl
           ltac:(vm_compute; split; discriminate)).
Defined.

(** ** The totals after an upload and after clearing *)

(** The totals of [/api/stats] follow the answers of the uploads: after
    a Booksonix upload, whether it succeeded or failed, the total of
    Booksonix records has grown by the number of new records the answer
    reports and the totals of the sales are the same; after a Gazelle
    upload the total of sales has grown by the number of new records it
    reports and the total of Booksonix records is the same. *)
Theorem stats_follow_uploads (h : host) (req_file : option string)
    (w : Server.world) :
  let b := Server.booksonix_upload req_file w in
  let g := Server.gazelle_upload h req_file w in
  Maintenance.total_booksonix (Maintenance.totals_of (snd b))
  = Maintenance.total_booksonix (Maintenance.totals_of w)
    + Maintenance.reported_new (fst b)
  /\ Server.gazelle_sales (snd b) = Server.gazelle_sales w
  /\ Maintenance.total_gazelle (Maintenance.totals_of (snd g))
     = Maintenance.total_gazelle (Maintenance.totals_of w)
       + Maintenance.reported_new (fst g)
  /\ Maintenance.total_records (Maintenance.totals_of (snd g))
     = Maintenance.total_gazelle (Maintenance.totals_of (snd g))
  /\ Server.booksonix_records (snd g) = Server.booksonix_records w.
Proof.
  cbv zeta. destruct req_file as [path|].
  2:{ cbn. repeat split; lia. }
  rewrite booksonix_upload_cases, gazelle_upload_cases.
  destruct (Server.files w !! path) as [[|data]|] eqn:Hfile.
  - cbn. repeat split; lia.
  - cbv zeta. cbn.
    pose proof (booksonix_loop_size data Booksonix.zero
                  (Server.booksonix_records w)) as Hb.
    pose proof (gazelle_loop_result h data 0 Gazelle.zero
                  (Server.gazelle_sales w)) as Hg.
    cbv zeta in Hg. destruct Hg as (Hnew & _ & _ & _ & Htbl).
    fold (Booksonix.ingest data (Server.booksonix_records w)) in Hb.
    fold (Gazelle.ingest h data (Server.gazelle_sales w)) in Hnew, Htbl.
    cbn in Hb, Hnew. rewrite Htbl, Hnew, length_app.
    repeat split; lia.
  - cbn. repeat split; lia.
Qed.

(** Clearing the Booksonix records answers with the total that
    [/api/stats] gave just before, leaves the sales as they are and the
    total of Booksonix records at 0; after the next upload that total is
    the number of new records the upload reports. *)
Theorem clear_booksonix_resets_total (req_file : option string)
    (w : Server.world) :
  let c := Maintenance.clear_booksonix w in
  let b := Server.booksonix_upload req_file (snd c) in
  fst c = Server.Returned
            (Maintenance.total_booksonix (Maintenance.totals_of w))
  /\ Maintenance.total_booksonix (Maintenance.totals_of (snd c)) = 0
  /\ Server.gazelle_sales (snd c) = Server.gazelle_sales w
  /\ Maintenance.total_booksonix (Maintenance.totals_of (snd b))
     = Maintenance.reported_new (fst b).
Proof.
  cbv zeta. split; [reflexivity|]. split; [reflexivity|].
  split; [reflexivity|].
  destruct req_file as [path|]; [|reflexivity].
  rewrite booksonix_upload_cases. cbn [snd Maintenance.clear_booksonix
    Server.files Server.booksonix_records Server.gazelle_sales].
  destruct (Server.files w !! path) as [[|data]|] eqn:Hfile;
    [reflexivity| |reflexivity].
  cbv zeta. cbn.
  pose proof (booksonix_loop_size data Booksonix.zero ∅) as Hb.
  fold (Booksonix.ingest data ∅) in Hb. cbn in Hb.
  rewrite map_size_empty in Hb. lia.
Qed.

(** Clearing the sales answers with the total of sales that [/api/stats]
    gave just before, leaves the Booksonix records as they are and no
    sale, customer or title to count; after the next Gazelle upload the
    total of sales is the number of new records the upload reports. *)
Theorem clear_data_resets_totals (h : host) (req_file : option string)
    (w : Server.world) :
  let c := Maintenance.clear_data w in
  let g := Server.gazelle_upload h req_file (snd c) in
  fst c = Server.Returned
            (Maintenance.total_gazelle (Maintenance.totals_of w))
  /\ Maintenance.totals_of (snd c)
     = Maintenance.Totals 0 0 0 0
         (Maintenance.total_booksonix (Maintenance.totals_of w)) 0
  /\ Maintenance.total_gazelle (Maintenance.totals_of (snd g))
     = Maintenance.reported_new (fst g).
Proof.
  cbv zeta. split; [reflexivity|]. split; [reflexivity|].
  destruct req_file as [path|]; [|reflexivity].
  rewrite gazelle_upload_cases. cbn [snd Maintenance.clear_data
    Server.files Server.booksonix_records Server.gazelle_sales].
  destruct (Server.files w !! path) as [[|data]|] eqn:Hfile;
    [reflexivity| |reflexivity].
  cbv zeta. cbn.
  pose proof (gazelle_loop_result h data 0 Gazelle.zero []) as Hg.
  cbv zeta in Hg. destruct Hg as (Hnew & _ & _ & _ & Htbl).
  fold (Gazelle.ingest h data []) in Hnew, Htbl.
  cbn in Hnew. rewrite Htbl, Hnew. reflexivity.
Qed.

(** ** Editing a user *)

Lemma taken_false (column : Users.user -> string) (value : string) (id : Z)
    (tbl : gmap Z Users.user) :
  Users.taken column value id tbl = false ->
  forall (k : Z) (v : Users.user),
    tbl !! k = Some v -> k <> id -> column v <> value.
Proof.
  unfold Users.taken. intros H k v Hk Hne Heq.
  assert (Hex : existsb (fun p => negb (fst p =? id)%Z
                          && String.eqb (column (snd p)) value)
                  (map_to_list tbl) = true).
  { apply existsb_exists. exists (k, v). split.
    - apply list_elem_of_In, elem_of_map_to_list. exact Hk.
    - cbn [fst snd]. apply andb_true_intro. split.
      + apply negb_true_iff, Z.eqb_neq. exact Hne.
      + apply String.eqb_eq. exact Heq. }
  congruence.
Qed.

(** Editing a user makes no check on administrators, where deleting one
    does: when the request names an existing user, gives a user name and
    an e-mail that fit their columns and that no other user holds, no
    password, and a role that is not admin (or none), the answer is a
    success and the user has the role of the request; if that user was
    the only administrator, no administrator is left. *)
Theorem update_user_can_leave_no_admin (int4in : string -> option Z)
    (hash : string -> string) (checks_values_first : bool)
    (id_text : string) (id : Z) (tbl : gmap Z Users.user)
    (u : Users.user) (n e : string) (role : option cell)
    (n' e' : string) (r' : option string) :
  int4in id_text = Some id ->
  tbl !! id = Some u ->
  Users.new_values (Some (CStr n)) (Some (CStr e)) role None
  = Pg.Ok (Some n', Some e', r', None) ->
  Users.taken Users.username n' id tbl = false ->
  Users.taken Users.email e' id tbl = false ->
  r' <> Some "admin" ->
  Users.update_user int4in hash checks_values_first id_text
    (Some (CStr n)) (Some (CStr e)) None role tbl
  = (Users.Updated,
     <[id := Users.User n' e' (Users.password u) r']> tbl)
  /\ (Users.other_admins id tbl = 0 ->
      forall (k : Z) (v : Users.user),
        <[id := Users.User n' e' (Users.password u) r']> tbl !! k = Some v ->
        Users.is_admin v = false).
Proof.
  intros Hid Hu Hvalues Hn He Hrole. split.
  - unfold Users.update_user. cbn [Users.hashed_password].
    rewrite Hid, Hvalues, Hu, Hn, He. reflexivity.
  - intros Hothers k v Hk.
    destruct (decide (k = id)) as [->|Hne].
    + rewrite lookup_insert_eq in Hk. injection Hk as <-.
      unfold Users.is_admin. cbn [Users.role].
      destruct r' as [r|]; [|reflexivity].
      apply String.eqb_neq. congruence.
    + rewrite lookup_insert_ne in Hk by congruence.
      destruct (Users.is_admin v) eqn:Hv; [|reflexivity].
      exfalso. apply Hne.
      exact (other_admins_zero id tbl Hothers k v Hk Hv).
Qed.

Lemma update_user_can_leave_no_admin_witness :
  let read (s : string) : option Z := Some (digits_value s) in
  let tbl : gmap Z Users.user :=
    {[ 1%Z := Users.User "admin" "admin@antennebooks.com" "x" (Some "admin");
       2%Z := Users.User "ed" "ed@antennebooks.com" "y" (Some "editor") ]} in
  fst (Users.delete_user read "1" tbl) = Users.LastAdmin
  /\ Users.update_user read (fun s => s) true "1" (Some (CStr "admin"))
       (Some (CStr "admin@antennebooks.com")) None (Some (CStr "editor")) tbl
     = (Users.Updated,
        <[1%Z := Users.User "admin" "admin@antennebooks.com" "x"
                   (Some "editor")]> tbl).
Proof.
  cbv zeta. split; [vm_compute; reflexivity|].
  exact (proj1 (update_user_can_leave_no_admin
    (fun s => Some (digits_value s)) (fun s => s) true "1" 1%Z
    {[ 1%Z := Users.User "admin" "admin@antennebooks.com" "x" (Some "admin");
       2%Z := Users.User "ed" "ed@antennebooks.com" "y" (Some "editor") ]}
    (Users.User "admin" "admin@antennebooks.com" "x" (Some "admin"))
    "admin" "admin@antennebooks.com" (Some (CStr "editor"))
    "admin" "admin@antennebooks.com" (Some "editor")
    eq_refl eq_refl eq_refl
    ltac:(vm_compute; reflexivity) ltac:(vm_compute; reflexivity)
    ltac:(discriminate))).
Defined.
